(** * Proxmox Ansible integration: the playbook registry, the operation
      mappers and the process runner of [proxmox_helpers/ansible_manager.py],
      with the command surface of [proxmox_helpers/ansible_cli.py].

    The Python code is embedded shallowly.  Strings are [string]s whose
    characters stand for the code points 0..255, Python dictionaries are
    insertion-ordered association lists with unique keys, dynamically typed
    values are the inductive type [pyvalue], and the one effect of the
    program, [subprocess.run], is a call to an executor that is recorded in
    a trace by a small monad [Proc].  The module [JsonFull] has the values
    in full, with floats and strings of all code points, for what
    [json.loads] reads back from the argument of [--extra-vars]. *)

From Stdlib Require Import List String Ascii Bool Arith ZArith Lia.
From Stdlib Require Import DecimalString.
From Stdlib Require DecimalZ DecimalPos DecimalFacts.
Import ListNotations.
Local Open Scope list_scope.
Local Open Scope string_scope.
#[local] Set Warnings "-register-all".


(* ================================================================== *)
(** ** Python string primitives *)
(* ================================================================== *)

Module PyStr.

(** [s.startswith(p)]. *)
Fixpoint startswith (p s : string) : bool :=
  match p with
  | EmptyString => true
  | String a p' =>
      match s with
      | EmptyString => false
      | String b s' => Ascii.eqb a b && startswith p' s'
      end
  end.

(** [s.endswith(suf)]: some suffix of [s] is [suf]. *)
Fixpoint endswith (suf s : string) : bool :=
  if String.eqb s suf then true
  else match s with
       | EmptyString => false
       | String _ s' => endswith suf s'
       end.

(** [s.endswith((suf1, suf2, ...))] with a tuple of suffixes. *)
Definition endswith_any (sufs : list string) (s : string) : bool :=
  existsb (fun suf => endswith suf s) sufs.

(** The scan of [s.replace(old, new)] for a non-empty [old]: occurrences
    are found left to right and do not overlap; [skip] counts the
    characters of the current occurrence that are still to be dropped. *)
Fixpoint replace_from (old new : string) (skip : nat) (s : string) : string :=
  match s with
  | EmptyString => EmptyString
  | String c s' =>
      match skip with
      | S k => replace_from old new k s'
      | O =>
          if startswith old s
          then new ++ replace_from old new (String.length old - 1) s'
          else String c (replace_from old new 0 s')
      end
  end.

(** With an empty [old], Python puts [new] before every character and at
    the end. *)
Fixpoint interleave (new s : string) : string :=
  match s with
  | EmptyString => new
  | String c s' => new ++ String c (interleave new s')
  end.

(** [s.replace(old, new)]. *)
Definition replace (old new s : string) : string :=
  match old with
  | EmptyString => interleave new s
  | String _ _ => replace_from old new 0 s
  end.

(** [sep.join(parts)]. *)
Definition join (sep : string) (parts : list string) : string :=
  String.concat sep parts.

(** [pat in s]: [pat] occurs somewhere in [s]. *)
Fixpoint occurs (pat s : string) : bool :=
  startswith pat s ||
  match s with
  | EmptyString => false
  | String _ s' => occurs pat s'
  end.

(** An occurrence of [pat] in [stem ++ tail] that starts inside [stem]. *)
Fixpoint occurs_within (pat stem tail : string) : bool :=
  match stem with
  | EmptyString => false
  | String _ stem' =>
      startswith pat (stem ++ tail) || occurs_within pat stem' tail
  end.

(** [s[:len(s) - n]]. *)
Definition drop_last (n : nat) (s : string) : string :=
  String.substring 0 (String.length s - n) s.

End PyStr.

(** [os.path.join(a, b)] of [posixpath], for two components. *)
Definition os_path_join (a b : string) : string :=
  if PyStr.startswith "/" b then b
  else if String.eqb a "" || PyStr.endswith "/" a then a ++ b
  else a ++ "/" ++ b.

(* ================================================================== *)
(** ** Python dictionaries: insertion-ordered, unique keys *)
(* ================================================================== *)

Module Dict.
Section Dict.
Context {V : Type}.

Definition t := list (string * V).

Definition empty : t := [].

(** [d.get(k)] / [d[k]]. *)
Fixpoint get (k : string) (d : t) : option V :=
  match d with
  | [] => None
  | (k', v) :: d' => if String.eqb k k' then Some v else get k d'
  end.

(** [k in d]. *)
Definition mem (k : string) (d : t) : bool :=
  match get k d with Some _ => true | None => false end.

(** [d[k] = v]: an existing key keeps its position and takes the new
    value, a new key goes to the end. *)
Fixpoint set (k : string) (v : V) (d : t) : t :=
  match d with
  | [] => [(k, v)]
  | (k', v') :: d' =>
      if String.eqb k k' then (k', v) :: d' else (k', v') :: set k v d'
  end.

(** [d.update(other)]. *)
Definition update (d other : t) : t :=
  fold_left (fun acc kv => set (fst kv) (snd kv) acc) other d.

(** [d.keys()], in insertion order. *)
Definition keys (d : t) : list string := map fst d.

(** [dict(pairs)]. *)
Definition of_pairs (pairs : list (string * V)) : t := update empty pairs.

(** [{k: v for k, v in d.items() if k not in names}]. *)
Definition without (names : list string) (d : t) : t :=
  filter (fun kv => negb (existsb (String.eqb (fst kv)) names)) d.
End Dict.
Arguments t : clear implicits.
End Dict.

(* ================================================================== *)
(** ** The playbook registry *)
(* ================================================================== *)

Record AnsibleManager := mkAnsibleManager {
  ansible_path : string;
  inventory_path : string;
  playbooks_path : string;
  (** name -> file path *)
  available_playbooks : Dict.t string;
}.

(** The two recognised extensions of [_scan_playbooks]. *)
Definition playbook_extensions : list string := [".yml"; ".yaml"].

(** The name the scan gives to a file:
    [file.replace('.yml', '').replace('.yaml', '')]. *)
Definition playbook_name_of (file : string) : string :=
  PyStr.replace ".yaml" "" (PyStr.replace ".yml" "" file).

(** One iteration of the loop of [_scan_playbooks]. *)
Definition scan_step (playbooks_dir : string)
    (playbooks : Dict.t string) (file : string) : Dict.t string :=
  if PyStr.endswith_any playbook_extensions file
  then Dict.set (playbook_name_of file) (os_path_join playbooks_dir file) playbooks
  else playbooks.

(** [_scan_playbooks].  [listing] is [os.listdir(self.playbooks_path)], or
    [None] when the path does not exist. *)
Definition _scan_playbooks (playbooks_dir : string)
    (listing : option (list string)) : Dict.t string :=
  match listing with
  | None => Dict.empty
  | Some files => fold_left (scan_step playbooks_dir) files Dict.empty
  end.

(** [x or default] on an optional path: [None] and [''] are falsy. *)
Definition path_or (x : option string) (default : string) : string :=
  match x with
  | Some (String c s) => String c s
  | _ => default
  end.

(** [__init__].  [project_root] is the directory two levels above the
    module, [listdir] the directory listing of the file system after
    [_verify_paths] has created the missing directories. *)
Definition AnsibleManager_init (project_root : string)
    (listdir : string -> option (list string))
    (ansible_path_arg inventory_path_arg playbooks_path_arg : option string)
    : AnsibleManager :=
  let ap := path_or ansible_path_arg (os_path_join project_root "ansible_integration") in
  let ip := path_or inventory_path_arg (os_path_join ap "inventory") in
  let pp := path_or playbooks_path_arg (os_path_join ap "playbooks") in
  mkAnsibleManager ap ip pp (_scan_playbooks pp (listdir pp)).

(** [list_playbooks]. *)
Definition list_playbooks (mgr : AnsibleManager) : list string :=
  Dict.keys (available_playbooks mgr).

(** The file name with its extension stripped, as the specification words
    it: the recognised suffix, and nothing else, is removed. *)
Definition strip_extension (file : string) : string :=
  if PyStr.endswith ".yml" file then PyStr.drop_last 4 file
  else if PyStr.endswith ".yaml" file then PyStr.drop_last 5 file
  else file.

(** The files of a listing that carry a recognised extension. *)
Definition recognized (files : list string) : list string :=
  filter (PyStr.endswith_any playbook_extensions) files.

(** A stem that holds neither extension text. *)
Definition clean_stem (stem : string) : bool :=
  negb (PyStr.occurs ".yml" stem) && negb (PyStr.occurs ".yaml" stem).

(** The registry entry the scan makes for a file. *)
Definition entry_of (playbooks_dir file : string) : string * string :=
  (playbook_name_of file, os_path_join playbooks_dir file).

(** No occurrence of [pat] in [s ++ tail] starts in [s] and runs into
    [tail]: whenever [pat] does not start a non-empty [s], it does not
    start [s ++ tail] either. *)
Definition no_straddle (pat tail : string) : Prop :=
  forall s, s <> "" -> PyStr.startswith pat s = false ->
            PyStr.startswith pat (s ++ tail) = false.


(* ================================================================== *)
(** ** Python values *)
(* ================================================================== *)

(** The values that travel through the variable mappings: [None], [bool],
    [int], [str], [list], [tuple] and [dict] with string keys.  Floats are
    not part of this type; [JsonFull.value] has them. *)
Inductive pyvalue : Type :=
| PyNone
| PyBool (b : bool)
| PyInt (z : Z)
| PyStr (s : string)
| PyList (items : list pyvalue)
| PyTuple (items : list pyvalue)
| PyDict (d : list (string * pyvalue)).

(** A variable mapping ([Dict[str, Any]]). *)
Definition pydict := Dict.t pyvalue.

(** Truth value testing, as in [if node:]. *)
Definition truthy (v : pyvalue) : bool :=
  match v with
  | PyNone => false
  | PyBool b => b
  | PyInt z => negb (Z.eqb z 0)
  | PyStr s => negb (String.eqb s "")
  | PyList items => match items with [] => false | _ :: _ => true end
  | PyTuple items => match items with [] => false | _ :: _ => true end
  | PyDict d => match d with [] => false | _ :: _ => true end
  end.

(** Truth value of an optional string argument such as [limit_hosts]. *)
Definition given_str (o : option string) : bool :=
  match o with
  | Some s => negb (String.eqb s "")
  | None => false
  end.

(** The entry of a key that a mapper sets only under [if value:]. *)
Definition set_when_truthy (v : pyvalue) : option pyvalue :=
  if truthy v then Some v else None.

(** An optional string as a Python value ([None] when absent). *)
Definition py_of_opt (o : option string) : pyvalue :=
  match o with
  | Some s => PyStr s
  | None => PyNone
  end.

(** Item by item comparison of two sequences, and the comparison of two
    dictionaries by looking every key of the first up in the second. *)
Section Comparisons.
Variable A : Type.
Variable eqb : A -> A -> bool.

Fixpoint items_eqb (xs ys : list A) {struct xs} : bool :=
  match xs, ys with
  | [], [] => true
  | x :: xs', y :: ys' => eqb x y && items_eqb xs' ys'
  | _, _ => false
  end.

Fixpoint lookup_all (xs : list (string * A)) (ys : list (string * A))
    {struct xs} : bool :=
  match xs with
  | [] => true
  | (k, x) :: xs' =>
      match Dict.get k ys with
      | Some y => eqb x y && lookup_all xs' ys
      | None => false
      end
  end.
End Comparisons.
Arguments items_eqb {A} eqb xs ys.
Arguments lookup_all {A} eqb xs ys.

(** Python's [==] on values: structural, except that [bool] is a subtype
    of [int] ([True == 1]); a list never equals a tuple. *)
Fixpoint py_eqb (a b : pyvalue) {struct a} : bool :=
  match a, b with
  | PyNone, PyNone => true
  | PyBool x, PyBool y => Bool.eqb x y
  | PyBool x, PyInt y => Z.eqb (if x then 1 else 0) y
  | PyInt x, PyBool y => Z.eqb x (if y then 1 else 0)
  | PyInt x, PyInt y => Z.eqb x y
  | PyStr x, PyStr y => String.eqb x y
  | PyList xs, PyList ys => items_eqb py_eqb xs ys
  | PyTuple xs, PyTuple ys => items_eqb py_eqb xs ys
  | PyDict xs, PyDict ys =>
      Nat.eqb (List.length xs) (List.length ys) && lookup_all py_eqb xs ys
  | _, _ => false
  end.

(** The values JSON has a form of its own for: no tuple anywhere inside. *)
Fixpoint json_native (v : pyvalue) : bool :=
  match v with
  | PyList items => forallb json_native items
  | PyTuple _ => false
  | PyDict d => forallb (fun kv => match kv with (_, x) => json_native x end) d
  | _ => true
  end.

(** The invariant of Python dictionaries, at every depth: keys are unique. *)
Fixpoint keys_unique (v : pyvalue) : Prop :=
  match v with
  | PyList items | PyTuple items =>
      (fix all (l : list pyvalue) : Prop :=
         match l with [] => True | x :: l' => keys_unique x /\ all l' end) items
  | PyDict d =>
      NoDup (map fst d) /\
      (fix all (l : list (string * pyvalue)) : Prop :=
         match l with [] => True | (_, x) :: l' => keys_unique x /\ all l' end) d
  | _ => True
  end.

(* ================================================================== *)
(** ** [json.dumps] with its default arguments *)
(* ================================================================== *)

Module Json.

Definition dquote : ascii := "034"%char.
Definition backslash : ascii := "092"%char.

(** One lowercase hexadecimal digit. *)
Definition hex_digit (n : nat) : ascii :=
  if (n <? 10)%nat then ascii_of_nat (48 + n) else ascii_of_nat (87 + n).

(** The replacement of one character in [py_encode_basestring_ascii]:
    the quote and the backslash are escaped, the usual control characters
    have their short form, everything else outside [' '..'~'] becomes
    [\u00xx]. *)
Definition escape_char (c : ascii) : string :=
  let n := nat_of_ascii c in
  if Ascii.eqb c dquote then String backslash (String dquote "")
  else if Ascii.eqb c backslash then String backslash (String backslash "")
  else if (n =? 10)%nat then "\n"
  else if (n =? 13)%nat then "\r"
  else if (n =? 9)%nat then "\t"
  else if (n =? 12)%nat then "\f"
  else if (n =? 8)%nat then "\b"
  else if (n <? 32)%nat || (126 <? n)%nat
       then "\u00" ++ String (hex_digit (n / 16)) (String (hex_digit (n mod 16)) "")
  else String c "".

Fixpoint escape (s : string) : string :=
  match s with
  | EmptyString => EmptyString
  | String c s' => escape_char c ++ escape s'
  end.

Definition encode_string (s : string) : string :=
  String dquote (escape s ++ String dquote "").

(** [int.__repr__]. *)
Definition encode_int (z : Z) : string :=
  NilZero.string_of_int (Z.to_int z).

(** [json.dumps(v)]: item separator [', '], key separator [': '],
    [ensure_ascii=True]; lists and tuples both become arrays. *)
Fixpoint dumps (v : pyvalue) : string :=
  match v with
  | PyNone => "null"
  | PyBool true => "true"
  | PyBool false => "false"
  | PyInt z => encode_int z
  | PyStr s => encode_string s
  | PyList items | PyTuple items =>
      "[" ++ PyStr.join ", " (map dumps items) ++ "]"
  | PyDict d =>
      "{" ++ PyStr.join ", "
               (map (fun kv => match kv with
                               | (k, x) => encode_string k ++ ": " ++ dumps x
                               end) d) ++ "}"
  end.

(** *** [json.loads] *)

(** The whitespace the decoder skips. *)
Definition is_ws (c : ascii) : bool :=
  Ascii.eqb c " " || Ascii.eqb c "009" || Ascii.eqb c "010" || Ascii.eqb c "013".

Fixpoint skip_ws (s : string) : string :=
  match s with
  | String c s' => if is_ws c then skip_ws s' else s
  | EmptyString => s
  end.

Definition hex_value (c : ascii) : option nat :=
  let n := nat_of_ascii c in
  if (48 <=? n)%nat && (n <=? 57)%nat then Some (n - 48)
  else if (97 <=? n)%nat && (n <=? 102)%nat then Some (n - 87)
  else if (65 <=? n)%nat && (n <=? 70)%nat then Some (n - 55)
  else None.

(** The code point of [\uXXXX]. *)
Definition hex4 (a b c d : ascii) : option nat :=
  match hex_value a, hex_value b, hex_value c, hex_value d with
  | Some x, Some y, Some z, Some w => Some (((x * 16 + y) * 16 + z) * 16 + w)
  | _, _, _, _ => None
  end.

(** The character a one-letter escape stands for. *)
Definition unescape (e : ascii) : option ascii :=
  if Ascii.eqb e dquote then Some dquote
  else if Ascii.eqb e backslash then Some backslash
  else if Ascii.eqb e "/" then Some "/"%char
  else if Ascii.eqb e "b" then Some "008"%char
  else if Ascii.eqb e "f" then Some "012"%char
  else if Ascii.eqb e "n" then Some "010"%char
  else if Ascii.eqb e "r" then Some "013"%char
  else if Ascii.eqb e "t" then Some "009"%char
  else None.

Definition cons_char (c : ascii) (r : option (string * string))
    : option (string * string) :=
  match r with
  | Some (str, rest) => Some (String c str, rest)
  | None => None
  end.

(** [py_scanstring] in strict mode, from just after the opening quote:
    the decoded string and the text after the closing quote.  [None] is
    a decoding error, or a code point above 255, which the model of
    strings does not have. *)
Fixpoint scan_string (s : string) : option (string * string) :=
  match s with
  | EmptyString => None
  | String c s' =>
      if Ascii.eqb c dquote then Some (EmptyString, s')
      else if Ascii.eqb c backslash then
        match s' with
        | EmptyString => None
        | String e s'' =>
            if Ascii.eqb e "u" then
              match s'' with
              | String h1 (String h2 (String h3 (String h4 rest))) =>
                  match hex4 h1 h2 h3 h4 with
                  | Some n =>
                      if (n <? 256)%nat
                      then cons_char (ascii_of_nat n) (scan_string rest)
                      else None
                  | None => None
                  end
              | _ => None
              end
            else
              match unescape e with
              | Some ch => cons_char ch (scan_string s'')
              | None => None
              end
        end
      else if (nat_of_ascii c <? 32)%nat then None
      else cons_char c (scan_string s')
  end.

Definition digit_of (c : ascii) : option (Decimal.uint -> Decimal.uint) :=
  match uint_of_char c (Some Decimal.Nil) with
  | Some (Decimal.D0 _) => Some Decimal.D0
  | Some (Decimal.D1 _) => Some Decimal.D1
  | Some (Decimal.D2 _) => Some Decimal.D2
  | Some (Decimal.D3 _) => Some Decimal.D3
  | Some (Decimal.D4 _) => Some Decimal.D4
  | Some (Decimal.D5 _) => Some Decimal.D5
  | Some (Decimal.D6 _) => Some Decimal.D6
  | Some (Decimal.D7 _) => Some Decimal.D7
  | Some (Decimal.D8 _) => Some Decimal.D8
  | Some (Decimal.D9 _) => Some Decimal.D9
  | _ => None
  end.

(** The longest run of decimal digits at the head of [s]. *)
Fixpoint scan_digits (s : string) : Decimal.uint * string :=
  match s with
  | EmptyString => (Decimal.Nil, s)
  | String c s' =>
      match digit_of c with
      | Some d => let (u, rest) := scan_digits s' in (d u, rest)
      | None => (Decimal.Nil, s)
      end
  end.

(** A fraction or an exponent follows: the number is a float. *)
Definition float_follows (s : string) : bool :=
  match s with
  | String c _ => Ascii.eqb c "." || Ascii.eqb c "e" || Ascii.eqb c "E"
  | EmptyString => false
  end.

(** The integer part of [NUMBER_RE]: an optional minus sign, then either
    a single zero or a non-zero digit followed by any digits. *)
Definition scan_integer (s : string) : option (Z * string) :=
  let (negative, s1) :=
    match s with
    | String c s' => if Ascii.eqb c "-" then (true, s') else (false, s)
    | EmptyString => (false, s)
    end in
  match s1 with
  | EmptyString => None
  | String c s2 =>
      if Ascii.eqb c "0" then Some (0%Z, s2)
      else match digit_of c with
           | None => None
           | Some _ =>
               let (u, rest) := scan_digits s1 in
               let n := Z.of_uint u in
               Some (if negative then Z.opp n else n, rest)
           end
  end.

(** An integer literal; [None] for a float (a fraction or an exponent
    follows, or the text is [NaN] or [Infinity]), which the model leaves
    out, and for text that is no number. *)
Definition parse_number (s : string) : option (pyvalue * string) :=
  match scan_integer s with
  | Some (z, rest) => if float_follows rest then None else Some (PyInt z, rest)
  | None => None
  end.

Definition literal (word : string) (v : pyvalue) (s : string)
    : option (pyvalue * string) :=
  if PyStr.startswith word s
  then Some (v, String.substring (String.length word)
                  (String.length s - String.length word) s)
  else None.

(** [scan_once] with [JSONArray] and [JSONObject].  [fuel] bounds the
    nesting of calls; [loads] gives as much as the text is long. *)
Fixpoint parse_value (fuel : nat) (s : string) {struct fuel}
    : option (pyvalue * string) :=
  match fuel with
  | O => None
  | S fuel' =>
      match s with
      | EmptyString => None
      | String c s' =>
          if Ascii.eqb c dquote then
            match scan_string s' with
            | Some (str, rest) => Some (PyStr str, rest)
            | None => None
            end
          else if Ascii.eqb c "{" then
            match skip_ws s' with
            | String c1 r1 =>
                if Ascii.eqb c1 "}" then Some (PyDict [], r1)
                else match parse_members fuel' (String c1 r1) with
                     | Some (pairs, rest) => Some (PyDict (Dict.of_pairs pairs), rest)
                     | None => None
                     end
            | EmptyString => None
            end
          else if Ascii.eqb c "[" then
            match skip_ws s' with
            | String c1 r1 =>
                if Ascii.eqb c1 "]" then Some (PyList [], r1)
                else match parse_items fuel' (String c1 r1) with
                     | Some (items, rest) => Some (PyList items, rest)
                     | None => None
                     end
            | EmptyString => None
            end
          else if Ascii.eqb c "n" then literal "null" PyNone s
          else if Ascii.eqb c "t" then literal "true" (PyBool true) s
          else if Ascii.eqb c "f" then literal "false" (PyBool false) s
          else parse_number s
      end
  end

(** The loop of [JSONArray], at the start of a value. *)
with parse_items (fuel : nat) (s : string) {struct fuel}
    : option (list pyvalue * string) :=
  match fuel with
  | O => None
  | S fuel' =>
      match parse_value fuel' s with
      | None => None
      | Some (v, r) =>
          match skip_ws r with
          | String c r1 =>
              if Ascii.eqb c "]" then Some ([v], r1)
              else if Ascii.eqb c "," then
                match parse_items fuel' (skip_ws r1) with
                | Some (vs, rest) => Some (v :: vs, rest)
                | None => None
                end
              else None
          | EmptyString => None
          end
      end
  end

(** The loop of [JSONObject], at the opening quote of a key. *)
with parse_members (fuel : nat) (s : string) {struct fuel}
    : option (list (string * pyvalue) * string) :=
  match fuel with
  | O => None
  | S fuel' =>
      match s with
      | EmptyString => None
      | String q s' =>
          if negb (Ascii.eqb q dquote) then None
          else
            match scan_string s' with
            | None => None
            | Some (key, r) =>
                match skip_ws r with
                | String c r1 =>
                    if negb (Ascii.eqb c ":") then None
                    else
                      match parse_value fuel' (skip_ws r1) with
                      | None => None
                      | Some (v, r2) =>
                          match skip_ws r2 with
                          | String c2 r3 =>
                              if Ascii.eqb c2 "}" then Some ([(key, v)], r3)
                              else if Ascii.eqb c2 "," then
                                match parse_members fuel' (skip_ws r3) with
                                | Some (kvs, rest) => Some ((key, v) :: kvs, rest)
                                | None => None
                                end
                              else None
                          | EmptyString => None
                          end
                      end
                | EmptyString => None
                end
            end
      end
  end.

(** What may follow a value in the text [dumps] writes: the end, the
    next separator, or the end of the enclosing array or object. *)
Definition value_end (rest : string) : bool :=
  match rest with
  | EmptyString => true
  | String c _ => Ascii.eqb c "," || Ascii.eqb c "]" || Ascii.eqb c "}"
  end.

(** [rest] does not go on with a digit. *)
Definition no_digit_start (rest : string) : Prop :=
  match rest with
  | String c _ => digit_of c = None
  | EmptyString => True
  end.

(** The first character of a number: a minus sign or a digit. *)
Definition number_start (c : ascii) : bool :=
  Ascii.eqb c "-" || match digit_of c with Some _ => true | None => false end.

(** The characters [dumps] starts a value with are no whitespace and
    close no array or object. *)
Definition value_start (c : ascii) : bool :=
  negb (is_ws c) && negb (Ascii.eqb c "]") && negb (Ascii.eqb c "}").

(** [parse_value] gives [v] back from the text [dumps] writes for it,
    whatever admissible text follows, with fuel for the length of the
    text. *)
Definition roundtrips (v : pyvalue) : Prop :=
  forall fuel rest,
    String.length (dumps v) <= fuel -> value_end rest = true ->
    parse_value fuel (dumps v ++ rest) = Some (v, rest).

(** The printable ASCII characters, [' '..'~']. *)
Definition printable (c : ascii) : bool :=
  (32 <=? nat_of_ascii c)%nat && (nat_of_ascii c <=? 126)%nat.

Fixpoint all_chars (p : ascii -> bool) (s : string) : bool :=
  match s with
  | EmptyString => true
  | String c s' => p c && all_chars p s'
  end.

(** [json.loads(s)]: one value, with whitespace around it and nothing
    else.  It agrees with [json.loads] on the texts [dumps] writes, which
    is all it is used for.  Elsewhere it says less than [json.loads]:
    [None] is also its answer for a text that [json.loads] decodes to a
    value outside [pyvalue] (a float, [NaN], the escape of a code point
    above 255), and it reads integers and nesting of any size, where the
    interpreter has limits.  It is not the decoder of the command line:
    [handle_run_command] takes [json.loads] as a parameter. *)
Definition loads (s : string) : option pyvalue :=
  match parse_value (S (String.length s)) (skip_ws s) with
  | Some (v, rest) =>
      match skip_ws rest with
      | EmptyString => Some v
      | String _ _ => None
      end
  | None => None
  end.

(** *** What [json.dumps] cannot write *)

(** [int.__repr__] raises [ValueError] for an integer of more than 4300
    decimal digits (the default of [sys.set_int_max_str_digits]), and
    [json.dumps] with it. *)
Definition max_str_digits : Z := 4300.

Definition int_printable (z : Z) : bool :=
  (Z.abs z <? 10 ^ max_str_digits)%Z.

(** The values of the model [json.dumps] returns a text for: those with
    no integer beyond the limit. *)
Fixpoint serializable (v : pyvalue) : bool :=
  match v with
  | PyInt z => int_printable z
  | PyList items | PyTuple items => forallb serializable items
  | PyDict d => forallb (fun kv => match kv with (_, x) => serializable x end) d
  | _ => true
  end.

(** *** The most compact form *)

(** The text of [v] with nothing between its tokens, separators [','] and
    [':'], as the specification words the argument of [--extra-vars]
    ("a single compact JSON string"); [json.dumps] writes this only when
    it is given [separators=(',', ':')]. *)
Fixpoint dumps_compact (v : pyvalue) : string :=
  match v with
  | PyNone => "null"
  | PyBool true => "true"
  | PyBool false => "false"
  | PyInt z => encode_int z
  | PyStr s => encode_string s
  | PyList items | PyTuple items =>
      "[" ++ PyStr.join "," (map dumps_compact items) ++ "]"
  | PyDict d =>
      "{" ++ PyStr.join ","
               (map (fun kv => match kv with
                               | (k, x) => encode_string k ++ ":" ++ dumps_compact x
                               end) d) ++ "}"
  end.

(** The quotation mark, as a text. *)
Definition quote : string := String dquote "".

End Json.

(* ================================================================== *)
(** ** The subprocess effect *)
(* ================================================================== *)

(** What [subprocess.run] is given. *)
Record invocation := mkInvocation {
  argv : list string;
  env_ANSIBLE_CONFIG : string;
  cwd : string;
}.

(** What [subprocess.run(..., check=False, capture_output=True)] does:
    it returns a [CompletedProcess], or it raises. *)
Inductive run_outcome : Type :=
| CompletedProcess (returncode : Z) (stdout stderr : string)
| Raises (description : string).

(** Computations that may spawn subprocesses: they read the behaviour of
    the outside world and write down every invocation they make. *)
Definition Proc (A : Type) : Type :=
  (invocation -> run_outcome) -> A * list invocation.

Definition ret {A} (a : A) : Proc A := fun _ => (a, []).

Definition bind {A B} (m : Proc A) (k : A -> Proc B) : Proc B :=
  fun world =>
    let (a, t1) := m world in
    let (b, t2) := k a world in
    (b, (t1 ++ t2)%list).

Definition subprocess_run (inv : invocation) : Proc run_outcome :=
  fun world => (world inv, [inv]).

Notation "x <- m ;; k" := (bind m (fun x => k))
  (at level 61, m at next level, right associativity).

(** The value and the invocations of a computation. *)
Definition result_of {A} (m : Proc A) (world : invocation -> run_outcome) : A :=
  fst (m world).
Definition spawned {A} (m : Proc A) (world : invocation -> run_outcome)
    : list invocation :=
  snd (m world).

(** [(success, output)]. *)
Definition result := (bool * string)%type.

(* ================================================================== *)
(** ** [run_playbook] *)
(* ================================================================== *)

(** The command of [run_playbook], lines "Build command" to "Add extra
    vars". *)
Definition build_command (playbook_path : string)
    (extra_vars : option pydict) (limit_hosts : option string)
    (tags : option (list string)) (verbose : bool) : list string :=
  let cmd := ["ansible-playbook"; playbook_path] in
  let cmd := if verbose then (cmd ++ ["-vvv"])%list else cmd in
  let cmd :=
    match limit_hosts with
    | Some l => if truthy (PyStr l) then (cmd ++ ["-l"; l])%list else cmd
    | None => cmd
    end in
  let cmd :=
    match tags with
    | Some (t :: ts) => (cmd ++ ["-t"; PyStr.join "," (t :: ts)])%list
    | _ => cmd
    end in
  let cmd :=
    match extra_vars with
    | Some (kv :: d) => (cmd ++ ["--extra-vars"; Json.dumps (PyDict (kv :: d))])%list
    | _ => cmd
    end in
  cmd.

Definition run_playbook (mgr : AnsibleManager) (playbook_name : string)
    (extra_vars : option pydict) (limit_hosts : option string)
    (tags : option (list string)) (verbose : bool) : Proc result :=
  match Dict.get playbook_name (available_playbooks mgr) with
  | None =>
      let playbooks_list := PyStr.join ", " (list_playbooks mgr) in
      ret (false, "Playbook '" ++ playbook_name
                  ++ "' not found. Available playbooks: " ++ playbooks_list)
  | Some playbook_path =>
      let cmd := build_command playbook_path extra_vars limit_hosts tags verbose in
      outcome <- subprocess_run
                   (mkInvocation cmd
                      (os_path_join (ansible_path mgr) "ansible.cfg")
                      (ansible_path mgr)) ;;
      match outcome with
      | CompletedProcess returncode stdout stderr =>
          if Z.eqb returncode 0 then ret (true, stdout)
          else ret (false, "Error: " ++ stderr)
      | Raises description => ret (false, "Exception: " ++ description)
      end
  end.

(** The invocation [run_playbook] makes for a command. *)
Definition invocation_of (mgr : AnsibleManager) (cmd : list string) : invocation :=
  mkInvocation cmd (os_path_join (ansible_path mgr) "ansible.cfg") (ansible_path mgr).

(** A group of arguments that is in the command when [present] holds. *)
Definition segment (present : bool) (args : list string) : list string :=
  if present then args else [].

(** Truth value of the optional [tags] and [extra_vars] arguments. *)
Definition given_tags (tags : option (list string)) : bool :=
  match tags with
  | Some (_ :: _) => true
  | _ => false
  end.

Definition given_vars (extra_vars : option pydict) : bool :=
  match extra_vars with
  | Some (_ :: _) => true
  | _ => false
  end.

(** The value of an optional argument that is given. *)
Definition value_or {A} (default : A) (o : option A) : A :=
  match o with
  | Some x => x
  | None => default
  end.

(** [x] occurs in [s]: [s] is some text, [x], and some more text. *)
Definition contains (s x : string) : Prop :=
  exists before after, s = before ++ x ++ after.

(* ================================================================== *)
(** ** The operation mappers *)
(* ================================================================== *)

(** [op_map] of the VM and the container mapper. *)
Definition op_map : Dict.t string :=
  [("create", "present"); ("start", "started"); ("stop", "stopped");
   ("restart", "restarted"); ("delete", "absent")].

Definition invalid_operation (operation : string) (valid : list string) : result :=
  (false, "Invalid operation '" ++ operation ++ "'. Must be one of: "
          ++ PyStr.join ", " valid).

(** The variable mapping of [run_vm_management] for a mapped state. *)
Definition vm_extra_vars (state : string) (vm_id vm_name node : pyvalue)
    (kwargs : pydict) : pydict :=
  let extra_vars :=
    [("vm_state", PyStr state); ("vm_id", vm_id); ("vm_name", vm_name)] in
  let extra_vars :=
    if truthy node then Dict.set "vm_node" node extra_vars else extra_vars in
  Dict.update extra_vars kwargs.

Definition run_vm_management (mgr : AnsibleManager) (operation : string)
    (vm_id vm_name node : pyvalue) (kwargs : pydict) : Proc result :=
  match Dict.get operation op_map with
  | None => ret (invalid_operation operation (Dict.keys op_map))
  | Some state =>
      run_playbook mgr "proxmox_vm_manager"
        (Some (vm_extra_vars state vm_id vm_name node kwargs)) None None false
  end.

(** The variable mapping of [run_container_management]. *)
Definition ct_extra_vars (state : string) (ct_id ct_hostname node : pyvalue)
    (kwargs : pydict) : pydict :=
  let extra_vars :=
    [("ct_state", PyStr state); ("ct_id", ct_id); ("ct_hostname", ct_hostname)] in
  let extra_vars :=
    if truthy node then Dict.set "ct_node" node extra_vars else extra_vars in
  Dict.update extra_vars kwargs.

Definition run_container_management (mgr : AnsibleManager) (operation : string)
    (ct_id ct_hostname node : pyvalue) (kwargs : pydict) : Proc result :=
  match Dict.get operation op_map with
  | None => ret (invalid_operation operation (Dict.keys op_map))
  | Some state =>
      run_playbook mgr "proxmox_container_manager"
        (Some (ct_extra_vars state ct_id ct_hostname node kwargs)) None None false
  end.

(** The variable mapping of [run_cluster_management]. *)
Definition cluster_extra_vars (operation : string)
    (target_node source_node cluster_name : pyvalue) (kwargs : pydict) : pydict :=
  let extra_vars := [("operation", PyStr operation)] in
  let extra_vars :=
    if truthy target_node
    then Dict.set "target_node" target_node extra_vars else extra_vars in
  let extra_vars :=
    if truthy source_node
    then Dict.set "source_node" source_node extra_vars else extra_vars in
  let extra_vars :=
    if truthy cluster_name
    then Dict.set "cluster_name" cluster_name extra_vars else extra_vars in
  Dict.update extra_vars kwargs.

Definition run_cluster_management (mgr : AnsibleManager) (operation : string)
    (target_node source_node cluster_name : pyvalue) (kwargs : pydict)
    : Proc result :=
  run_playbook mgr "proxmox_cluster_manager"
    (Some (cluster_extra_vars operation target_node source_node cluster_name kwargs))
    None None false.

(** The operation keywords the docstring of [run_cluster_management] and
    the command line name. *)
Definition cluster_operations : list string :=
  ["status"; "create_cluster"; "join_cluster"; "leave_cluster"; "enable_ha"].

(** [valid_operations] of [run_backup_management]. *)
Definition valid_operations : list string :=
  ["list"; "create"; "restore"; "delete"; "schedule"].

(** [operation in valid_operations]. *)
Definition in_list (x : string) (l : list string) : bool :=
  existsb (String.eqb x) l.

(** The variable mapping of [run_backup_management]. *)
Definition backup_extra_vars (operation : string)
    (vm_id backup_id storage node : pyvalue) (kwargs : pydict) : pydict :=
  let extra_vars := [("operation", PyStr operation)] in
  let extra_vars :=
    if truthy vm_id then Dict.set "vm_id" vm_id extra_vars else extra_vars in
  let extra_vars :=
    if truthy backup_id then Dict.set "backup_id" backup_id extra_vars else extra_vars in
  let extra_vars :=
    if truthy storage then Dict.set "storage" storage extra_vars else extra_vars in
  let extra_vars :=
    if truthy node then Dict.set "node" node extra_vars else extra_vars in
  Dict.update extra_vars kwargs.

Definition run_backup_management (mgr : AnsibleManager) (operation : string)
    (vm_id backup_id storage node : pyvalue) (kwargs : pydict) : Proc result :=
  if negb (in_list operation valid_operations)
  then ret (invalid_operation operation valid_operations)
  else
    run_playbook mgr "proxmox_backup_manager"
      (Some (backup_extra_vars operation vm_id backup_id storage node kwargs))
      None None false.

(* ================================================================== *)
(** ** Calling a mapper: how keyword arguments reach [**kwargs] *)
(* ================================================================== *)

(** A call [mgr.f(operation, k1=v1, k2=v2, ...)]: the operation keyword
    and the keyword arguments of the call site, in the order written. *)
Record call := mkCall {
  call_operation : string;
  call_keywords : pydict;
}.

Fixpoint has_duplicates (l : list string) : bool :=
  match l with
  | [] => false
  | x :: l' => in_list x l' || has_duplicates l'
  end.

(** A keyword given twice, or named like a parameter that already has its
    value, makes Python raise [TypeError] (multiple values for the
    argument). *)
Definition multiple_values (c : call) : bool :=
  has_duplicates (Dict.keys (call_keywords c))
  || Dict.mem "self" (call_keywords c)
  || Dict.mem "operation" (call_keywords c).

(** The value a parameter with default [None] is bound to. *)
Definition arg (name : string) (c : call) : pyvalue :=
  match Dict.get name (call_keywords c) with
  | Some v => v
  | None => PyNone
  end.

(** [**kwargs]: the keywords that name no parameter. *)
Definition kwargs_of (params : list string) (c : call) : pydict :=
  Dict.without params (call_keywords c).

Definition vm_params : list string := ["vm_id"; "vm_name"; "node"].
Definition ct_params : list string := ["ct_id"; "ct_hostname"; "node"].
Definition cluster_params : list string := ["target_node"; "source_node"; "cluster_name"].
Definition backup_params : list string := ["vm_id"; "backup_id"; "storage"; "node"].

(** The mappers as a caller reaches them; [None] is the [TypeError] of a
    call that cannot be bound. *)
Definition call_run_vm_management (mgr : AnsibleManager) (c : call)
    : option (Proc result) :=
  if multiple_values c then None
  else Some (run_vm_management mgr (call_operation c)
               (arg "vm_id" c) (arg "vm_name" c) (arg "node" c)
               (kwargs_of vm_params c)).

Definition call_run_container_management (mgr : AnsibleManager) (c : call)
    : option (Proc result) :=
  if multiple_values c then None
  else Some (run_container_management mgr (call_operation c)
               (arg "ct_id" c) (arg "ct_hostname" c) (arg "node" c)
               (kwargs_of ct_params c)).

Definition call_run_cluster_management (mgr : AnsibleManager) (c : call)
    : option (Proc result) :=
  if multiple_values c then None
  else Some (run_cluster_management mgr (call_operation c)
               (arg "target_node" c) (arg "source_node" c) (arg "cluster_name" c)
               (kwargs_of cluster_params c)).

Definition call_run_backup_management (mgr : AnsibleManager) (c : call)
    : option (Proc result) :=
  if multiple_values c then None
  else Some (run_backup_management mgr (call_operation c)
               (arg "vm_id" c) (arg "backup_id" c) (arg "storage" c) (arg "node" c)
               (kwargs_of backup_params c)).

(** The variable mapping a call builds, when it builds one: the call binds
    and the operation keyword passes the validation of the mapper. *)
Definition vm_call_vars (c : call) : option pydict :=
  if multiple_values c then None
  else match Dict.get (call_operation c) op_map with
       | Some state =>
           Some (vm_extra_vars state (arg "vm_id" c) (arg "vm_name" c)
                   (arg "node" c) (kwargs_of vm_params c))
       | None => None
       end.

Definition ct_call_vars (c : call) : option pydict :=
  if multiple_values c then None
  else match Dict.get (call_operation c) op_map with
       | Some state =>
           Some (ct_extra_vars state (arg "ct_id" c) (arg "ct_hostname" c)
                   (arg "node" c) (kwargs_of ct_params c))
       | None => None
       end.

Definition cluster_call_vars (c : call) : option pydict :=
  if multiple_values c then None
  else Some (cluster_extra_vars (call_operation c) (arg "target_node" c)
               (arg "source_node" c) (arg "cluster_name" c)
               (kwargs_of cluster_params c)).

Definition backup_call_vars (c : call) : option pydict :=
  if multiple_values c then None
  else if negb (in_list (call_operation c) valid_operations) then None
  else Some (backup_extra_vars (call_operation c) (arg "vm_id" c)
               (arg "backup_id" c) (arg "storage" c) (arg "node" c)
               (kwargs_of backup_params c)).

(* ================================================================== *)
(** ** The command surface of the backup sub-command *)
(* ================================================================== *)

(** The options of [backup] as typed on the command line; [None] is an
    option that was not given. *)
Record backup_options := mkBackupOptions {
  opt_operation : option string;
  opt_vm_id : option string;
  opt_backup_id : option string;
  opt_storage : option string;
  opt_node : option string;
  opt_mode : option string;
  opt_compress : option string;
  opt_schedule_hour : option string;
  opt_schedule_minute : option string;
  opt_schedule_day : option string;
  opt_schedule_month : option string;
  opt_schedule_weekday : option string;
}.

(** The [choices] of [backup_parser]. *)
Definition backup_operation_choices : list string :=
  ["list"; "create"; "restore"; "delete"; "schedule"].
Definition mode_choices : list string := ["snapshot"; "suspend"; "stop"].
Definition compress_choices : list string := ["0"; "gzip"; "lzo"; "zstd"].

(** The compression methods the specification lists. *)
Definition spec_compress_methods : list string := ["none"; "gzip"; "lzo"; "zstd"].

(** An optional argument with [choices]. *)
Definition choice_ok (choices : list string) (o : option string) : bool :=
  match o with
  | Some x => in_list x choices
  | None => true
  end.

(** [parse_args] on the options of [backup]: the namespace, or [None] for
    the usage error by which [argparse] leaves the program. *)
Definition parse_backup_args (o : backup_options) : option backup_options :=
  match opt_operation o with
  | None => None
  | Some op =>
      if in_list op backup_operation_choices
         && choice_ok mode_choices (opt_mode o)
         && choice_ok compress_choices (opt_compress o)
      then Some o else None
  end.

(** [kwargs[param] = value] when [value is not None]. *)
Definition set_if_present (param : string) (o : option string) (kwargs : pydict)
    : pydict :=
  match o with
  | Some v => Dict.set param (PyStr v) kwargs
  | None => kwargs
  end.

(** [kwargs[param] = value] when [value] is truthy. *)
Definition set_if_truthy (param : string) (o : option string) (kwargs : pydict)
    : pydict :=
  if given_str o then set_if_present param o kwargs else kwargs.

(** The [kwargs] that [handle_backup_command] collects. *)
Definition backup_kwargs (args : backup_options) : pydict :=
  let kwargs := Dict.empty in
  let kwargs := set_if_present "schedule_hour" (opt_schedule_hour args) kwargs in
  let kwargs := set_if_present "schedule_minute" (opt_schedule_minute args) kwargs in
  let kwargs := set_if_present "schedule_day" (opt_schedule_day args) kwargs in
  let kwargs := set_if_present "schedule_month" (opt_schedule_month args) kwargs in
  let kwargs := set_if_present "schedule_weekday" (opt_schedule_weekday args) kwargs in
  let kwargs := set_if_truthy "mode" (opt_mode args) kwargs in
  let kwargs := set_if_truthy "compress" (opt_compress args) kwargs in
  kwargs.

(** The call [handle_backup_command] makes. *)
Definition backup_call (args : backup_options) : call :=
  mkCall (match opt_operation args with Some op => op | None => "" end)
    ([("vm_id", py_of_opt (opt_vm_id args));
      ("backup_id", py_of_opt (opt_backup_id args));
      ("storage", py_of_opt (opt_storage args));
      ("node", py_of_opt (opt_node args))] ++ backup_kwargs args)%list.

(** [handle_backup_command]: the result it prints. *)
Definition handle_backup_command (mgr : AnsibleManager) (args : backup_options)
    : option (Proc result) :=
  call_run_backup_management mgr (backup_call args).

(** The backup sub-command from the command line to the variable mapping:
    [None] when the options are refused or no mapping is built. *)
Definition backup_cli_vars (o : backup_options) : option pydict :=
  match parse_backup_args o with
  | Some args => backup_call_vars (backup_call args)
  | None => None
  end.

(* ================================================================== *)
(** ** More of [str]: [split], [strip] and the decimal form of a number *)
(* ================================================================== *)

Module PyText.

(** [c.isspace()] for the code points 0..255: the ASCII whitespace, the
    four separators 28..31, NEL (133) and the no-break space (160). *)
Definition isspace (c : ascii) : bool :=
  let n := nat_of_ascii c in
  ((9 <=? n)%nat && (n <=? 13)%nat) || ((28 <=? n)%nat && (n <=? 32)%nat)
  || (n =? 133)%nat || (n =? 160)%nat.

(** [s.lstrip()]. *)
Fixpoint lstrip (s : string) : string :=
  match s with
  | String c s' => if isspace c then lstrip s' else s
  | EmptyString => EmptyString
  end.

(** [s.rstrip()]. *)
Fixpoint rstrip (s : string) : string :=
  match s with
  | EmptyString => EmptyString
  | String c s' =>
      match rstrip s' with
      | EmptyString => if isspace c then EmptyString else String c EmptyString
      | String c' r => String c (String c' r)
      end
  end.

(** [s.strip()]. *)
Definition strip (s : string) : string := rstrip (lstrip s).

(** [s.split(sep)] for a separator of one character: the pieces between
    the separators, of which there is always at least one. *)
Fixpoint split (sep : ascii) (s : string) : list string :=
  match s with
  | EmptyString => [EmptyString]
  | String c s' =>
      if Ascii.eqb c sep then EmptyString :: split sep s'
      else match split sep s' with
           | piece :: pieces => String c piece :: pieces
           | [] => [String c EmptyString]
           end
  end.

(** [str(n)] of a natural number. *)
Definition str_of_nat (n : nat) : string :=
  NilZero.string_of_uint (Nat.to_uint n).

(** [enumerate(items, start)]. *)
Fixpoint enumerate {A} (start : nat) (items : list A) : list (nat * A) :=
  match items with
  | [] => []
  | x :: items' => (start, x) :: enumerate (S start) items'
  end.

(** The first and the last character of a string, if any. *)
Definition first_char (s : string) : option ascii :=
  match s with
  | String c _ => Some c
  | EmptyString => None
  end.

Fixpoint last_char (s : string) : option ascii :=
  match s with
  | EmptyString => None
  | String c EmptyString => Some c
  | String _ s' => last_char s'
  end.

(** No whitespace at either end. *)
Definition stripped (s : string) : Prop :=
  (forall c, first_char s = Some c -> isspace c = false)
  /\ (forall c, last_char s = Some c -> isspace c = false).

End PyText.

(** A value [json.loads] gives back from the text of [json.dumps]. *)
Definition decodable (v : pyvalue) : Prop :=
  json_native v = true /\ keys_unique v.

(** The entries an optional value adds to a mapping: one, or none. *)
Definition opt_entry (key : string) (o : option pyvalue) : pydict :=
  match o with
  | Some v => [(key, v)]
  | None => []
  end.

(* ================================================================== *)
(** ** [run_playbook] on any value of [extra_vars] *)
(* ================================================================== *)

(** [run_playbook] tests [extra_vars] for truth and gives it to
    [json.dumps] whatever it is; the command line hands it whatever
    [json.loads] returned for [--vars].  This is the command of
    [run_playbook] for an [extra_vars] of any type ([None] when it is not
    given). *)
Definition build_command_any (playbook_path : string)
    (extra_vars : pyvalue) (limit_hosts : option string)
    (tags : option (list string)) (verbose : bool) : list string :=
  let cmd := ["ansible-playbook"; playbook_path] in
  let cmd := if verbose then (cmd ++ ["-vvv"])%list else cmd in
  let cmd :=
    match limit_hosts with
    | Some l => if truthy (PyStr l) then (cmd ++ ["-l"; l])%list else cmd
    | None => cmd
    end in
  let cmd :=
    match tags with
    | Some (t :: ts) => (cmd ++ ["-t"; PyStr.join "," (t :: ts)])%list
    | _ => cmd
    end in
  let cmd :=
    if truthy extra_vars
    then (cmd ++ ["--extra-vars"; Json.dumps extra_vars])%list
    else cmd in
  cmd.

Definition run_playbook_any (mgr : AnsibleManager) (playbook_name : string)
    (extra_vars : pyvalue) (limit_hosts : option string)
    (tags : option (list string)) (verbose : bool) : Proc result :=
  match Dict.get playbook_name (available_playbooks mgr) with
  | None =>
      let playbooks_list := PyStr.join ", " (list_playbooks mgr) in
      ret (false, "Playbook '" ++ playbook_name
                  ++ "' not found. Available playbooks: " ++ playbooks_list)
  | Some playbook_path =>
      let cmd :=
        build_command_any playbook_path extra_vars limit_hosts tags verbose in
      outcome <- subprocess_run
                   (mkInvocation cmd
                      (os_path_join (ansible_path mgr) "ansible.cfg")
                      (ansible_path mgr)) ;;
      match outcome with
      | CompletedProcess returncode stdout stderr =>
          if Z.eqb returncode 0 then ret (true, stdout)
          else ret (false, "Error: " ++ stderr)
      | Raises description => ret (false, "Exception: " ++ description)
      end
  end.

(** An optional mapping as the value [run_playbook] receives. *)
Definition py_of_vars (extra_vars : option pydict) : pyvalue :=
  match extra_vars with
  | Some d => PyDict d
  | None => PyNone
  end.

(** [run_playbook] with the exception it lets through.  [json.dumps]
    stands before the [try]: when the name is registered and [extra_vars]
    is truthy but cannot be serialised, the exception of [json.dumps]
    leaves [run_playbook] before anything is started.  [None] is that
    exception; every other call is [run_playbook]. *)
Definition run_playbook_checked (mgr : AnsibleManager) (playbook_name : string)
    (extra_vars : option pydict) (limit_hosts : option string)
    (tags : option (list string)) (verbose : bool) : option (Proc result) :=
  match Dict.get playbook_name (available_playbooks mgr) with
  | None => Some (run_playbook mgr playbook_name extra_vars limit_hosts tags verbose)
  | Some _ =>
      if given_vars extra_vars && negb (Json.serializable (py_of_vars extra_vars))
      then None
      else Some (run_playbook mgr playbook_name extra_vars limit_hosts tags verbose)
  end.

(* ================================================================== *)
(** ** The command line *)
(* ================================================================== *)

(** What a run of the program leaves: the exit status and the lines given
    to [print], one entry per call. *)
Record cli_result := mkCli {
  exit_code : Z;
  printed : list string;
}.

Definition newline : string := String "010" EmptyString.

(** The three [print] calls that end every handler of an operation. *)
Definition output_section (output : string) : list string :=
  [newline ++ "Output:"; "======="; output].

(** [handle_list_command]. *)
Definition handle_list_command (mgr : AnsibleManager) : cli_result :=
  let playbooks := list_playbooks mgr in
  let title := newline ++ "Available Ansible Playbooks:" in
  let line (ip : nat * string) := PyText.str_of_nat (fst ip) ++ ". " ++ snd ip in
  match playbooks with
  | [] => mkCli 0 ["No Ansible playbooks found."]
  | _ :: _ =>
      mkCli 0
        ([title; "==========================="]
         ++ map line (PyText.enumerate 1 playbooks)
         ++ [""])%list
  end.

(** The options of [run]. *)
Record run_options := mkRunOptions {
  opt_playbook : option string;
  opt_vars : option string;
  opt_limit : option string;
  opt_tags : option string;
  opt_verbose : bool;
}.

(** [tags] of [handle_run_command]. *)
Definition run_tags (args : run_options) : option (list string) :=
  match opt_tags args with
  | Some t =>
      if given_str (opt_tags args)
      then Some (map PyText.strip (PyText.split "," t))
      else None
  | None => None
  end.

(** What [json.loads] does with a text: it returns the decoded value, it
    raises [JSONDecodeError] (the text is not JSON), or it raises something
    else ([RecursionError] for nesting that is too deep, [ValueError] for
    an integer beyond the digit limit of the interpreter).  A text that
    decodes to a value outside [pyvalue] (a float) has no outcome here. *)
Inductive loads_outcome : Type :=
| Decoded (v : pyvalue)
| JSONDecodeError
| OtherError.

(** [handle_run_command].  [json_loads] is [json.loads].  The handler
    catches [JSONDecodeError] alone; any other exception of [json.loads]
    ends the program with status 1 before anything is printed. *)
Definition handle_run_command (json_loads : string -> loads_outcome)
    (mgr : AnsibleManager) (args : run_options) : Proc cli_result :=
  let playbook := value_or "" (opt_playbook args) in
  let playbooks := list_playbooks mgr in
  if negb (in_list playbook playbooks) then
    ret (mkCli 1 ["Error: Playbook '" ++ playbook ++ "' not found.";
                  "Available playbooks: " ++ PyStr.join ", " playbooks])
  else
    let decoded :=
      match opt_vars args with
      | Some text =>
          if given_str (opt_vars args) then json_loads text else Decoded PyNone
      | None => Decoded PyNone
      end in
    match decoded with
    | JSONDecodeError => ret (mkCli 1 ["Error: --vars must be a valid JSON string"])
    | OtherError => ret (mkCli 1 [])
    | Decoded extra_vars =>
        let first := "Running playbook: " ++ playbook in
        r <- run_playbook_any mgr playbook extra_vars (opt_limit args)
               (run_tags args) (opt_verbose args) ;;
        ret (mkCli 0
               ([first;
                 if fst r then "Playbook executed successfully."
                 else "Playbook execution failed."]
                ++ output_section (snd r))%list)
    end.

(** A handler that calls a mapper: the first line it prints, then the
    call, then the verdict and the output.  A call that cannot be bound
    raises [TypeError], which nothing catches: the program ends with
    status 1 after its first line. *)
Definition report_call (first success failure : string)
    (run : option (Proc result)) : Proc cli_result :=
  match run with
  | None => ret (mkCli 1 [first])
  | Some run =>
      r <- run ;;
      ret (mkCli 0 ([first; if fst r then success else failure]
                    ++ output_section (snd r))%list)
  end.

(** [kwargs[param] = value] when [value is not None], for a value of any
    type. *)
Definition set_if_not_none (param : string) (o : option pyvalue)
    (kwargs : pydict) : pydict :=
  match o with
  | Some v => Dict.set param v kwargs
  | None => kwargs
  end.

(** The options of [vm]; [memory] and [cores] after their conversion by
    [type=int]. *)
Record vm_options := mkVmOptions {
  vm_operation : option string;
  vm_opt_vm_id : option string;
  vm_opt_vm_name : option string;
  vm_opt_node : option string;
  vm_opt_memory : option Z;
  vm_opt_cores : option Z;
  vm_opt_disk_size : option string;
  vm_opt_storage : option string;
  vm_opt_template : option string;
  vm_opt_iso : option string;
}.

(** The [choices] of [--operation] of [vm] and of [ct]. *)
Definition lifecycle_choices : list string :=
  ["create"; "start"; "stop"; "restart"; "delete"].

(** The [kwargs] that [handle_vm_command] collects. *)
Definition vm_kwargs (args : vm_options) : pydict :=
  let kwargs := Dict.empty in
  let kwargs := set_if_not_none "memory" (option_map PyInt (vm_opt_memory args)) kwargs in
  let kwargs := set_if_not_none "cores" (option_map PyInt (vm_opt_cores args)) kwargs in
  let kwargs := set_if_not_none "disk_size" (option_map PyStr (vm_opt_disk_size args)) kwargs in
  let kwargs := set_if_not_none "storage" (option_map PyStr (vm_opt_storage args)) kwargs in
  let kwargs := set_if_not_none "template" (option_map PyStr (vm_opt_template args)) kwargs in
  let kwargs := set_if_not_none "iso" (option_map PyStr (vm_opt_iso args)) kwargs in
  kwargs.

(** The call [handle_vm_command] makes. *)
Definition vm_call (args : vm_options) : call :=
  mkCall (value_or "" (vm_operation args))
    ([("vm_id", py_of_opt (vm_opt_vm_id args));
      ("vm_name", py_of_opt (vm_opt_vm_name args));
      ("node", py_of_opt (vm_opt_node args))] ++ vm_kwargs args)%list.

(** [handle_vm_command]. *)
Definition handle_vm_command (mgr : AnsibleManager) (args : vm_options)
    : Proc cli_result :=
  let op := value_or "" (vm_operation args) in
  report_call ("Performing '" ++ op ++ "' operation on VM")
    ("VM " ++ op ++ " operation completed successfully.")
    ("VM " ++ op ++ " operation failed.")
    (call_run_vm_management mgr (vm_call args)).

(** The options of [ct]. *)
Record ct_options := mkCtOptions {
  ct_operation : option string;
  ct_opt_ct_id : option string;
  ct_opt_hostname : option string;
  ct_opt_node : option string;
  ct_opt_memory : option Z;
  ct_opt_cores : option Z;
  ct_opt_disk : option string;
  ct_opt_storage : option string;
  ct_opt_ostemplate : option string;
}.

(** The [kwargs] that [handle_ct_command] collects. *)
Definition ct_kwargs (args : ct_options) : pydict :=
  let kwargs := Dict.empty in
  let kwargs := set_if_not_none "memory" (option_map PyInt (ct_opt_memory args)) kwargs in
  let kwargs := set_if_not_none "cores" (option_map PyInt (ct_opt_cores args)) kwargs in
  let kwargs := set_if_not_none "disk" (option_map PyStr (ct_opt_disk args)) kwargs in
  let kwargs := set_if_not_none "storage" (option_map PyStr (ct_opt_storage args)) kwargs in
  let kwargs := set_if_not_none "ostemplate" (option_map PyStr (ct_opt_ostemplate args)) kwargs in
  kwargs.

(** The call [handle_ct_command] makes. *)
Definition ct_call (args : ct_options) : call :=
  mkCall (value_or "" (ct_operation args))
    ([("ct_id", py_of_opt (ct_opt_ct_id args));
      ("ct_hostname", py_of_opt (ct_opt_hostname args));
      ("node", py_of_opt (ct_opt_node args))] ++ ct_kwargs args)%list.

(** [handle_ct_command]. *)
Definition handle_ct_command (mgr : AnsibleManager) (args : ct_options)
    : Proc cli_result :=
  let op := value_or "" (ct_operation args) in
  report_call ("Performing '" ++ op ++ "' operation on container")
    ("Container " ++ op ++ " operation completed successfully.")
    ("Container " ++ op ++ " operation failed.")
    (call_run_container_management mgr (ct_call args)).

(** The options of [cluster]. *)
Record cluster_options := mkClusterOptions {
  cluster_operation : option string;
  cluster_opt_target_node : option string;
  cluster_opt_source_node : option string;
  cluster_opt_cluster_name : option string;
}.

(** The call [handle_cluster_command] makes. *)
Definition cluster_call (args : cluster_options) : call :=
  mkCall (value_or "" (cluster_operation args))
    [("target_node", py_of_opt (cluster_opt_target_node args));
     ("source_node", py_of_opt (cluster_opt_source_node args));
     ("cluster_name", py_of_opt (cluster_opt_cluster_name args))].

(** [handle_cluster_command]. *)
Definition handle_cluster_command (mgr : AnsibleManager) (args : cluster_options)
    : Proc cli_result :=
  let op := value_or "" (cluster_operation args) in
  report_call ("Performing '" ++ op ++ "' operation on Proxmox cluster")
    ("Cluster " ++ op ++ " operation completed successfully.")
    ("Cluster " ++ op ++ " operation failed.")
    (call_run_cluster_management mgr (cluster_call args)).

(** [handle_backup_command], with what it prints. *)
Definition handle_backup_command_cli (mgr : AnsibleManager) (args : backup_options)
    : Proc cli_result :=
  let op := value_or "" (opt_operation args) in
  report_call ("Performing '" ++ op ++ "' backup operation")
    ("Backup " ++ op ++ " operation completed successfully.")
    ("Backup " ++ op ++ " operation failed.")
    (handle_backup_command mgr args).

(** A command line: the sub-command with its options, or none. *)
Inductive command_line : Type :=
| NoCommand
| ListCommand
| RunCommand (o : run_options)
| VmCommand (o : vm_options)
| CtCommand (o : ct_options)
| ClusterCommand (o : cluster_options)
| BackupCommand (o : backup_options).

(** A required option with [choices]. *)
Definition required_choice (choices : list string) (o : option string) : bool :=
  match o with
  | Some x => in_list x choices
  | None => false
  end.

(** What [parse_args] accepts; the rest ends the program with the usage
    error of [argparse]. *)
Definition accepted (cl : command_line) : bool :=
  match cl with
  | NoCommand => true
  | ListCommand => true
  | RunCommand o => match opt_playbook o with Some _ => true | None => false end
  | VmCommand o => required_choice lifecycle_choices (vm_operation o)
  | CtCommand o => required_choice lifecycle_choices (ct_operation o)
  | ClusterCommand o => required_choice cluster_operations (cluster_operation o)
  | BackupCommand o =>
      match parse_backup_args o with Some _ => true | None => false end
  end.

(** [main]: the usage error of [argparse] has status 2. *)
Definition main (json_loads : string -> loads_outcome) (mgr : AnsibleManager)
    (cl : command_line) : Proc cli_result :=
  if negb (accepted cl) then ret (mkCli 2 [])
  else
    match cl with
    | ListCommand => ret (handle_list_command mgr)
    | RunCommand o => handle_run_command json_loads mgr o
    | VmCommand o => handle_vm_command mgr o
    | CtCommand o => handle_ct_command mgr o
    | ClusterCommand o => handle_cluster_command mgr o
    | BackupCommand o => handle_backup_command_cli mgr o
    | NoCommand =>
        ret (mkCli 1 ["Please specify a command. Use --help for more information."])
    end.

(* ================================================================== *)
(** ** [json.dumps] and [json.loads] on all of [str] and on floats *)
(* ================================================================== *)

(** [Json] above keeps to the strings of code points 0..255 and has no
    float.  This module has the values of Python in full, as far as a
    variable mapping can hold them, to settle what [json.loads] gives back
    from the argument of [--extra-vars].  What it leaves out are the
    limits of the interpreter on the depth of nesting. *)
Module JsonFull.

(** A [str]: the sequence of its code points, each in 0..0x10FFFF. *)
Definition ustr := list Z.

(** A float is represented by the text [repr] gives for it, which
    determines it: ["1.5"], ["1e+16"], ["-0.0"], ["inf"], ["nan"]. *)
Inductive value : Type :=
| VNone
| VBool (b : bool)
| VInt (z : Z)
| VFloat (repr : string)
| VStr (s : ustr)
| VList (items : list value)
| VTuple (items : list value)
| VDict (d : list (ustr * value)).

(** *** [json.dumps] *)

Definition is_high_surrogate (n : Z) : bool :=
  (55296 <=? n)%Z && (n <=? 56319)%Z.

Definition is_low_surrogate (n : Z) : bool :=
  (56320 <=? n)%Z && (n <=? 57343)%Z.

Definition hex_digit (n : Z) : ascii := Json.hex_digit (Z.to_nat n).

(** ['{0:04x}'.format(n)], for [n] below 0x10000. *)
Definition hex4_text (n : Z) : string :=
  String (hex_digit (n / 4096))
    (String (hex_digit (n / 256 mod 16))
       (String (hex_digit (n / 16 mod 16))
          (String (hex_digit (n mod 16)) ""))).

Definition u_escape (n : Z) : string :=
  String Json.backslash (String "u" (hex4_text n)).

(** The replacement of one code point in [py_encode_basestring_ascii]:
    as in [Json.escape_char] up to 0xFFFF; a code point above becomes the
    two escapes of its surrogate pair,
    [0xd800 | (n - 0x10000) >> 10] and [0xdc00 | (n - 0x10000) & 0x3ff]. *)
Definition escape_point (n : Z) : string :=
  if (n =? 34)%Z then String Json.backslash (String Json.dquote "")
  else if (n =? 92)%Z then String Json.backslash (String Json.backslash "")
  else if (n =? 10)%Z then "\n"
  else if (n =? 13)%Z then "\r"
  else if (n =? 9)%Z then "\t"
  else if (n =? 12)%Z then "\f"
  else if (n =? 8)%Z then "\b"
  else if (32 <=? n)%Z && (n <=? 126)%Z then String (ascii_of_nat (Z.to_nat n)) ""
  else if (n <? 65536)%Z then u_escape n
  else u_escape (55296 + (n - 65536) / 1024)
       ++ u_escape (56320 + (n - 65536) mod 1024).

Fixpoint escape (s : ustr) : string :=
  match s with
  | [] => EmptyString
  | n :: s' => escape_point n ++ escape s'
  end.

Definition encode_string (s : ustr) : string :=
  String Json.dquote (escape s ++ String Json.dquote "").

(** [floatstr] of the encoder: [float.__repr__], except for the three
    floats that are no numbers of JSON. *)
Definition encode_float (repr : string) : string :=
  if String.eqb repr "nan" then "NaN"
  else if String.eqb repr "inf" then "Infinity"
  else if String.eqb repr "-inf" then "-Infinity"
  else repr.

(** [json.dumps(v)] with its default arguments. *)
Fixpoint dumps (v : value) : string :=
  match v with
  | VNone => "null"
  | VBool true => "true"
  | VBool false => "false"
  | VInt z => Json.encode_int z
  | VFloat repr => encode_float repr
  | VStr s => encode_string s
  | VList items | VTuple items =>
      "[" ++ PyStr.join ", " (map dumps items) ++ "]"
  | VDict d =>
      "{" ++ PyStr.join ", "
               (map (fun kv => match kv with
                               | (k, x) => encode_string k ++ ": " ++ dumps x
                               end) d) ++ "}"
  end.

(** The text that follows [--extra-vars] in the command of
    [run_playbook], if any: [json.dumps(extra_vars)] under
    [if extra_vars:]. *)
Definition extra_vars_argument (extra_vars : option (list (ustr * value)))
    : option string :=
  match extra_vars with
  | Some (kv :: d) => Some (dumps (VDict (kv :: d)))
  | _ => None
  end.

(** *** Dictionaries with [str] keys *)

Fixpoint ustr_eqb (a b : ustr) {struct a} : bool :=
  match a, b with
  | [], [] => true
  | x :: a', y :: b' => (x =? y)%Z && ustr_eqb a' b'
  | _, _ => false
  end.

Fixpoint get (k : ustr) (d : list (ustr * value)) : option value :=
  match d with
  | [] => None
  | (k', v) :: d' => if ustr_eqb k k' then Some v else get k d'
  end.

Fixpoint set (k : ustr) (v : value) (d : list (ustr * value))
    : list (ustr * value) :=
  match d with
  | [] => [(k, v)]
  | (k', v') :: d' =>
      if ustr_eqb k k' then (k', v) :: d' else (k', v') :: set k v d'
  end.

(** [dict(pairs)]. *)
Definition of_pairs (pairs : list (ustr * value)) : list (ustr * value) :=
  fold_left (fun acc kv => set (fst kv) (snd kv) acc) pairs [].

(** *** [json.loads] *)

Definition code (c : ascii) : Z := Z.of_nat (nat_of_ascii c).

Definition hex4 (a b c d : ascii) : option Z :=
  option_map Z.of_nat (Json.hex4 a b c d).

Definition cons_point (n : Z) (r : option (ustr * string))
    : option (ustr * string) :=
  match r with
  | Some (str, rest) => Some (n :: str, rest)
  | None => None
  end.

(** [scanstring] in strict mode, from just after the opening quote.  An
    escape of a high surrogate that is followed by the escape of a low
    surrogate is read with it as one code point. *)
Fixpoint scan_string (s : string) : option (ustr * string) :=
  match s with
  | EmptyString => None
  | String c s' =>
      if Ascii.eqb c Json.dquote then Some ([], s')
      else if Ascii.eqb c Json.backslash then
        match s' with
        | EmptyString => None
        | String e s'' =>
            if Ascii.eqb e "u" then
              match s'' with
              | String h1 (String h2 (String h3 (String h4 rest))) =>
                  match hex4 h1 h2 h3 h4 with
                  | None => None
                  | Some uni =>
                      if is_high_surrogate uni then
                        match rest with
                        | String b (String u r1) =>
                            if Ascii.eqb b Json.backslash && Ascii.eqb u "u" then
                              match r1 with
                              | String k1 (String k2 (String k3 (String k4 rest2))) =>
                                  match hex4 k1 k2 k3 k4 with
                                  | None => None
                                  | Some uni2 =>
                                      if is_low_surrogate uni2
                                      then cons_point
                                             (65536 + ((uni - 55296) * 1024
                                                       + (uni2 - 56320)))%Z
                                             (scan_string rest2)
                                      else cons_point uni (scan_string rest)
                                  end
                              | _ => None
                              end
                            else cons_point uni (scan_string rest)
                        | _ => cons_point uni (scan_string rest)
                        end
                      else cons_point uni (scan_string rest)
                  end
              | _ => None
              end
            else
              match Json.unescape e with
              | Some ch => cons_point (code ch) (scan_string s'')
              | None => None
              end
        end
      else if (nat_of_ascii c <? 32)%nat then None
      else cons_point (code c) (scan_string s')
  end.

Definition is_digit (c : ascii) : bool :=
  match Json.digit_of c with Some _ => true | None => false end.

(** What is left of [s] after the fraction of [NUMBER_RE], a point and
    one or more digits, if [s] starts with one. *)
Definition scan_fraction (s : string) : string :=
  match s with
  | String c (String d r) =>
      if Ascii.eqb c "." && is_digit d then snd (Json.scan_digits r) else s
  | _ => s
  end.

(** What is left of [s] after the exponent of [NUMBER_RE]: [e] or [E],
    an optional sign, one or more digits. *)
Definition scan_exponent (s : string) : string :=
  match s with
  | String c r =>
      if Ascii.eqb c "e" || Ascii.eqb c "E" then
        let r1 := match r with
                  | String g r' =>
                      if Ascii.eqb g "-" || Ascii.eqb g "+" then r' else r
                  | EmptyString => r
                  end in
        match r1 with
        | String d r2 => if is_digit d then snd (Json.scan_digits r2) else s
        | EmptyString => s
        end
      else s
  | EmptyString => s
  end.

(** A match of [NUMBER_RE]: an integer, or, when a fraction or an
    exponent is there, the literal of a float. *)
Inductive number : Type :=
| NumInt (z : Z)
| NumFloat (literal : string).

(** The number at the head of [s].  [None]: no number is there, or it is
    an integer of more digits than [int] converts. *)
Definition scan_number (s : string) : option (number * string) :=
  match Json.scan_integer s with
  | None => None
  | Some (z, r1) =>
      let r3 := scan_exponent (scan_fraction r1) in
      if (String.length r3 <? String.length r1)%nat
      then Some (NumFloat (String.substring 0 (String.length s - String.length r3) s),
                 r3)
      else if Json.int_printable z then Some (NumInt z, r1) else None
  end.

Section Decoder.

(** [constants]: [NaN], [Infinity] and [-Infinity] are read, as
    [json.loads] does by default; without them the decoder accepts the
    texts of JSON only. *)
Variable constants : bool.

(** [float_of_text literal]: the float that [float(literal)] returns, as
    its [repr]. *)
Variable float_of_text : string -> string.

Definition literal (word : string) (v : value) (s : string)
    : option (value * string) :=
  if PyStr.startswith word s
  then Some (v, String.substring (String.length word)
                  (String.length s - String.length word) s)
  else None.

Definition parse_number (s : string) : option (value * string) :=
  match scan_number s with
  | Some (NumInt z, rest) => Some (VInt z, rest)
  | Some (NumFloat text, rest) => Some (VFloat (float_of_text text), rest)
  | None => None
  end.

(** The three constants, tried when no number matched. *)
Definition parse_constant (c : ascii) (s : string) : option (value * string) :=
  if negb constants then None
  else if Ascii.eqb c "N" then literal "NaN" (VFloat "nan") s
  else if Ascii.eqb c "I" then literal "Infinity" (VFloat "inf") s
  else if Ascii.eqb c "-" then literal "-Infinity" (VFloat "-inf") s
  else None.

(** [scan_once] with [JSONArray] and [JSONObject]; [fuel] bounds the
    nesting of calls. *)
Fixpoint parse_value (fuel : nat) (s : string) {struct fuel}
    : option (value * string) :=
  match fuel with
  | O => None
  | S fuel' =>
      match s with
      | EmptyString => None
      | String c s' =>
          if Ascii.eqb c Json.dquote then
            match scan_string s' with
            | Some (str, rest) => Some (VStr str, rest)
            | None => None
            end
          else if Ascii.eqb c "{" then
            match Json.skip_ws s' with
            | String c1 r1 =>
                if Ascii.eqb c1 "}" then Some (VDict [], r1)
                else match parse_members fuel' (String c1 r1) with
                     | Some (pairs, rest) => Some (VDict (of_pairs pairs), rest)
                     | None => None
                     end
            | EmptyString => None
            end
          else if Ascii.eqb c "[" then
            match Json.skip_ws s' with
            | String c1 r1 =>
                if Ascii.eqb c1 "]" then Some (VList [], r1)
                else match parse_items fuel' (String c1 r1) with
                     | Some (items, rest) => Some (VList items, rest)
                     | None => None
                     end
            | EmptyString => None
            end
          else if Ascii.eqb c "n" then literal "null" VNone s
          else if Ascii.eqb c "t" then literal "true" (VBool true) s
          else if Ascii.eqb c "f" then literal "false" (VBool false) s
          else match parse_number s with
               | Some r => Some r
               | None => parse_constant c s
               end
      end
  end

with parse_items (fuel : nat) (s : string) {struct fuel}
    : option (list value * string) :=
  match fuel with
  | O => None
  | S fuel' =>
      match parse_value fuel' s with
      | None => None
      | Some (v, r) =>
          match Json.skip_ws r with
          | String c r1 =>
              if Ascii.eqb c "]" then Some ([v], r1)
              else if Ascii.eqb c "," then
                match parse_items fuel' (Json.skip_ws r1) with
                | Some (vs, rest) => Some (v :: vs, rest)
                | None => None
                end
              else None
          | EmptyString => None
          end
      end
  end

with parse_members (fuel : nat) (s : string) {struct fuel}
    : option (list (ustr * value) * string) :=
  match fuel with
  | O => None
  | S fuel' =>
      match s with
      | EmptyString => None
      | String q s' =>
          if negb (Ascii.eqb q Json.dquote) then None
          else
            match scan_string s' with
            | None => None
            | Some (key, r) =>
                match Json.skip_ws r with
                | String c r1 =>
                    if negb (Ascii.eqb c ":") then None
                    else
                      match parse_value fuel' (Json.skip_ws r1) with
                      | None => None
                      | Some (v, r2) =>
                          match Json.skip_ws r2 with
                          | String c2 r3 =>
                              if Ascii.eqb c2 "}" then Some ([(key, v)], r3)
                              else if Ascii.eqb c2 "," then
                                match parse_members fuel' (Json.skip_ws r3) with
                                | Some (kvs, rest) => Some ((key, v) :: kvs, rest)
                                | None => None
                                end
                              else None
                          | EmptyString => None
                          end
                      end
                | EmptyString => None
                end
            end
      end
  end.

(** One value, with whitespace around it and nothing else.  [None]: the
    decoder raises. *)
Definition loads (s : string) : option value :=
  match parse_value (S (String.length s)) (Json.skip_ws s) with
  | Some (v, rest) =>
      match Json.skip_ws rest with
      | EmptyString => Some v
      | String _ _ => None
      end
  | None => None
  end.

End Decoder.

(** *** Python equality *)

(** The value of a run of digits, their number, and what follows. *)
Definition digits_of (s : string) : Z * nat * string :=
  let (u, rest) := Json.scan_digits s in
  (Z.of_uint u, String.length s - String.length rest, rest).

(** The number a float [repr] writes, as [(m, e)] for [m * 10^e];
    [None] for [inf], [-inf] and [nan]. *)
Definition float_decimal (repr : string) : option (Z * Z) :=
  let (negative, body) :=
    match repr with
    | String c r => if Ascii.eqb c "-" then (true, r) else (false, repr)
    | EmptyString => (false, repr)
    end in
  let '(i, ni, r1) := digits_of body in
  let '(f, nf, r2) :=
    match r1 with
    | String c r => if Ascii.eqb c "." then digits_of r else (0%Z, 0, r1)
    | EmptyString => (0%Z, 0, r1)
    end in
  let '(e, r3) :=
    match r2 with
    | String c r =>
        if Ascii.eqb c "e" || Ascii.eqb c "E" then
          match r with
          | String g r' =>
              if Ascii.eqb g "-" then let '(x, _, t) := digits_of r' in (Z.opp x, t)
              else if Ascii.eqb g "+" then let '(x, _, t) := digits_of r' in (x, t)
              else let '(x, _, t) := digits_of r in (x, t)
          | EmptyString => (0%Z, r2)
          end
        else (0%Z, r2)
    | EmptyString => (0%Z, r2)
    end in
  if (0 <? ni)%nat && String.eqb r3 ""
  then let m := (i * 10 ^ Z.of_nat nf + f)%Z in
       Some (if negative then Z.opp m else m, (e - Z.of_nat nf)%Z)
  else None.

(** [x == z] for a float and an integer. *)
Definition float_int_eqb (repr : string) (z : Z) : bool :=
  match float_decimal repr with
  | Some (m, e) =>
      if (0 <=? e)%Z then (m * 10 ^ e =? z)%Z else (m =? z * 10 ^ (- e))%Z
  | None => false
  end.

Definition float_is_zero (repr : string) : bool :=
  match float_decimal repr with
  | Some (m, _) => (m =? 0)%Z
  | None => false
  end.

(** [x == y] for two floats: [nan] equals nothing, the two zeros are
    equal, and otherwise two floats are equal when they are the same. *)
Definition float_eqb (a b : string) : bool :=
  negb (String.eqb a "nan") && negb (String.eqb b "nan")
  && (String.eqb a b || (float_is_zero a && float_is_zero b)).

Definition int_of_bool (b : bool) : Z := if b then 1%Z else 0%Z.

Section Comparisons.
Variable eqb : value -> value -> bool.

Fixpoint lookup_all (xs ys : list (ustr * value)) {struct xs} : bool :=
  match xs with
  | [] => true
  | (k, x) :: xs' =>
      match get k ys with
      | Some y => eqb x y && lookup_all xs' ys
      | None => false
      end
  end.
End Comparisons.

(** Python's [==]. *)
Fixpoint py_eqb (a b : value) {struct a} : bool :=
  match a, b with
  | VNone, VNone => true
  | VBool x, VBool y => Bool.eqb x y
  | VBool x, VInt y => Z.eqb (int_of_bool x) y
  | VInt x, VBool y => Z.eqb x (int_of_bool y)
  | VInt x, VInt y => Z.eqb x y
  | VFloat x, VFloat y => float_eqb x y
  | VFloat x, VInt y => float_int_eqb x y
  | VInt x, VFloat y => float_int_eqb y x
  | VFloat x, VBool y => float_int_eqb x (int_of_bool y)
  | VBool x, VFloat y => float_int_eqb y (int_of_bool x)
  | VStr x, VStr y => ustr_eqb x y
  | VList xs, VList ys => items_eqb py_eqb xs ys
  | VTuple xs, VTuple ys => items_eqb py_eqb xs ys
  | VDict xs, VDict ys =>
      Nat.eqb (List.length xs) (List.length ys) && lookup_all py_eqb xs ys
  | _, _ => false
  end.

(** *** The values a mapping can hold *)

Definition valid_point (n : Z) : bool := (0 <=? n)%Z && (n <? 1114112)%Z.

(** [repr] is read by the decoder as one float literal, to its end. *)
Definition is_float_literal (repr : string) : bool :=
  match scan_number repr with
  | Some (NumFloat _, EmptyString) => true
  | _ => false
  end.

Definition is_nonfinite (repr : string) : bool :=
  String.eqb repr "nan" || String.eqb repr "inf" || String.eqb repr "-inf".

Section Invariant.
Variable float_of_text : string -> string.

(** [repr] is the [repr] of a float: one of the three that are no
    numbers, or a decimal literal with a fraction or an exponent that
    [float] reads back as the same float ([float(repr(x)) == x]). *)
Definition float_repr (repr : string) : Prop :=
  is_nonfinite repr = true
  \/ (is_float_literal repr = true /\ float_of_text repr = repr).

(** What holds of every value of Python: the code points of a string are
    in range, a dictionary has no key twice, a float has a [repr]. *)
Fixpoint python_value (v : value) : Prop :=
  match v with
  | VFloat repr => float_repr repr
  | VStr s => forallb valid_point s = true
  | VList items | VTuple items =>
      (fix all (l : list value) : Prop :=
         match l with [] => True | x :: l' => python_value x /\ all l' end) items
  | VDict d =>
      NoDup (map fst d) /\
      (fix all (l : list (ustr * value)) : Prop :=
         match l with
         | [] => True
         | (k, x) :: l' =>
             forallb valid_point k = true /\ python_value x /\ all l'
         end) d
  | _ => True
  end.
End Invariant.

(** [json.dumps] returns a text: no integer is beyond the digit limit. *)
Fixpoint serializable (v : value) : bool :=
  match v with
  | VInt z => Json.int_printable z
  | VList items | VTuple items => forallb serializable items
  | VDict d => forallb (fun kv => match kv with (_, x) => serializable x end) d
  | _ => true
  end.

(** No tuple at any depth. *)
Fixpoint no_tuple (v : value) : bool :=
  match v with
  | VList items => forallb no_tuple items
  | VTuple _ => false
  | VDict d => forallb (fun kv => match kv with (_, x) => no_tuple x end) d
  | _ => true
  end.

(** No [nan] at any depth. *)
Fixpoint no_nan (v : value) : bool :=
  match v with
  | VFloat repr => negb (String.eqb repr "nan")
  | VList items | VTuple items => forallb no_nan items
  | VDict d => forallb (fun kv => match kv with (_, x) => no_nan x end) d
  | _ => true
  end.

(** No [nan], [inf] or [-inf] at any depth. *)
Fixpoint finite_floats (v : value) : bool :=
  match v with
  | VFloat repr => negb (is_nonfinite repr)
  | VList items | VTuple items => forallb finite_floats items
  | VDict d => forallb (fun kv => match kv with (_, x) => finite_floats x end) d
  | _ => true
  end.

(** No high surrogate directly followed by a low surrogate. *)
Fixpoint no_pair (s : ustr) : bool :=
  match s with
  | a :: s' =>
      match s' with
      | b :: _ => negb (is_high_surrogate a && is_low_surrogate b)
      | [] => true
      end && no_pair s'
  | [] => true
  end.

Fixpoint no_surrogate_pair (v : value) : bool :=
  match v with
  | VStr s => no_pair s
  | VList items | VTuple items => forallb no_surrogate_pair items
  | VDict d =>
      forallb (fun kv => match kv with
                         | (k, x) => no_pair k && no_surrogate_pair x
                         end) d
  | _ => true
  end.

(** *** The values of [pyvalue] among these *)

Definition points (s : string) : ustr := map code (list_ascii_of_string s).

Fixpoint of_pyvalue (v : pyvalue) : value :=
  match v with
  | PyNone => VNone
  | PyBool b => VBool b
  | PyInt z => VInt z
  | PyStr s => VStr (points s)
  | PyList items => VList (map of_pyvalue items)
  | PyTuple items => VTuple (map of_pyvalue items)
  | PyDict d =>
      VDict (map (fun kv => match kv with
                            | (k, x) => (points k, of_pyvalue x)
                            end) d)
  end.

Definition of_pydict (d : pydict) : list (ustr * value) :=
  map (fun kv => match kv with (k, x) => (points k, of_pyvalue x) end) d.

(** *** What the decoder reads back *)

(** [rest] does not go on with the escape of a low surrogate: either no
    [\u] escape is next, or it is the escape of another code point. *)
Definition no_low_escape (rest : string) : bool :=
  match rest with
  | String b (String u r1) =>
      if Ascii.eqb b Json.backslash && Ascii.eqb u "u" then
        match r1 with
        | String k1 (String k2 (String k3 (String k4 _))) =>
            match hex4 k1 k2 k3 k4 with
            | Some uni2 => negb (is_low_surrogate uni2)
            | None => false
            end
        | _ => false
        end
      else true
  | _ => true
  end.

(** [parse_value] gives [v] back from the text [dumps] writes for it,
    whatever admissible text follows, with fuel for the length of the
    text. *)
Definition roundtrips (constants : bool) (float_of_text : string -> string)
    (v : value) : Prop :=
  forall fuel rest,
    String.length (dumps v) <= fuel -> Json.value_end rest = true ->
    parse_value constants float_of_text fuel (dumps v ++ rest) = Some (v, rest).

End JsonFull.

(* ================================================================== *)
(** * Properties *)
(* ================================================================== *)

(** ** Strings *)

Section StringFacts.

Lemma append_empty_r (s : string) : s ++ "" = s.
Proof. induction s as [|c s IH]; simpl; [reflexivity | now rewrite IH]. Qed.

Lemma append_assoc (a b c : string) : (a ++ b) ++ c = a ++ (b ++ c).
Proof. induction a as [|x a IH]; simpl; [reflexivity | now rewrite IH]. Qed.

Lemma length_append (a b : string) :
  String.length (a ++ b) = String.length a + String.length b.
Proof. induction a as [|x a IH]; simpl; [reflexivity | now rewrite IH]. Qed.

Lemma substring_zero_zero (s : string) : String.substring 0 0 s = "".
Proof. destruct s; reflexivity. Qed.

Lemma endswith_cons (suf : string) (c : ascii) (s : string) :
  PyStr.endswith suf (String c s)
  = if String.eqb (String c s) suf then true else PyStr.endswith suf s.
Proof. reflexivity. Qed.

Lemma endswith_length (suf s : string) :
  PyStr.endswith suf s = true -> String.length suf <= String.length s.
Proof.
  induction s as [|c s IH].
  - destruct suf; cbn; [lia | discriminate].
  - rewrite endswith_cons.
    destruct (String.eqb (String c s) suf) eqn:E.
    + apply String.eqb_eq in E. subst suf. cbn. lia.
    + intros H. specialize (IH H). cbn [String.length]. lia.
Qed.

(** A string that ends with [suf] is its front part followed by [suf]. *)
Lemma endswith_split (suf s : string) :
  PyStr.endswith suf s = true ->
  s = PyStr.drop_last (String.length suf) s ++ suf.
Proof.
  unfold PyStr.drop_last.
  induction s as [|c s IH].
  - destruct suf; cbn; [reflexivity | discriminate].
  - rewrite endswith_cons.
    destruct (String.eqb (String c s) suf) eqn:E.
    + apply String.eqb_eq in E. subst suf. intros _.
      rewrite Nat.sub_diag. reflexivity.
    + intros H. pose proof (endswith_length _ _ H) as Hlen.
      specialize (IH H). cbn [String.length].
      replace (S (String.length s) - String.length suf)
        with (S (String.length s - String.length suf)) by lia.
      cbn [String.substring]. cbn [append]. f_equal. exact IH.
Qed.

(** Where [old] does not start inside [stem], [replace] copies [stem]. *)
Lemma replace_from_clean (old new stem tail : string) :
  PyStr.occurs_within old stem tail = false ->
  PyStr.replace_from old new 0 (stem ++ tail)
  = stem ++ PyStr.replace_from old new 0 tail.
Proof.
  induction stem as [|c stem IH]; intros H.
  - reflexivity.
  - cbn [PyStr.occurs_within] in H. apply orb_false_iff in H as [H1 H2].
    cbn [append] in *. cbn [PyStr.replace_from]. rewrite H1.
    now rewrite (IH H2).
Qed.

Lemma occurs_within_empty (pat stem : string) :
  PyStr.occurs pat stem = false -> PyStr.occurs_within pat stem "" = false.
Proof.
  induction stem as [|c stem IH]; intros H; [reflexivity|].
  cbn [PyStr.occurs] in H. apply orb_false_iff in H as [H1 H2].
  cbn [PyStr.occurs_within]. rewrite append_empty_r, H1. now apply IH.
Qed.

Lemma occurs_within_tail (pat stem tail : string) :
  no_straddle pat tail ->
  PyStr.occurs pat stem = false -> PyStr.occurs_within pat stem tail = false.
Proof.
  intros Hns. induction stem as [|c stem IH]; intros H; [reflexivity|].
  cbn [PyStr.occurs] in H. apply orb_false_iff in H as [H1 H2].
  cbn [PyStr.occurs_within]. rewrite (Hns (String c stem)); [|discriminate|exact H1].
  now apply IH.
Qed.

Ltac straddle :=
  intros s Hne H;
  destruct s as [|c1 [|c2 [|c3 [|c4 [|c5 s]]]]]; [congruence| | | | |];
  cbn in *;
  repeat match goal with
         | |- context [Ascii.eqb ?a ?b] => destruct (Ascii.eqb a b); cbn in *
         end;
  congruence.

Lemma no_straddle_yml_yml : no_straddle ".yml" ".yml".
Proof. straddle. Qed.

Lemma no_straddle_yml_yaml : no_straddle ".yml" ".yaml".
Proof. straddle. Qed.

Lemma no_straddle_yaml_yaml : no_straddle ".yaml" ".yaml".
Proof. straddle. Qed.

Lemma clean_stem_inv (stem : string) :
  clean_stem stem = true ->
  PyStr.occurs ".yml" stem = false /\ PyStr.occurs ".yaml" stem = false.
Proof.
  unfold clean_stem. intros H. apply andb_true_iff in H as [H1 H2].
  now rewrite negb_true_iff in H1, H2.
Qed.

Lemma replace_yaml_clean (stem : string) :
  PyStr.occurs ".yaml" stem = false -> PyStr.replace ".yaml" "" stem = stem.
Proof.
  intros H. unfold PyStr.replace.
  rewrite <- (append_empty_r stem) at 1.
  rewrite replace_from_clean by now apply occurs_within_empty.
  cbn. apply append_empty_r.
Qed.

Lemma playbook_name_of_yml (stem : string) :
  clean_stem stem = true -> playbook_name_of (stem ++ ".yml") = stem.
Proof.
  intros H. apply clean_stem_inv in H as [H1 H2]. unfold playbook_name_of.
  unfold PyStr.replace at 2.
  rewrite replace_from_clean
    by (apply occurs_within_tail; [apply no_straddle_yml_yml | exact H1]).
  cbn [PyStr.replace_from PyStr.startswith Ascii.eqb Bool.eqb andb String.length
       Nat.sub append].
  rewrite append_empty_r. now apply replace_yaml_clean.
Qed.

Lemma playbook_name_of_yaml (stem : string) :
  clean_stem stem = true -> playbook_name_of (stem ++ ".yaml") = stem.
Proof.
  intros H. apply clean_stem_inv in H as [H1 H2]. unfold playbook_name_of.
  unfold PyStr.replace at 2.
  rewrite replace_from_clean
    by (apply occurs_within_tail; [apply no_straddle_yml_yaml | exact H1]).
  replace (PyStr.replace_from ".yml" "" 0 ".yaml") with ".yaml" by reflexivity.
  unfold PyStr.replace.
  rewrite replace_from_clean
    by (apply occurs_within_tail; [apply no_straddle_yaml_yaml | exact H2]).
  cbn. apply append_empty_r.
Qed.

(** On a recognised file whose stem is clean, the name of the scan is the
    file name without its extension. *)
Lemma playbook_name_of_strip (file : string) :
  PyStr.endswith_any playbook_extensions file = true ->
  clean_stem (strip_extension file) = true ->
  playbook_name_of file = strip_extension file.
Proof.
  unfold PyStr.endswith_any, playbook_extensions, strip_extension.
  cbn [existsb]. rewrite orb_false_r.
  destruct (PyStr.endswith ".yml" file) eqn:E1.
  - intros _ Hc. pose proof (endswith_split _ _ E1) as Hs.
    cbn [String.length] in Hs. rewrite Hs at 1.
    now apply playbook_name_of_yml.
  - cbn [orb]. intros E2 Hc. rewrite E2 in *.
    pose proof (endswith_split _ _ E2) as Hs.
    cbn [String.length] in Hs. rewrite Hs at 1.
    now apply playbook_name_of_yaml.
Qed.

End StringFacts.

(** ** Dictionaries *)

Section DictFacts.
Context {V : Type}.
Implicit Types (d o : Dict.t V) (k : string) (v : V).

Lemma get_none_keys k d : Dict.get k d = None <-> ~ In k (Dict.keys d).
Proof.
  induction d as [|[k' v'] d IH]; cbn.
  - tauto.
  - destruct (String.eqb k k') eqn:E.
    + apply String.eqb_eq in E. subst. split; [discriminate | tauto].
    + apply String.eqb_neq in E. rewrite IH. split.
      * intros H [H1|H1]; [congruence | tauto].
      * tauto.
Qed.

Lemma mem_keys k d : Dict.mem k d = true <-> In k (Dict.keys d).
Proof.
  unfold Dict.mem. destruct (Dict.get k d) eqn:E.
  - split; [intros _ | reflexivity].
    destruct (in_dec string_dec k (Dict.keys d)) as [H|H]; [exact H|].
    apply get_none_keys in H. congruence.
  - apply get_none_keys in E. split; [discriminate | tauto].
Qed.

(** A new key goes to the end. *)
Lemma set_absent k v d : Dict.get k d = None -> Dict.set k v d = (d ++ [(k, v)])%list.
Proof.
  induction d as [|[k' v'] d IH]; cbn; [reflexivity|].
  destruct (String.eqb k k'); [discriminate|].
  intros H. now rewrite IH.
Qed.

Lemma get_set_same k v d : Dict.get k (Dict.set k v d) = Some v.
Proof.
  induction d as [|[k' v'] d IH]; cbn.
  - now rewrite String.eqb_refl.
  - destruct (String.eqb k k') eqn:E; cbn; rewrite E; [reflexivity | exact IH].
Qed.

Lemma get_set_other k k' v d :
  k <> k' -> Dict.get k (Dict.set k' v d) = Dict.get k d.
Proof.
  intros Hne. induction d as [|[k2 v2] d IH]; cbn.
  - apply String.eqb_neq in Hne. now rewrite Hne.
  - destruct (String.eqb k' k2) eqn:E; cbn.
    + apply String.eqb_eq in E. subst k2.
      apply String.eqb_neq in Hne. now rewrite Hne.
    + destruct (String.eqb k k2); [reflexivity | exact IH].
Qed.

Lemma keys_set_present k v d :
  In k (Dict.keys d) -> Dict.keys (Dict.set k v d) = Dict.keys d.
Proof.
  unfold Dict.keys.
  induction d as [|[k' v'] d IH]; cbn; [tauto|].
  destruct (String.eqb k k') eqn:E; cbn; [reflexivity|].
  apply String.eqb_neq in E. intros [H|H]; [congruence|].
  f_equal. now apply IH.
Qed.

(** [update] gives every key of [other] the value [other] has for it, and
    leaves the other keys alone. *)
Lemma get_update_other k d o :
  Dict.get k o = None -> Dict.get k (Dict.update d o) = Dict.get k d.
Proof.
  unfold Dict.update. revert d.
  induction o as [|[k' v'] o IH]; intros d; cbn; [reflexivity|].
  destruct (String.eqb k k') eqn:E; [discriminate|].
  intros H. rewrite (IH _ H). apply get_set_other.
  now apply String.eqb_neq.
Qed.

Lemma get_update_in k v d o :
  NoDup (Dict.keys o) -> Dict.get k o = Some v ->
  Dict.get k (Dict.update d o) = Some v.
Proof.
  unfold Dict.update. revert d.
  induction o as [|[k' v'] o IH]; intros d Hnd; cbn; [discriminate|].
  cbn in Hnd. inversion Hnd as [|? ? Hnotin Hnd']; subst.
  destruct (String.eqb k k') eqn:E.
  - apply String.eqb_eq in E. subst k'. intros [= ->].
    change (fold_left _ o ?x) with (Dict.update x o).
    rewrite get_update_other by now apply get_none_keys.
    apply get_set_same.
  - intros H. now apply IH.
Qed.

Lemma update_nil d : Dict.update d [] = d.
Proof. reflexivity. Qed.

(** [dict(pairs)] of pairs with distinct keys is the list of pairs. *)
Lemma update_fresh d o :
  NoDup (Dict.keys d ++ Dict.keys o) -> Dict.update d o = (d ++ o)%list.
Proof.
  unfold Dict.update. revert d.
  induction o as [|[k v] o IH]; intros d Hnd; cbn.
  - now rewrite List.app_nil_r.
  - cbn in Hnd. pose proof (NoDup_remove_2 _ _ _ Hnd) as Hk.
    rewrite set_absent
      by (apply get_none_keys; intros Hin; apply Hk, in_or_app; now left).
    rewrite IH.
    + now rewrite <- List.app_assoc.
    + unfold Dict.keys in *. rewrite List.map_app. cbn. rewrite <- List.app_assoc. exact Hnd.
Qed.

Lemma of_pairs_nodup (pairs : list (string * V)) :
  NoDup (map fst pairs) -> Dict.of_pairs pairs = pairs.
Proof. intros H. unfold Dict.of_pairs. now rewrite update_fresh. Qed.

Lemma get_without names k d :
  Dict.get k (Dict.without names d)
  = if existsb (String.eqb k) names then None else Dict.get k d.
Proof.
  unfold Dict.without.
  induction d as [|[k' v'] d IH]; cbn.
  - now destruct (existsb _ names).
  - destruct (existsb (String.eqb k') names) eqn:E'; cbn.
    + rewrite IH. destruct (String.eqb k k') eqn:E; [|reflexivity].
      apply String.eqb_eq in E. subst k'. now rewrite E'.
    + destruct (String.eqb k k') eqn:E.
      * apply String.eqb_eq in E. subst k'. now rewrite E'.
      * exact IH.
Qed.

Lemma keys_without_nodup names d :
  NoDup (Dict.keys d) -> NoDup (Dict.keys (Dict.without names d)).
Proof.
  unfold Dict.without, Dict.keys.
  induction d as [|[k v] d IH]; cbn; intros H; [constructor|].
  inversion H as [|? ? Hnotin Hnd]; subst.
  destruct (existsb (String.eqb k) names); cbn; [now apply IH|].
  constructor; [|now apply IH].
  intros Hin. apply Hnotin. apply in_map_iff in Hin as [[k' v'] [Hk Hin]].
  apply filter_In in Hin as [Hin _]. apply in_map_iff. now exists (k', v').
Qed.

End DictFacts.

Lemma has_duplicates_false (l : list string) :
  has_duplicates l = false -> NoDup l.
Proof.
  induction l as [|x l IH]; cbn; intros H; [constructor|].
  apply orb_false_iff in H as [H1 H2]. constructor; [|now apply IH].
  intros Hin. unfold in_list in H1.
  assert (existsb (String.eqb x) l = true) as Ht.
  { apply existsb_exists. exists x. split; [exact Hin | apply String.eqb_refl]. }
  congruence.
Qed.

Lemma in_list_true (x : string) (l : list string) :
  in_list x l = true <-> In x l.
Proof.
  unfold in_list. rewrite existsb_exists. split.
  - intros [y [Hin E]]. apply String.eqb_eq in E. now subst.
  - intros H. exists x. split; [exact H | apply String.eqb_refl].
Qed.

(** ** The registry scan *)

Section Registry.
Variable playbooks_dir : string.

(** As long as the names stay distinct, the scan adds one entry per
    recognised file, in the order of the listing. *)
Lemma scan_fold_distinct (files : list string) (acc : Dict.t string) :
  NoDup (Dict.keys acc ++ map playbook_name_of (recognized files)) ->
  fold_left (scan_step playbooks_dir) files acc
  = (acc ++ map (entry_of playbooks_dir) (recognized files))%list.
Proof.
  revert acc. induction files as [|f files IH]; intros acc Hnd; cbn [fold_left].
  - cbn. now rewrite List.app_nil_r.
  - unfold scan_step at 2. unfold recognized in *. cbn [filter] in *.
    destruct (PyStr.endswith_any playbook_extensions f).
    + cbn [map] in *. pose proof (NoDup_remove_2 _ _ _ Hnd) as Hk.
      rewrite set_absent
        by (apply get_none_keys; intros Hin; apply Hk, in_or_app; now left).
      rewrite IH.
      * rewrite <- List.app_assoc. reflexivity.
      * unfold Dict.keys in *. rewrite List.map_app. cbn [map fst].
        rewrite <- List.app_assoc. exact Hnd.
    + now apply IH.
Qed.

Lemma map_name_strip (files : list string) :
  (forall f, In f (recognized files) -> clean_stem (strip_extension f) = true) ->
  map playbook_name_of (recognized files) = map strip_extension (recognized files).
Proof.
  intros H. apply map_ext_in. intros f Hf.
  apply playbook_name_of_strip; [|now apply H].
  unfold recognized in Hf. now apply filter_In in Hf.
Qed.

End Registry.

Lemma scan_ignores_unrecognized (dir : string) (files : list string)
    (acc : Dict.t string) :
  fold_left (scan_step dir) files acc
  = fold_left (scan_step dir) (recognized files) acc.
Proof.
  revert acc. induction files as [|f files IH]; intros acc; [reflexivity|].
  unfold recognized. cbn [fold_left filter].
  destruct (PyStr.endswith_any playbook_extensions f) eqn:E.
  - cbn [fold_left]. apply IH.
  - unfold scan_step at 2. rewrite E. apply IH.
Qed.

(** C4 (amended): for every directory listing in which the recognised
    files have pairwise distinct names once the extension is stripped, and
    in which no stripped name holds the text of an extension, the scan
    makes exactly one entry per recognised file: [list_playbooks] returns
    exactly N names, in the order of the listing, each the file name with
    its extension stripped, mapped to the path of its file; and in every
    listing the files without a recognised extension contribute nothing. *)
Theorem scan_lists_stripped_names (a i dir : string) (files : list string) :
  (forall f, In f (recognized files) -> clean_stem (strip_extension f) = true) ->
  NoDup (map strip_extension (recognized files)) ->
  let mgr := mkAnsibleManager a i dir (_scan_playbooks dir (Some files)) in
  available_playbooks mgr
  = map (fun f => (strip_extension f, os_path_join dir f)) (recognized files)
  /\ list_playbooks mgr = map strip_extension (recognized files)
  /\ List.length (list_playbooks mgr) = List.length (recognized files)
  /\ _scan_playbooks dir (Some files) = _scan_playbooks dir (Some (recognized files)).
Proof.
  intros Hclean Hnd mgr.
  assert (available_playbooks mgr
          = map (fun f => (strip_extension f, os_path_join dir f)) (recognized files))
    as Hreg.
  { subst mgr. cbn [available_playbooks _scan_playbooks].
    rewrite scan_fold_distinct.
    - cbn [app]. apply map_ext_in. intros f Hf. unfold entry_of. f_equal.
      apply playbook_name_of_strip; [|now apply Hclean].
      unfold recognized in Hf. now apply filter_In in Hf.
    - cbn [Dict.empty Dict.keys map app]. now rewrite map_name_strip. }
  assert (list_playbooks mgr = map strip_extension (recognized files)) as Hnames.
  { unfold list_playbooks, Dict.keys. rewrite Hreg, map_map. reflexivity. }
  repeat split.
  - exact Hreg.
  - exact Hnames.
  - rewrite Hnames. apply length_map.
  - cbn [_scan_playbooks]. apply scan_ignores_unrecognized.
Qed.

Lemma scan_lists_stripped_names_witness :
  list_playbooks
    (mkAnsibleManager "/a" "/a/inventory" "/a/playbooks"
       (_scan_playbooks "/a/playbooks"
          (Some ["setup.yml"; "teardown.yaml"; "README.md"])))
  = ["setup"; "teardown"].
Proof.
  assert (forall f, In f (recognized ["setup.yml"; "teardown.yaml"; "README.md"]) ->
                    clean_stem (strip_extension f) = true) as H1.
  { intros f [<-|[<-|[]]]; reflexivity. }
  assert (NoDup (map strip_extension
                   (recognized ["setup.yml"; "teardown.yaml"; "README.md"]))) as H2.
  { repeat constructor; cbn; intuition discriminate. }
  exact (proj1 (proj2 (scan_lists_stripped_names "/a" "/a/inventory" "/a/playbooks"
                         ["setup.yml"; "teardown.yaml"; "README.md"] H1 H2))).
Defined.

(** C4 as stated fails: [a.yml] and [a.yaml] are two files with a
    recognised extension, and the registry has one entry for them. *)
Lemma scan_same_stem_one_entry :
  let files := ["a.yml"; "a.yaml"] in
  let mgr := mkAnsibleManager "/a" "/a/inventory" "/a/playbooks"
               (_scan_playbooks "/a/playbooks" (Some files)) in
  List.length (recognized files) = 2
  /\ ~ (List.length (list_playbooks mgr) = List.length (recognized files)).
Proof. split; [reflexivity | cbn; discriminate]. Qed.

(** ** [json.dumps] and [json.loads] *)

Section JsonFacts.
Import Json.

(** Induction on values, with the hypothesis for every item of a list, a
    tuple or a dictionary. *)
Lemma pyvalue_nested_ind (P : pyvalue -> Prop) :
  P PyNone ->
  (forall b, P (PyBool b)) ->
  (forall z, P (PyInt z)) ->
  (forall s, P (PyStr s)) ->
  (forall items, Forall P items -> P (PyList items)) ->
  (forall items, Forall P items -> P (PyTuple items)) ->
  (forall d, Forall (fun kv => P (snd kv)) d -> P (PyDict d)) ->
  forall v, P v.
Proof.
  intros HN HB HI HS HL HT HD.
  fix IH 1. intros [| b | z | s | items | items | d].
  - exact HN.
  - apply HB.
  - apply HI.
  - apply HS.
  - apply HL. induction items as [|x items IHl]; constructor; [apply IH | exact IHl].
  - apply HT. induction items as [|x items IHl]; constructor; [apply IH | exact IHl].
  - apply HD. induction d as [|[k x] d IHl]; constructor; [apply IH | exact IHl].
Qed.

(** *** Strings *)

Lemma scan_escape_char (c : ascii) (tail : string) :
  scan_string (escape_char c ++ tail) = cons_char c (scan_string tail).
Proof.
  destruct c as [[|] [|] [|] [|] [|] [|] [|] [|]]; reflexivity.
Qed.

Lemma scan_escape (s rest : string) :
  scan_string (escape s ++ String dquote rest) = Some (s, rest).
Proof.
  induction s as [|c s IH].
  - reflexivity.
  - cbn [escape]. rewrite append_assoc, scan_escape_char, IH. reflexivity.
Qed.

Lemma escape_char_printable (c : ascii) :
  all_chars printable (escape_char c) = true.
Proof.
  destruct c as [[|] [|] [|] [|] [|] [|] [|] [|]]; reflexivity.
Qed.

Lemma all_chars_append (p : ascii -> bool) (a b : string) :
  all_chars p (a ++ b) = all_chars p a && all_chars p b.
Proof.
  induction a as [|c a IH]; cbn; [reflexivity|].
  now rewrite IH, andb_assoc.
Qed.

Lemma escape_printable (s : string) : all_chars printable (escape s) = true.
Proof.
  induction s as [|c s IH]; [reflexivity|].
  cbn [escape]. now rewrite all_chars_append, escape_char_printable, IH.
Qed.

Lemma encode_string_printable (s : string) :
  all_chars printable (encode_string s) = true.
Proof.
  unfold encode_string. cbn [all_chars].
  rewrite all_chars_append, escape_printable. reflexivity.
Qed.

(** *** Integers *)

Lemma value_end_no_digit (rest : string) :
  value_end rest = true -> no_digit_start rest /\ float_follows rest = false.
Proof.
  destruct rest as [|c rest]; [now split|].
  destruct c as [[|] [|] [|] [|] [|] [|] [|] [|]]; cbn; intros H;
    try discriminate; now split.
Qed.

Lemma scan_digits_string_of_uint (u : Decimal.uint) (rest : string) :
  no_digit_start rest ->
  scan_digits (NilEmpty.string_of_uint u ++ rest) = (u, rest).
Proof.
  intros Hrest.
  induction u as [|u IH|u IH|u IH|u IH|u IH|u IH|u IH|u IH|u IH|u IH];
    cbn [NilEmpty.string_of_uint append];
    try (cbn [scan_digits]; cbn [digit_of uint_of_char]; now rewrite IH).
  destruct rest as [|c rest]; [reflexivity|].
  cbn in Hrest. cbn [scan_digits]. now rewrite Hrest.
Qed.

(** The decimal form of a positive number starts with a digit other
    than zero. *)
Lemma to_uint_head_nonzero (p : positive) (u : Decimal.uint) :
  Pos.to_uint p <> Decimal.D0 u.
Proof.
  intros E.
  pose proof (DecimalPos.Unsigned.to_of (Pos.to_uint p)) as H.
  rewrite DecimalPos.Unsigned.of_to in H. cbn [N.to_uint] in H.
  rewrite E in H. unfold Decimal.unorm in H.
  rewrite DecimalFacts.nzhead_D0 in H.
  destruct (Decimal.nzhead u) eqn:En;
    try (symmetry in H; rewrite <- En in H;
         exact (DecimalFacts.nzhead_nonzero _ _ H)).
  injection H as ->.
  exact (DecimalPos.Unsigned.to_uint_nonzero p E).
Qed.

Lemma string_of_pos_head (p : positive) :
  exists c s,
    NilEmpty.string_of_uint (Pos.to_uint p) = String c s
    /\ Ascii.eqb c "-" = false /\ Ascii.eqb c "0" = false
    /\ digit_of c <> None /\ is_ws c = false
    /\ Ascii.eqb c "]" = false /\ Ascii.eqb c "}" = false
    /\ printable c = true.
Proof.
  destruct (Pos.to_uint p) as [|u|u|u|u|u|u|u|u|u|u] eqn:E.
  - now apply DecimalPos.Unsigned.to_uint_nonnil in E.
  - now apply to_uint_head_nonzero in E.
  - do 2 eexists; cbn; repeat split; discriminate.
  - do 2 eexists; cbn; repeat split; discriminate.
  - do 2 eexists; cbn; repeat split; discriminate.
  - do 2 eexists; cbn; repeat split; discriminate.
  - do 2 eexists; cbn; repeat split; discriminate.
  - do 2 eexists; cbn; repeat split; discriminate.
  - do 2 eexists; cbn; repeat split; discriminate.
  - do 2 eexists; cbn; repeat split; discriminate.
  - do 2 eexists; cbn; repeat split; discriminate.
Qed.

Lemma string_of_pos_nilzero (p : positive) :
  NilZero.string_of_uint (Pos.to_uint p) = NilEmpty.string_of_uint (Pos.to_uint p).
Proof.
  unfold NilZero.string_of_uint.
  destruct (Pos.to_uint p) eqn:E; try reflexivity.
  now apply DecimalPos.Unsigned.to_uint_nonnil in E.
Qed.

Lemma of_uint_to_uint (p : positive) : Z.of_uint (Pos.to_uint p) = Z.pos p.
Proof. unfold Z.of_uint. now rewrite DecimalPos.Unsigned.of_to. Qed.

Lemma scan_integer_pos (p : positive) (rest : string) :
  no_digit_start rest ->
  scan_integer (NilEmpty.string_of_uint (Pos.to_uint p) ++ rest)
  = Some (Z.pos p, rest).
Proof.
  intros Hrest.
  destruct (string_of_pos_head p) as (c & s & E & Hm & Hz & Hd & _).
  unfold scan_integer. rewrite E. cbn [append]. rewrite Hm, Hz.
  destruct (digit_of c); [|contradiction].
  change (String c (s ++ rest)) with (String c s ++ rest). rewrite <- E.
  rewrite scan_digits_string_of_uint by exact Hrest.
  now rewrite of_uint_to_uint.
Qed.

Lemma scan_integer_neg (p : positive) (rest : string) :
  no_digit_start rest ->
  scan_integer (String "-" (NilEmpty.string_of_uint (Pos.to_uint p) ++ rest))
  = Some (Z.neg p, rest).
Proof.
  intros Hrest.
  destruct (string_of_pos_head p) as (c & s & E & Hm & Hz & Hd & _).
  unfold scan_integer. cbn [Ascii.eqb Bool.eqb]. rewrite E. cbn [append].
  rewrite Hz.
  destruct (digit_of c); [|contradiction].
  change (String c (s ++ rest)) with (String c s ++ rest). rewrite <- E.
  rewrite scan_digits_string_of_uint by exact Hrest.
  now rewrite of_uint_to_uint.
Qed.

Lemma scan_integer_encode (z : Z) (rest : string) :
  no_digit_start rest ->
  scan_integer (encode_int z ++ rest) = Some (z, rest).
Proof.
  intros Hrest. unfold encode_int.
  destruct z as [|p|p]; cbn [Z.to_int NilZero.string_of_int].
  - reflexivity.
  - rewrite string_of_pos_nilzero. now apply scan_integer_pos.
  - rewrite string_of_pos_nilzero. cbn [append]. now apply scan_integer_neg.
Qed.

Lemma parse_number_encode (z : Z) (rest : string) :
  value_end rest = true ->
  parse_number (encode_int z ++ rest) = Some (PyInt z, rest).
Proof.
  intros H. apply value_end_no_digit in H as [H1 H2].
  unfold parse_number. now rewrite scan_integer_encode, H2.
Qed.

(** *** Values *)

Lemma substring_all (s : string) : String.substring 0 (String.length s) s = s.
Proof. induction s as [|c s IH]; cbn; [reflexivity | now rewrite IH]. Qed.

Lemma substring_append_tail (w rest : string) :
  String.substring (String.length w)
    (String.length (w ++ rest) - String.length w) (w ++ rest) = rest.
Proof.
  rewrite length_append.
  replace (String.length w + String.length rest - String.length w)
    with (String.length rest) by lia.
  induction w as [|c w IH]; cbn [String.length append String.substring].
  - apply substring_all.
  - exact IH.
Qed.

Lemma literal_here (word : string) (v : pyvalue) (rest : string) :
  literal word v (word ++ rest) = Some (v, rest).
Proof.
  unfold literal.
  assert (PyStr.startswith word (word ++ rest) = true) as ->.
  { induction word as [|c w IH]; cbn; [reflexivity|].
    now rewrite Ascii.eqb_refl, IH. }
  now rewrite substring_append_tail.
Qed.

Lemma parse_value_number (fuel : nat) (c : ascii) (s : string) :
  number_start c = true ->
  parse_value (S fuel) (String c s) = parse_number (String c s).
Proof.
  destruct c as [[|] [|] [|] [|] [|] [|] [|] [|]]; cbn; intros H;
    try discriminate; reflexivity.
Qed.

Lemma encode_int_head (z : Z) :
  exists c s, encode_int z = String c s
              /\ number_start c = true /\ value_start c = true
              /\ printable c = true.
Proof.
  unfold encode_int. destruct z as [|p|p]; cbn [Z.to_int NilZero.string_of_int].
  - do 2 eexists. cbn. repeat split.
  - rewrite string_of_pos_nilzero.
    destruct (string_of_pos_head p)
      as (c & s & E & Hm & Hz & Hd & Hw & Hb & Hc & Hp).
    exists c, s. unfold number_start, value_start.
    rewrite Hw, Hb, Hc. destruct (digit_of c); [|contradiction].
    rewrite orb_true_r. now repeat split.
  - do 2 eexists. cbn. repeat split.
Qed.

Lemma dumps_head (v : pyvalue) :
  exists c s, dumps v = String c s /\ value_start c = true.
Proof.
  destruct v as [| [|] | z | s | items | items | d];
    try (do 2 eexists; split; [reflexivity | reflexivity]).
  destruct (encode_int_head z) as (c & s & E & _ & H & _).
  exists c, s. now split.
Qed.

Lemma skip_ws_start (c : ascii) (s : string) :
  value_start c = true -> skip_ws (String c s) = String c s.
Proof.
  unfold value_start. intros H.
  apply andb_true_iff in H as [H _]. apply andb_true_iff in H as [H _].
  apply negb_true_iff in H. cbn [skip_ws]. now rewrite H.
Qed.

Lemma join_one (sep x : string) : PyStr.join sep [x] = x.
Proof. reflexivity. Qed.

Lemma join_more (sep x y : string) (l : list string) :
  PyStr.join sep (x :: y :: l) = x ++ sep ++ PyStr.join sep (y :: l).
Proof. reflexivity. Qed.

(** The text of a non-empty list of items starts like a value. *)
Lemma join_dumps_head (v : pyvalue) (items : list pyvalue) :
  exists c s, PyStr.join ", " (map dumps (v :: items)) = String c s
              /\ value_start c = true.
Proof.
  destruct (dumps_head v) as (c & s & E & H).
  destruct items as [|v' items]; cbn [map].
  - rewrite join_one. now exists c, s.
  - rewrite join_more, E. cbn [append]. now do 2 eexists.
Qed.

Lemma parse_items_dumps (items : list pyvalue) :
  Forall roundtrips items -> items <> [] ->
  forall fuel rest,
    String.length (PyStr.join ", " (map dumps items)) < fuel ->
    parse_items fuel (PyStr.join ", " (map dumps items) ++ String "]" rest)
    = Some (items, rest).
Proof.
  induction items as [|v items IH]; intros Hall Hne fuel rest Hlen; [congruence|].
  inversion Hall as [|? ? Hv Hall']; subst.
  destruct fuel as [|f]; [lia|].
  destruct items as [|v' items].
  - cbn [map] in *. rewrite join_one in *. cbn [parse_items].
    rewrite (Hv f (String "]" rest)) by (lia || reflexivity).
    reflexivity.
  - cbn [map] in *. rewrite join_more in *.
    rewrite !length_append in Hlen. cbn [String.length] in Hlen.
    rewrite !append_assoc. cbn [parse_items].
    rewrite (Hv f) by (lia || reflexivity).
    cbn [append skip_ws is_ws Ascii.eqb Bool.eqb orb].
    destruct (join_dumps_head v' items) as (c & s & E & Hc).
    cbn [map] in E. rewrite E. cbn [append]. rewrite skip_ws_start by exact Hc.
    change (String c (s ++ String "]" rest)) with (String c s ++ String "]" rest).
    rewrite <- E. rewrite IH; [reflexivity | exact Hall' | discriminate | lia].
Qed.

(** The text of one member of an object, with what follows it. *)
Lemma member_append (k : string) (x : pyvalue) (tail : string) :
  (encode_string k ++ ": " ++ dumps x) ++ tail
  = String dquote
      (escape k ++ String dquote (String ":" (String " " (dumps x ++ tail)))).
Proof.
  unfold encode_string. cbn [append]. rewrite !append_assoc. reflexivity.
Qed.

Lemma parse_member_step (f : nat) (k : string) (x : pyvalue) (tail : string) :
  roundtrips x -> String.length (dumps x) <= f -> value_end tail = true ->
  parse_members (S f)
    (String dquote
       (escape k ++ String dquote (String ":" (String " " (dumps x ++ tail)))))
  = match skip_ws tail with
    | String c2 r3 =>
        if Ascii.eqb c2 "}" then Some ([(k, x)], r3)
        else if Ascii.eqb c2 "," then
          match parse_members f (skip_ws r3) with
          | Some (kvs, rest) => Some ((k, x) :: kvs, rest)
          | None => None
          end
        else None
    | EmptyString => None
    end.
Proof.
  intros Hx Hlen Hend. cbn [parse_members].
  rewrite Ascii.eqb_refl. cbn [negb]. rewrite scan_escape.
  cbn [skip_ws is_ws Ascii.eqb Bool.eqb orb negb].
  destruct (dumps_head x) as (c & s & E & Hc).
  rewrite E. cbn [append]. rewrite skip_ws_start by exact Hc.
  change (String c (s ++ tail)) with (String c s ++ tail). rewrite <- E.
  now rewrite (Hx f tail Hlen Hend).
Qed.

Lemma length_member (k : string) (x : pyvalue) :
  String.length (encode_string k ++ ": " ++ dumps x)
  = String.length (escape k) + String.length (dumps x) + 4.
Proof.
  unfold encode_string. cbn [append String.length].
  rewrite !length_append. cbn [String.length]. lia.
Qed.

Local Abbreviation member_text :=
  (fun kv : string * pyvalue =>
     match kv with (k, x) => encode_string k ++ ": " ++ dumps x end).

(** The text of a non-empty list of members starts with the quote of the
    first key. *)
Lemma members_head (k : string) (x : pyvalue) (d : list (string * pyvalue))
    (tail : string) :
  exists s, PyStr.join ", " (map member_text ((k, x) :: d)) ++ tail
            = String dquote s.
Proof.
  destruct d as [|[k' x'] d]; cbn [map].
  - rewrite join_one. unfold encode_string. cbn [append]. now eexists.
  - rewrite join_more. unfold encode_string at 1. cbn [append]. now eexists.
Qed.

Lemma parse_members_dumps (d : list (string * pyvalue)) :
  Forall (fun kv => roundtrips (snd kv)) d -> d <> [] ->
  forall fuel rest,
    String.length (PyStr.join ", " (map member_text d)) < fuel ->
    parse_members fuel (PyStr.join ", " (map member_text d) ++ String "}" rest)
    = Some (d, rest).
Proof.
  induction d as [|[k x] d IH]; intros Hall Hne fuel rest Hlen; [congruence|].
  inversion Hall as [|? ? Hx Hall']; subst. cbn [snd] in Hx.
  destruct fuel as [|f]; [lia|].
  destruct d as [|[k' x'] d].
  - cbn [map] in *. rewrite join_one in *. rewrite length_member in Hlen.
    rewrite member_append.
    rewrite parse_member_step by (exact Hx || lia || reflexivity).
    reflexivity.
  - cbn [map] in Hlen |- *. rewrite join_more in Hlen |- *.
    change ((encode_string k' ++ ": " ++ dumps x') :: map member_text d)
      with (map member_text ((k', x') :: d)) in Hlen |- *.
    rewrite length_append, length_member, length_append in Hlen.
    cbn [String.length] in Hlen.
    rewrite append_assoc, member_append.
    rewrite parse_member_step by (exact Hx || lia || reflexivity).
    rewrite append_assoc.
    destruct (members_head k' x' d (String "}" rest)) as [s Es].
    rewrite Es.
    change (skip_ws (", " ++ String dquote s)) with (String "," (String " " (String dquote s))).
    cbn [Ascii.eqb Bool.eqb].
    change (skip_ws (String " " (String dquote s))) with (String dquote s).
    rewrite <- Es.
    rewrite (IH Hall'); [reflexivity | discriminate | lia].
Qed.

Lemma keys_unique_items (items : list pyvalue) :
  keys_unique (PyList items) -> Forall keys_unique items.
Proof.
  cbn. induction items as [|x items IH]; intros H; constructor; [tauto|].
  apply IH. tauto.
Qed.

Lemma keys_unique_members (d : list (string * pyvalue)) :
  keys_unique (PyDict d) ->
  NoDup (map fst d) /\ Forall (fun kv => keys_unique (snd kv)) d.
Proof.
  cbn. intros [Hnd H]. split; [exact Hnd|]. clear Hnd.
  induction d as [|[k x] d IH]; constructor; [cbn; tauto|].
  apply IH. tauto.
Qed.

Lemma append_cons (c : ascii) (a b : string) :
  String c a ++ b = String c (a ++ b).
Proof. reflexivity. Qed.

Lemma dumps_dict (d : list (string * pyvalue)) :
  dumps (PyDict d)
  = String "{" (PyStr.join ", " (map member_text d) ++ "}").
Proof. reflexivity. Qed.

Lemma parse_value_object (f : nat) (t : string) :
  parse_value (S f) (String "{" t)
  = match skip_ws t with
    | String c1 r1 =>
        if Ascii.eqb c1 "}" then Some (PyDict [], r1)
        else match parse_members f (String c1 r1) with
             | Some (pairs, rest) => Some (PyDict (Dict.of_pairs pairs), rest)
             | None => None
             end
    | EmptyString => None
    end.
Proof. reflexivity. Qed.

(** [parse_value] reads back what [dumps] writes for a value without
    tuples. *)
Lemma dumps_roundtrips (v : pyvalue) :
  json_native v = true -> keys_unique v -> roundtrips v.
Proof.
  induction v as [| b | z | s | items IH | items IH | d IH]
    using pyvalue_nested_ind; intros Hnat Huniq fuel rest Hlen Hend.
  - destruct fuel as [|f]; [cbn in Hlen; lia|].
    cbn [dumps]. apply (literal_here "null" PyNone rest).
  - destruct fuel as [|f]; [destruct b; cbn in Hlen; lia|].
    destruct b; cbn [dumps].
    + apply (literal_here "true" (PyBool true) rest).
    + apply (literal_here "false" (PyBool false) rest).
  - cbn [dumps] in *.
    destruct (encode_int_head z) as (c & s & E & Hn & _).
    destruct fuel as [|f]; [rewrite E in Hlen; cbn in Hlen; lia|].
    rewrite E. cbn [append]. rewrite parse_value_number by exact Hn.
    change (String c (s ++ rest)) with (String c s ++ rest). rewrite <- E.
    now apply parse_number_encode.
  - destruct fuel as [|f]; [cbn in Hlen; lia|].
    cbn [dumps]. unfold encode_string. cbn [append]. rewrite append_assoc.
    cbn [append parse_value]. rewrite Ascii.eqb_refl. now rewrite scan_escape.
  - destruct fuel as [|f]; [cbn in Hlen; lia|].
    cbn [dumps] in *. cbn [append] in *. rewrite append_assoc. cbn [append].
    cbn [String.length] in Hlen. rewrite length_append in Hlen.
    cbn [String.length] in Hlen.
    destruct items as [|v items].
    + reflexivity.
    + destruct (join_dumps_head v items) as (c & s & E & Hc).
      cbn [parse_value Ascii.eqb Bool.eqb]. rewrite E. cbn [append].
      rewrite skip_ws_start by exact Hc.
      pose proof Hc as Hc'. unfold value_start in Hc'.
      apply andb_true_iff in Hc' as [Hc' _]. apply andb_true_iff in Hc' as [_ Hb].
      apply negb_true_iff in Hb. rewrite Hb.
      change (String c (s ++ String "]" rest)) with (String c s ++ String "]" rest).
      rewrite <- E. rewrite parse_items_dumps; [reflexivity | | discriminate | lia].
      apply keys_unique_items in Huniq. cbn [json_native] in Hnat.
      rewrite forallb_forall in Hnat. rewrite Forall_forall in *.
      intros y Hy. apply IH; auto.
  - discriminate.
  - rewrite dumps_dict in *. rewrite append_cons in *.
    cbn [String.length] in Hlen. rewrite length_append in Hlen.
    cbn [String.length] in Hlen.
    destruct fuel as [|f]; [lia|].
    rewrite append_assoc. change ("}" ++ rest) with (String "}" rest).
    rewrite parse_value_object.
    apply keys_unique_members in Huniq as [Hnd Huniq].
    destruct d as [|[k x] d].
    + reflexivity.
    + destruct (members_head k x d (String "}" rest)) as [s Es].
      rewrite Es.
      change (skip_ws (String dquote s)) with (String dquote s).
      change (Ascii.eqb dquote "}") with false. cbv iota. rewrite <- Es.
      rewrite parse_members_dumps; [| | discriminate | lia].
      * now rewrite of_pairs_nodup.
      * cbn [json_native] in Hnat. rewrite forallb_forall in Hnat.
        rewrite Forall_forall in *. intros [k1 x1] Hy. cbn [snd].
        apply (IH (k1, x1) Hy); [apply (Hnat (k1, x1) Hy) | apply (Huniq (k1, x1) Hy)].
Qed.

Lemma dumps_skip_ws (v : pyvalue) : skip_ws (dumps v) = dumps v.
Proof.
  destruct (dumps_head v) as (c & s & E & Hc). rewrite E.
  now apply skip_ws_start.
Qed.

(** [json.loads(json.dumps(v)) == v] for a value without tuples. *)
Lemma loads_dumps (v : pyvalue) :
  json_native v = true -> keys_unique v -> loads (dumps v) = Some v.
Proof.
  intros Hnat Huniq. unfold loads. rewrite dumps_skip_ws.
  rewrite <- (append_empty_r (dumps v)) at 2.
  rewrite (dumps_roundtrips v Hnat Huniq) by (lia || reflexivity).
  reflexivity.
Qed.

(** *** Python equality *)

Lemma get_in_nodup {V : Type} (k : string) (x : V) (d : Dict.t V) :
  NoDup (map fst d) -> In (k, x) d -> Dict.get k d = Some x.
Proof.
  induction d as [|[k' x'] d IH]; cbn; intros Hnd Hin; [contradiction|].
  inversion Hnd as [|? ? Hnotin Hnd']; subst.
  destruct Hin as [[= -> ->]|Hin].
  - now rewrite String.eqb_refl.
  - destruct (String.eqb k k') eqn:E; [|now apply IH].
    apply String.eqb_eq in E. subst k'. exfalso. apply Hnotin.
    apply in_map_iff. now exists (k, x).
Qed.

(** A value equals itself. *)
Lemma py_eqb_refl (v : pyvalue) : keys_unique v -> py_eqb v v = true.
Proof.
  induction v as [| b | z | s | items IH | items IH | d IH]
    using pyvalue_nested_ind; intros Huniq; cbn [py_eqb].
  - reflexivity.
  - now destruct b.
  - apply Z.eqb_refl.
  - apply String.eqb_refl.
  - apply keys_unique_items in Huniq.
    induction items as [|x items IHl]; [reflexivity|].
    inversion IH; inversion Huniq; subst. cbn [items_eqb].
    apply andb_true_iff. split; auto.
  - apply keys_unique_items in Huniq.
    induction items as [|x items IHl]; [reflexivity|].
    inversion IH; inversion Huniq; subst. cbn [items_eqb].
    apply andb_true_iff. split; auto.
  - apply keys_unique_members in Huniq as [Hnd Huniq].
    rewrite Nat.eqb_refl. cbn [andb].
    assert (forall xs, incl xs d -> lookup_all py_eqb xs d = true) as Hall.
    { induction xs as [|[k x] xs IHx]; intros Hincl; [reflexivity|].
      cbn [lookup_all].
      assert (In (k, x) d) as Hin by (apply Hincl; now left).
      rewrite (get_in_nodup k x d Hnd Hin).
      rewrite Forall_forall in IH, Huniq.
      pose proof (IH (k, x) Hin (Huniq (k, x) Hin)) as Hx. cbn [snd] in Hx.
      rewrite Hx. cbn [andb].
      apply IHx. intros y Hy. apply Hincl. now right. }
    apply Hall, incl_refl.
Qed.

(** *** The text of [dumps] is printable ASCII *)

Lemma string_of_uint_printable (u : Decimal.uint) :
  all_chars printable (NilEmpty.string_of_uint u) = true.
Proof.
  induction u; cbn [NilEmpty.string_of_uint all_chars]; try reflexivity;
    now rewrite IHu.
Qed.

Lemma encode_int_printable (z : Z) : all_chars printable (encode_int z) = true.
Proof.
  unfold encode_int.
  destruct z as [|p|p]; cbn [Z.to_int NilZero.string_of_int]; [reflexivity| |].
  - rewrite string_of_pos_nilzero. apply string_of_uint_printable.
  - rewrite string_of_pos_nilzero. cbn [all_chars].
    now rewrite string_of_uint_printable.
Qed.

Lemma join_printable (parts : list string) :
  Forall (fun part => all_chars printable part = true) parts ->
  all_chars printable (PyStr.join ", " parts) = true.
Proof.
  induction parts as [|x parts IH]; intros H; [reflexivity|].
  inversion H as [|? ? Hx Hrest]; subst.
  destruct parts as [|y parts].
  - now rewrite join_one.
  - rewrite join_more, !all_chars_append, Hx, (IH Hrest). reflexivity.
Qed.

(** No line break, tab or other control character, and nothing outside
    ASCII, is ever written: the text is one line. *)
Lemma dumps_printable (v : pyvalue) : all_chars printable (dumps v) = true.
Proof.
  induction v as [| b | z | s | items IH | items IH | d IH]
    using pyvalue_nested_ind.
  - reflexivity.
  - now destruct b.
  - apply encode_int_printable.
  - apply encode_string_printable.
  - cbn [dumps]. rewrite !all_chars_append, join_printable; [reflexivity|].
    rewrite Forall_forall in *. intros part Hin.
    apply in_map_iff in Hin as [x [<- Hx]]. now apply IH.
  - cbn [dumps]. rewrite !all_chars_append, join_printable; [reflexivity|].
    rewrite Forall_forall in *. intros part Hin.
    apply in_map_iff in Hin as [x [<- Hx]]. now apply IH.
  - rewrite dumps_dict. cbn [all_chars]. rewrite all_chars_append.
    rewrite join_printable; [reflexivity|].
    rewrite Forall_forall in *. intros part Hin.
    apply in_map_iff in Hin as [[k x] [<- Hx]].
    pose proof (IH (k, x) Hx) as Hp. cbn [snd] in Hp.
    now rewrite !all_chars_append, encode_string_printable, Hp.
Qed.

End JsonFacts.

(** ** [run_playbook] *)

Section Runner.
Variable world : invocation -> run_outcome.
Variable mgr : AnsibleManager.

Lemma join_contains (sep x : string) (l : list string) :
  In x l -> contains (PyStr.join sep l) x.
Proof.
  induction l as [|y l IH]; intros Hin; [contradiction|].
  destruct l as [|z l].
  - destruct Hin as [->|[]]. exists "", "". cbn. now rewrite append_empty_r.
  - rewrite join_more. destruct Hin as [->|Hin].
    + exists "", (sep ++ PyStr.join sep (z :: l)). reflexivity.
    + destruct (IH Hin) as (b & a & E). rewrite E.
      exists (y ++ sep ++ b), a. now rewrite !append_assoc.
Qed.

Lemma contains_append_r (pre s x : string) :
  contains s x -> contains (pre ++ s) x.
Proof.
  intros (b & a & ->). exists (pre ++ b), a. now rewrite append_assoc.
Qed.

Lemma run_playbook_found (name path : string) (extra_vars : option pydict)
    (limit_hosts : option string) (tags : option (list string)) (verbose : bool) :
  Dict.get name (available_playbooks mgr) = Some path ->
  run_playbook mgr name extra_vars limit_hosts tags verbose world
  = (match world (invocation_of mgr
                    (build_command path extra_vars limit_hosts tags verbose)) with
     | CompletedProcess rc out err =>
         if Z.eqb rc 0 then (true, out) else (false, "Error: " ++ err)
     | Raises description => (false, "Exception: " ++ description)
     end,
     [invocation_of mgr (build_command path extra_vars limit_hosts tags verbose)]).
Proof.
  intros H. unfold run_playbook. rewrite H.
  unfold bind, subprocess_run, invocation_of.
  destruct (world _) as [rc out err|d]; [destruct (Z.eqb rc 0)|]; reflexivity.
Qed.

Lemma build_command_segments (path : string) (extra_vars : option pydict)
    (limit_hosts : option string) (tags : option (list string)) (verbose : bool) :
  build_command path extra_vars limit_hosts tags verbose
  = ("ansible-playbook" :: path
       :: segment verbose ["-vvv"]
       ++ segment (given_str limit_hosts) ["-l"; value_or "" limit_hosts]
       ++ segment (given_tags tags) ["-t"; PyStr.join "," (value_or [] tags)]
       ++ segment (given_vars extra_vars)
            ["--extra-vars"; Json.dumps (PyDict (value_or [] extra_vars))])%list.
Proof.
  unfold build_command, segment, given_str, given_tags, given_vars, value_or, truthy.
  destruct verbose;
    destruct limit_hosts as [l|]; [destruct (String.eqb l "")| | destruct (String.eqb l "")|];
    destruct tags as [[|t ts]|]; destruct extra_vars as [[|kv d]|]; reflexivity.
Qed.

End Runner.

(** C2: for every playbook name the registry does not have, [run_playbook]
    returns [succeeded = false] with a message that names the missing
    playbook and lists every name the registry has, in the order of the
    registry and separated by [", "]; no subprocess is spawned. *)
Theorem run_playbook_unknown (world : invocation -> run_outcome)
    (mgr : AnsibleManager) (name : string) (extra_vars : option pydict)
    (limit_hosts : option string) (tags : option (list string)) (verbose : bool) :
  Dict.mem name (available_playbooks mgr) = false ->
  let run := run_playbook mgr name extra_vars limit_hosts tags verbose in
  result_of run world
  = (false, "Playbook '" ++ name ++ "' not found. Available playbooks: "
            ++ PyStr.join ", " (map fst (available_playbooks mgr)))
  /\ spawned run world = []
  /\ contains (snd (result_of run world)) name
  /\ (forall known path,
        Dict.get known (available_playbooks mgr) = Some path ->
        contains (snd (result_of run world)) known)
  /\ (forall known path,
        In (known, path) (available_playbooks mgr) ->
        contains (snd (result_of run world)) known).
Proof.
  intros Hmem run. subst run. unfold result_of, spawned, run_playbook.
  unfold Dict.mem in Hmem.
  destruct (Dict.get name (available_playbooks mgr)); [discriminate|].
  cbn [ret fst snd].
  assert (forall known path, In (known, path) (available_playbooks mgr) ->
            contains ("Playbook '" ++ name ++ "' not found. Available playbooks: "
                      ++ PyStr.join ", " (map fst (available_playbooks mgr))) known)
    as Hall.
  { intros known path Hin.
    apply (contains_append_r "Playbook '").
    apply contains_append_r.
    apply (contains_append_r "' not found. Available playbooks: ").
    apply join_contains.
    change known with (fst (known, path)). now apply in_map. }
  split; [reflexivity|]. split; [reflexivity|]. split; [|split].
  - exists "Playbook '", ("' not found. Available playbooks: "
                          ++ PyStr.join ", " (map fst (available_playbooks mgr))).
    reflexivity.
  - intros known path Hget. apply (Hall known path).
    revert Hget. generalize (available_playbooks mgr) as d.
    induction d as [|[k v] d IH]; cbn [Dict.get]; [discriminate|].
    destruct (String.eqb known k) eqn:E.
    + apply String.eqb_eq in E. subst k. intros [= ->]. now left.
    + intros H. right. now apply IH.
  - exact Hall.
Qed.

Lemma run_playbook_unknown_witness :
  (let mgr := mkAnsibleManager "/a" "/a/inventory" "/a/playbooks"
                [("site", "/a/playbooks/site.yml");
                 ("net", "/a/playbooks/net.yaml")] in
   let run := run_playbook mgr "missing_playbook" None None None false in
   result_of run (fun _ => Raises "never called")
   = (false, "Playbook 'missing_playbook' not found. Available playbooks: site, net")
   /\ spawned run (fun _ => Raises "never called") = []
   /\ contains (snd (result_of run (fun _ => Raises "never called"))) "net")
  /\
  (let mgr := mkAnsibleManager "/a" "/a/inventory" "/a/playbooks" Dict.empty in
   let run := run_playbook mgr "missing_playbook" None None None false in
   result_of run (fun _ => Raises "never called")
   = (false, "Playbook 'missing_playbook' not found. Available playbooks: ")
   /\ spawned run (fun _ => Raises "never called") = []).
Proof.
  split.
  - pose proof (run_playbook_unknown (fun _ => Raises "never called")
                  (mkAnsibleManager "/a" "/a/inventory" "/a/playbooks"
                     [("site", "/a/playbooks/site.yml");
                      ("net", "/a/playbooks/net.yaml")])
                  "missing_playbook" None None None false eq_refl) as H.
    split; [exact (proj1 H)|]. split; [exact (proj1 (proj2 H))|].
    exact (proj1 (proj2 (proj2 (proj2 H))) "net" "/a/playbooks/net.yaml" eq_refl).
  - pose proof (run_playbook_unknown (fun _ => Raises "never called")
                  (mkAnsibleManager "/a" "/a/inventory" "/a/playbooks" Dict.empty)
                  "missing_playbook" None None None false eq_refl) as H.
    split; [exact (proj1 H) | exact (proj1 (proj2 H))].
Defined.

(** C3: for a known playbook and every outcome of the subprocess,
    [run_playbook] returns [(true, stdout)] exactly when the exit code is
    zero, [(false, "Error: " + stderr)] for every other exit code, and
    [(false, "Exception: " + description)] when the subprocess cannot be
    started; exit code 2 with stderr "host unreachable" gives
    [(false, "Error: host unreachable")]. *)
Theorem run_playbook_outcome (world : invocation -> run_outcome)
    (mgr : AnsibleManager) (name path : string) (extra_vars : option pydict)
    (limit_hosts : option string) (tags : option (list string)) (verbose : bool) :
  Dict.get name (available_playbooks mgr) = Some path ->
  let inv := invocation_of mgr
               (build_command path extra_vars limit_hosts tags verbose) in
  let r := result_of (run_playbook mgr name extra_vars limit_hosts tags verbose)
             world in
  (forall rc out err, world inv = CompletedProcess rc out err ->
     (rc = 0%Z -> r = (true, out))
     /\ (rc <> 0%Z -> r = (false, "Error: " ++ err)))
  /\ (forall description, world inv = Raises description ->
        r = (false, "Exception: " ++ description))
  /\ (fst r = true <-> exists out err, world inv = CompletedProcess 0 out err)
  /\ (forall out, world inv = CompletedProcess 2 out "host unreachable" ->
        r = (false, "Error: host unreachable")).
Proof.
  intros Hget inv r. subst r. unfold result_of.
  rewrite (run_playbook_found world mgr name path _ _ _ _ Hget).
  fold inv. cbn [fst]. repeat split.
  - intros ->. now rewrite H.
  - intros Hrc. rewrite H. apply Z.eqb_neq in Hrc. now rewrite Hrc.
  - intros d H. now rewrite H.
  - destruct (world inv) as [rc out err|d]; cbn [fst]; [|discriminate].
    destruct (Z.eqb rc 0) eqn:E; cbn [fst]; [|discriminate].
    apply Z.eqb_eq in E. subst rc. intros _. now exists out, err.
  - intros (out & err & H). now rewrite H.
  - intros out H. now rewrite H.
Qed.

Lemma run_playbook_outcome_witness :
  result_of
    (run_playbook
       (mkAnsibleManager "/a" "/a/inventory" "/a/playbooks"
          [("site", "/a/playbooks/site.yml")])
       "site" None None None false)
    (fun _ => CompletedProcess 2 "" "host unreachable")
  = (false, "Error: host unreachable").
Proof.
  exact (proj2 (proj2 (proj2
    (run_playbook_outcome (fun _ => CompletedProcess 2 "" "host unreachable")
       (mkAnsibleManager "/a" "/a/inventory" "/a/playbooks"
          [("site", "/a/playbooks/site.yml")])
       "site" "/a/playbooks/site.yml" None None None false eq_refl))) "" eq_refl).
Defined.

Lemma append_inv_head (a x y : string) : a ++ x = a ++ y -> x = y.
Proof.
  induction a as [|c a IH]; cbn [append]; [trivial|].
  intros H. injection H as H. now apply IH.
Qed.

Lemma dumps_compact_head (v : pyvalue) :
  exists c s, Json.dumps_compact v = String c s /\ Json.value_start c = true.
Proof.
  destruct v as [| [|] | z | s | items | items | d];
    try (do 2 eexists; split; [reflexivity | reflexivity]).
  destruct (encode_int_head z) as (c & s & E & _ & H & _).
  exists c, s. now split.
Qed.

Lemma dumps_members (d : list (string * pyvalue)) :
  Json.dumps (PyDict d)
  = "{" ++ PyStr.join ", "
             (map (fun kv => Json.encode_string (fst kv) ++ ": " ++ Json.dumps (snd kv))
                d) ++ "}".
Proof.
  cbn [Json.dumps]. do 3 f_equal. apply map_ext. now intros [k x].
Qed.

(** The text [json.dumps] writes for a non-empty mapping is never the
    most compact one: a space follows the colon of the first key. *)
Lemma dumps_not_compact (kv : string * pyvalue) (d : list (string * pyvalue)) :
  Json.dumps (PyDict (kv :: d)) <> Json.dumps_compact (PyDict (kv :: d)).
Proof.
  destruct kv as [k x]. cbn [Json.dumps Json.dumps_compact map].
  assert (exists t, PyStr.join ", "
                      ((Json.encode_string k ++ ": " ++ Json.dumps x)
                         :: map (fun kv : string * pyvalue =>
                                   let (k0, x0) := kv in
                                   Json.encode_string k0 ++ ": " ++ Json.dumps x0) d)
                    ++ "}"
                    = Json.encode_string k ++ String ":" (String " " t)) as (t & ->).
  { destruct d as [|kv d]; cbn [map].
    - rewrite join_one, !append_assoc. now eexists.
    - rewrite join_more, !append_assoc. now eexists. }
  destruct (dumps_compact_head x) as (c & r & E & Hc).
  assert (exists t', PyStr.join ","
                       ((Json.encode_string k ++ ":" ++ Json.dumps_compact x)
                          :: map (fun kv : string * pyvalue =>
                                    let (k0, x0) := kv in
                                    Json.encode_string k0 ++ ":"
                                    ++ Json.dumps_compact x0) d)
                     ++ "}"
                     = Json.encode_string k ++ String ":" (String c t')) as (t' & ->).
  { rewrite E. destruct d as [|kv d]; cbn [map].
    - rewrite join_one, !append_assoc. now eexists.
    - rewrite join_more, !append_assoc. now eexists. }
  intros H. injection H as H. apply append_inv_head in H.
  injection H as H _. subst c. discriminate.
Qed.

(** C6 (amended): for every valid run (a known playbook, and a mapping
    [json.dumps] can write), [run_playbook] returns, exactly one subprocess
    is spawned, and its arguments after the executable are, in this order:
    the resolved playbook path; [-vvv] if and only if [verbose]; [-l] and
    the host limit if and only if a (non-empty) host limit is given; [-t]
    and the tags joined by commas if and only if a (non-empty) list of tags
    is given; [--extra-vars] and the mapping serialised by [json.dumps] if
    and only if the mapping is non-empty.  The serialised mapping is one
    argument, one line of printable ASCII, written with the default
    separators of [json.dumps]: the members [key: value] between braces,
    [", "] between two members and [": "] after a key.  It is never the
    most compact text, which has [","] and [":"]. *)
Theorem run_playbook_argv (world : invocation -> run_outcome)
    (mgr : AnsibleManager) (name path : string) (extra_vars : option pydict)
    (limit_hosts : option string) (tags : option (list string)) (verbose : bool) :
  Dict.get name (available_playbooks mgr) = Some path ->
  Json.serializable (py_of_vars extra_vars) = true ->
  let json := Json.dumps (PyDict (value_or [] extra_vars)) in
  run_playbook_checked mgr name extra_vars limit_hosts tags verbose
  = Some (run_playbook mgr name extra_vars limit_hosts tags verbose)
  /\ spawned (run_playbook mgr name extra_vars limit_hosts tags verbose) world
  = [mkInvocation
       ("ansible-playbook" :: path
          :: segment verbose ["-vvv"]
          ++ segment (given_str limit_hosts) ["-l"; value_or "" limit_hosts]
          ++ segment (given_tags tags) ["-t"; PyStr.join "," (value_or [] tags)]
          ++ segment (given_vars extra_vars) ["--extra-vars"; json])%list
       (os_path_join (ansible_path mgr) "ansible.cfg")
       (ansible_path mgr)]
  /\ Json.all_chars Json.printable json = true
  /\ json
     = "{" ++ PyStr.join ", "
                (map (fun kv => Json.encode_string (fst kv) ++ ": "
                                ++ Json.dumps (snd kv))
                   (value_or [] extra_vars)) ++ "}"
  /\ (given_vars extra_vars = true ->
      json <> Json.dumps_compact (PyDict (value_or [] extra_vars))).
Proof.
  intros Hget Hser json. subst json.
  split; [|split; [|split; [apply dumps_printable|split; [apply dumps_members|]]]].
  - unfold run_playbook_checked. rewrite Hget, Hser.
    now rewrite andb_false_r.
  - unfold spawned. rewrite (run_playbook_found world mgr name path _ _ _ _ Hget).
    cbn [snd]. unfold invocation_of. now rewrite build_command_segments.
  - destruct extra_vars as [[|kv d]|]; cbn [given_vars value_or]; try discriminate.
    intros _. apply dumps_not_compact.
Qed.

Lemma run_playbook_argv_witness :
  let q := Json.quote in
  spawned
    (run_playbook
       (mkAnsibleManager "/a" "/a/inventory" "/a/playbooks"
          [("site", "/a/playbooks/site.yml")])
       "site" (Some [("a", PyInt 1); ("b", PyStr "x")]) (Some "pve1")
       (Some ["setup"; "net"]) true)
    (fun _ => CompletedProcess 0 "ok" "")
  = [mkInvocation
       ["ansible-playbook"; "/a/playbooks/site.yml"; "-vvv"; "-l"; "pve1";
        "-t"; "setup,net"; "--extra-vars";
        "{" ++ q ++ "a" ++ q ++ ": 1, " ++ q ++ "b" ++ q ++ ": " ++ q ++ "x" ++ q ++ "}"]
       "/a/ansible.cfg" "/a"].
Proof.
  exact (proj1 (proj2
    (run_playbook_argv (fun _ => CompletedProcess 0 "ok" "")
       (mkAnsibleManager "/a" "/a/inventory" "/a/playbooks"
          [("site", "/a/playbooks/site.yml")])
       "site" "/a/playbooks/site.yml" (Some [("a", PyInt 1); ("b", PyStr "x")])
       (Some "pve1") (Some ["setup"; "net"]) true eq_refl eq_refl))).
Defined.

(** C6 as stated fails on "compact": for the mapping of the
    specification's own example, the argument that follows [--extra-vars]
    has a space after each colon and after the comma, three characters
    more than the compact text of the same mapping. *)
Lemma extra_vars_text_is_not_compact :
  let extra_vars := [("a", PyInt 1); ("b", PyStr "x")] in
  let q := Json.quote in
  exists json_text,
    build_command "/a/playbooks/site.yml" (Some extra_vars) None None false
    = ["ansible-playbook"; "/a/playbooks/site.yml"; "--extra-vars"; json_text]
    /\ json_text
       = "{" ++ q ++ "a" ++ q ++ ": 1, " ++ q ++ "b" ++ q ++ ": " ++ q ++ "x" ++ q ++ "}"
    /\ Json.dumps_compact (PyDict extra_vars)
       = "{" ++ q ++ "a" ++ q ++ ":1," ++ q ++ "b" ++ q ++ ":" ++ q ++ "x" ++ q ++ "}"
    /\ json_text <> Json.dumps_compact (PyDict extra_vars)
    /\ String.length json_text = 18
    /\ String.length (Json.dumps_compact (PyDict extra_vars)) = 15.
Proof.
  cbv zeta. eexists. split; [reflexivity|].
  split; [reflexivity|]. split; [reflexivity|].
  split; [discriminate|]. split; reflexivity.
Qed.

(** C7 as stated fails: a mapping that holds a tuple is serialised by
    [json.dumps], and comes back from [json.loads] with a list in its
    place, which is not equal to the tuple. *)
Lemma tuple_does_not_roundtrip :
  let extra_vars := [("ports", PyTuple [PyInt 80; PyInt 443])] in
  exists json_text decoded,
    build_command "/a/playbooks/site.yml" (Some extra_vars) None None false
    = ["ansible-playbook"; "/a/playbooks/site.yml"; "--extra-vars"; json_text]
    /\ Json.loads json_text = Some decoded
    /\ decoded = PyDict [("ports", PyList [PyInt 80; PyInt 443])]
    /\ py_eqb decoded (PyDict extra_vars) = false.
Proof.
  cbv zeta. do 2 eexists. split; [reflexivity|].
  split; [vm_compute; reflexivity|]. split; reflexivity.
Qed.

(** ** Calls and their keyword arguments *)

Section Calls.
Variable c : call.
Hypothesis Hbinds : multiple_values c = false.

Lemma call_keywords_nodup : NoDup (Dict.keys (call_keywords c)).
Proof.
  unfold multiple_values in Hbinds.
  apply orb_false_iff in Hbinds as [H _]. apply orb_false_iff in H as [H _].
  now apply has_duplicates_false.
Qed.

Lemma call_no_operation_keyword : Dict.get "operation" (call_keywords c) = None.
Proof.
  unfold multiple_values in Hbinds.
  apply orb_false_iff in Hbinds as [_ H]. unfold Dict.mem in H.
  now destruct (Dict.get "operation" (call_keywords c)).
Qed.

(** [**kwargs] never holds a keyword named like a parameter. *)
Lemma kwargs_get (params : list string) (k : string) :
  Dict.get k (kwargs_of params c)
  = if in_list k params then None else Dict.get k (call_keywords c).
Proof. unfold kwargs_of, in_list. apply get_without. Qed.

Lemma kwargs_nodup (params : list string) :
  NoDup (Dict.keys (kwargs_of params c)).
Proof. apply keys_without_nodup, call_keywords_nodup. Qed.

(** Whatever reaches [**kwargs] is in the mapping that [update] returns. *)
Lemma kwargs_merged (params : list string) (base : pydict) (k : string)
    (v : pyvalue) :
  Dict.get k (kwargs_of params c) = Some v ->
  Dict.get k (Dict.update base (kwargs_of params c)) = Some v.
Proof. apply get_update_in, kwargs_nodup. Qed.

End Calls.

Ltac not_in_kwargs :=
  rewrite kwargs_get; cbn;
  first [reflexivity | assumption | now apply call_no_operation_keyword].

Section Mappers.
Variables (state operation : string).
Variables (id name node a1 a2 a3 a4 : pyvalue).
Variable kwargs : pydict.

Lemma vm_vars_state :
  Dict.get "vm_state" kwargs = None ->
  Dict.get "vm_state" (vm_extra_vars state id name node kwargs) = Some (PyStr state).
Proof.
  intros H. unfold vm_extra_vars. rewrite get_update_other by exact H.
  now destruct (truthy node).
Qed.

Lemma vm_vars_id :
  Dict.get "vm_id" kwargs = None ->
  Dict.get "vm_id" (vm_extra_vars state id name node kwargs) = Some id.
Proof.
  intros H. unfold vm_extra_vars. rewrite get_update_other by exact H.
  now destruct (truthy node).
Qed.

Lemma vm_vars_name :
  Dict.get "vm_name" kwargs = None ->
  Dict.get "vm_name" (vm_extra_vars state id name node kwargs) = Some name.
Proof.
  intros H. unfold vm_extra_vars. rewrite get_update_other by exact H.
  now destruct (truthy node).
Qed.

Lemma vm_vars_node :
  Dict.get "vm_node" kwargs = None ->
  Dict.get "vm_node" (vm_extra_vars state id name node kwargs)
  = if truthy node then Some node else None.
Proof.
  intros H. unfold vm_extra_vars. rewrite get_update_other by exact H.
  now destruct (truthy node).
Qed.

Lemma ct_vars_state :
  Dict.get "ct_state" kwargs = None ->
  Dict.get "ct_state" (ct_extra_vars state id name node kwargs) = Some (PyStr state).
Proof.
  intros H. unfold ct_extra_vars. rewrite get_update_other by exact H.
  now destruct (truthy node).
Qed.

Lemma ct_vars_id :
  Dict.get "ct_id" kwargs = None ->
  Dict.get "ct_id" (ct_extra_vars state id name node kwargs) = Some id.
Proof.
  intros H. unfold ct_extra_vars. rewrite get_update_other by exact H.
  now destruct (truthy node).
Qed.

Lemma ct_vars_hostname :
  Dict.get "ct_hostname" kwargs = None ->
  Dict.get "ct_hostname" (ct_extra_vars state id name node kwargs) = Some name.
Proof.
  intros H. unfold ct_extra_vars. rewrite get_update_other by exact H.
  now destruct (truthy node).
Qed.

Lemma ct_vars_node :
  Dict.get "ct_node" kwargs = None ->
  Dict.get "ct_node" (ct_extra_vars state id name node kwargs)
  = if truthy node then Some node else None.
Proof.
  intros H. unfold ct_extra_vars. rewrite get_update_other by exact H.
  now destruct (truthy node).
Qed.

Lemma cluster_vars_base :
  Dict.get "operation" kwargs = None -> Dict.get "target_node" kwargs = None ->
  Dict.get "source_node" kwargs = None -> Dict.get "cluster_name" kwargs = None ->
  let ev := cluster_extra_vars operation a1 a2 a3 kwargs in
  Dict.get "operation" ev = Some (PyStr operation)
  /\ Dict.get "target_node" ev = set_when_truthy a1
  /\ Dict.get "source_node" ev = set_when_truthy a2
  /\ Dict.get "cluster_name" ev = set_when_truthy a3.
Proof.
  intros H0 H1 H2 H3. unfold cluster_extra_vars, set_when_truthy.
  rewrite !get_update_other by assumption.
  destruct (truthy a1), (truthy a2), (truthy a3); repeat split; reflexivity.
Qed.

Lemma backup_vars_base :
  Dict.get "operation" kwargs = None -> Dict.get "vm_id" kwargs = None ->
  Dict.get "backup_id" kwargs = None -> Dict.get "storage" kwargs = None ->
  Dict.get "node" kwargs = None ->
  let ev := backup_extra_vars operation a1 a2 a3 a4 kwargs in
  Dict.get "operation" ev = Some (PyStr operation)
  /\ Dict.get "vm_id" ev = set_when_truthy a1
  /\ Dict.get "backup_id" ev = set_when_truthy a2
  /\ Dict.get "storage" ev = set_when_truthy a3
  /\ Dict.get "node" ev = set_when_truthy a4.
Proof.
  intros H0 H1 H2 H3 H4. unfold backup_extra_vars, set_when_truthy.
  rewrite !get_update_other by assumption.
  destruct (truthy a1), (truthy a2), (truthy a3), (truthy a4);
    repeat split; reflexivity.
Qed.

End Mappers.

Lemma op_map_table (operation state : string) :
  In (operation, state)
     [("create", "present"); ("start", "started"); ("stop", "stopped");
      ("restart", "restarted"); ("delete", "absent")] ->
  Dict.get operation op_map = Some state.
Proof.
  intros [H|[H|[H|[H|[H|[]]]]]]; injection H as <- <-; reflexivity.
Qed.

(** ** The variable mappings of the lifecycle mappers *)

(** C5 (amended): for each lifecycle operation keyword in
    {create, start, stop, restart, delete} and every call that binds, the VM
    and the container mapper build a variable mapping and run their
    playbook with it.  The mapping holds the identifier and the display
    name or host name under [vm_id] / [vm_name] ([ct_id] / [ct_hostname]);
    every additional attribute is in it verbatim under its own name; its
    state field is the mapped keyword in
    {present, started, stopped, restarted, absent} unless an additional
    attribute is itself named [vm_state] ([ct_state]); and, unless an
    additional attribute is itself named [vm_node] ([ct_node]), it has the
    node key exactly when the node is truthy.  VM create with
    [vm_id="100"], [vm_name="test"], [memory=2048] and no node gives exactly
    [{vm_state: "present", vm_id: "100", vm_name: "test", memory: 2048}]. *)
Theorem lifecycle_vars_mapping (mgr : AnsibleManager) (c : call) (state : string) :
  In (call_operation c, state)
     [("create", "present"); ("start", "started"); ("stop", "stopped");
      ("restart", "restarted"); ("delete", "absent")] ->
  multiple_values c = false ->
  (exists ev,
      vm_call_vars c = Some ev
      /\ call_run_vm_management mgr c
         = Some (run_playbook mgr "proxmox_vm_manager" (Some ev) None None false)
      /\ (Dict.get "vm_state" (call_keywords c) = None ->
          Dict.get "vm_state" ev = Some (PyStr state))
      /\ Dict.get "vm_id" ev = Some (arg "vm_id" c)
      /\ Dict.get "vm_name" ev = Some (arg "vm_name" c)
      /\ (Dict.get "vm_node" (call_keywords c) = None ->
          Dict.get "vm_node" ev = set_when_truthy (arg "node" c))
      /\ (forall k v, Dict.get k (kwargs_of vm_params c) = Some v ->
                      Dict.get k ev = Some v))
  /\ (exists ev,
      ct_call_vars c = Some ev
      /\ call_run_container_management mgr c
         = Some (run_playbook mgr "proxmox_container_manager" (Some ev)
                   None None false)
      /\ (Dict.get "ct_state" (call_keywords c) = None ->
          Dict.get "ct_state" ev = Some (PyStr state))
      /\ Dict.get "ct_id" ev = Some (arg "ct_id" c)
      /\ Dict.get "ct_hostname" ev = Some (arg "ct_hostname" c)
      /\ (Dict.get "ct_node" (call_keywords c) = None ->
          Dict.get "ct_node" ev = set_when_truthy (arg "node" c))
      /\ (forall k v, Dict.get k (kwargs_of ct_params c) = Some v ->
                      Dict.get k ev = Some v))
  /\ vm_call_vars
       (mkCall "create"
          [("vm_id", PyStr "100"); ("vm_name", PyStr "test"); ("memory", PyInt 2048)])
     = Some [("vm_state", PyStr "present"); ("vm_id", PyStr "100");
             ("vm_name", PyStr "test"); ("memory", PyInt 2048)].
Proof.
  intros Hop Hbinds. apply op_map_table in Hop.
  split; [|split; [|reflexivity]].
  - exists (vm_extra_vars state (arg "vm_id" c) (arg "vm_name" c) (arg "node" c)
              (kwargs_of vm_params c)).
    unfold vm_call_vars, call_run_vm_management, run_vm_management.
    rewrite Hbinds, Hop. repeat split.
    + intros H. apply vm_vars_state. now not_in_kwargs.
    + apply vm_vars_id. now not_in_kwargs.
    + apply vm_vars_name. now not_in_kwargs.
    + intros H. apply vm_vars_node. now not_in_kwargs.
    + intros k v H. unfold vm_extra_vars. now apply kwargs_merged.
  - exists (ct_extra_vars state (arg "ct_id" c) (arg "ct_hostname" c) (arg "node" c)
              (kwargs_of ct_params c)).
    unfold ct_call_vars, call_run_container_management, run_container_management.
    rewrite Hbinds, Hop. repeat split.
    + intros H. apply ct_vars_state. now not_in_kwargs.
    + apply ct_vars_id. now not_in_kwargs.
    + apply ct_vars_hostname. now not_in_kwargs.
    + intros H. apply ct_vars_node. now not_in_kwargs.
    + intros k v H. unfold ct_extra_vars. now apply kwargs_merged.
Qed.

Lemma lifecycle_vars_mapping_witness :
  exists ev,
    vm_call_vars
      (mkCall "stop" [("vm_id", PyInt 101); ("node", PyStr "pve1"); ("cores", PyInt 2)])
    = Some ev
    /\ Dict.get "vm_state" ev = Some (PyStr "stopped")
    /\ Dict.get "vm_node" ev = Some (PyStr "pve1")
    /\ Dict.get "cores" ev = Some (PyInt 2).
Proof.
  destruct (lifecycle_vars_mapping
              (mkAnsibleManager "/a" "/a/inventory" "/a/playbooks" Dict.empty)
              (mkCall "stop"
                 [("vm_id", PyInt 101); ("node", PyStr "pve1"); ("cores", PyInt 2)])
              "stopped" ltac:(cbn; tauto) eq_refl)
    as [(ev & Hev & _ & Hstate & _ & _ & Hnode & Hkw) _].
  exists ev. split; [exact Hev|]. split; [exact (Hstate eq_refl)|].
  split; [exact (Hnode eq_refl) | exact (Hkw "cores" (PyInt 2) eq_refl)].
Defined.

(** C5 as stated fails: an additional attribute named [vm_state] takes the
    place of the state mapped from the operation keyword. *)
Lemma vm_state_attribute_replaces_state :
  exists ev,
    vm_call_vars
      (mkCall "create"
         [("vm_id", PyStr "100"); ("vm_name", PyStr "test");
          ("vm_state", PyStr "absent")])
    = Some ev
    /\ Dict.get "vm_state" ev = Some (PyStr "absent")
    /\ Dict.get "vm_state" ev <> Some (PyStr "present").
Proof. eexists. split; [reflexivity|]. split; [reflexivity | discriminate]. Qed.

(** ** Which base fields an additional keyword can replace *)

(** C9 (amended): the additional keyword attributes are merged after the
    base fields are set, so an attribute named [vm_state] or [vm_node]
    ([ct_state] or [ct_node]) replaces the derived field: [operation='create']
    with [vm_state='absent'] gives a mapping whose [vm_state] is ['absent'].
    The fields named like a parameter of the function cannot be replaced
    this way, because such a keyword is bound to the parameter and never
    reaches [**kwargs]: [vm_id] and [vm_name] ([ct_id], [ct_hostname]) are
    always the arguments, and so is every base key of the cluster mapping
    ([operation], [target_node], [source_node], [cluster_name]) and of the
    backup mapping ([operation], [vm_id], [backup_id], [storage], [node]). *)
Theorem kwargs_replace_only_state_and_node (c : call) :
  multiple_values c = false ->
  (forall ev, vm_call_vars c = Some ev ->
     (forall v, Dict.get "vm_state" (call_keywords c) = Some v ->
                Dict.get "vm_state" ev = Some v)
     /\ (forall v, Dict.get "vm_node" (call_keywords c) = Some v ->
                   Dict.get "vm_node" ev = Some v)
     /\ Dict.get "vm_id" ev = Some (arg "vm_id" c)
     /\ Dict.get "vm_name" ev = Some (arg "vm_name" c))
  /\ (forall ev, ct_call_vars c = Some ev ->
     (forall v, Dict.get "ct_state" (call_keywords c) = Some v ->
                Dict.get "ct_state" ev = Some v)
     /\ (forall v, Dict.get "ct_node" (call_keywords c) = Some v ->
                   Dict.get "ct_node" ev = Some v)
     /\ Dict.get "ct_id" ev = Some (arg "ct_id" c)
     /\ Dict.get "ct_hostname" ev = Some (arg "ct_hostname" c))
  /\ (forall ev, cluster_call_vars c = Some ev ->
     Dict.get "operation" ev = Some (PyStr (call_operation c))
     /\ Dict.get "target_node" ev = set_when_truthy (arg "target_node" c)
     /\ Dict.get "source_node" ev = set_when_truthy (arg "source_node" c)
     /\ Dict.get "cluster_name" ev = set_when_truthy (arg "cluster_name" c))
  /\ (forall ev, backup_call_vars c = Some ev ->
     Dict.get "operation" ev = Some (PyStr (call_operation c))
     /\ Dict.get "vm_id" ev = set_when_truthy (arg "vm_id" c)
     /\ Dict.get "backup_id" ev = set_when_truthy (arg "backup_id" c)
     /\ Dict.get "storage" ev = set_when_truthy (arg "storage" c)
     /\ Dict.get "node" ev = set_when_truthy (arg "node" c))
  /\ vm_call_vars (mkCall "create" [("vm_state", PyStr "absent")])
     = Some [("vm_state", PyStr "absent"); ("vm_id", PyNone); ("vm_name", PyNone)].
Proof.
  intros Hbinds.
  split; [|split; [|split; [|split; [|reflexivity]]]].
  - intros ev. unfold vm_call_vars. rewrite Hbinds.
    destruct (Dict.get (call_operation c) op_map) as [state|]; [|discriminate].
    intros [= <-]. repeat split.
    + intros v H. unfold vm_extra_vars. apply kwargs_merged; [exact Hbinds|].
      now rewrite kwargs_get.
    + intros v H. unfold vm_extra_vars. apply kwargs_merged; [exact Hbinds|].
      now rewrite kwargs_get.
    + apply vm_vars_id. now not_in_kwargs.
    + apply vm_vars_name. now not_in_kwargs.
  - intros ev. unfold ct_call_vars. rewrite Hbinds.
    destruct (Dict.get (call_operation c) op_map) as [state|]; [|discriminate].
    intros [= <-]. repeat split.
    + intros v H. unfold ct_extra_vars. apply kwargs_merged; [exact Hbinds|].
      now rewrite kwargs_get.
    + intros v H. unfold ct_extra_vars. apply kwargs_merged; [exact Hbinds|].
      now rewrite kwargs_get.
    + apply ct_vars_id. now not_in_kwargs.
    + apply ct_vars_hostname. now not_in_kwargs.
  - intros ev. unfold cluster_call_vars. rewrite Hbinds. intros [= <-].
    apply cluster_vars_base; now not_in_kwargs.
  - intros ev. unfold backup_call_vars. rewrite Hbinds.
    destruct (negb (in_list (call_operation c) valid_operations)); [discriminate|].
    intros [= <-]. apply backup_vars_base; now not_in_kwargs.
Qed.

Lemma kwargs_replace_only_state_and_node_witness :
  exists ev,
    vm_call_vars
      (mkCall "create"
         [("vm_id", PyStr "100"); ("vm_state", PyStr "absent");
          ("vm_node", PyStr "pve2")]) = Some ev
    /\ Dict.get "vm_state" ev = Some (PyStr "absent")
    /\ Dict.get "vm_node" ev = Some (PyStr "pve2")
    /\ Dict.get "vm_id" ev = Some (PyStr "100").
Proof.
  eexists. split; [reflexivity|].
  destruct (proj1 (kwargs_replace_only_state_and_node
                     (mkCall "create"
                        [("vm_id", PyStr "100"); ("vm_state", PyStr "absent");
                         ("vm_node", PyStr "pve2")]) eq_refl) _ eq_refl)
    as (Hstate & Hnode & Hid & _).
  split; [exact (Hstate _ eq_refl)|]. split; [exact (Hnode _ eq_refl) | exact Hid].
Defined.

(** C9 as stated fails: no call makes the mapping of the VM mapper hold a
    [vm_id] other than the [vm_id] argument, and a call that gives
    [vm_id] twice does not run at all. *)
Lemma vm_id_is_never_replaced :
  ~ (exists c ev, vm_call_vars c = Some ev
                  /\ Dict.get "vm_id" ev <> Some (arg "vm_id" c))
  /\ vm_call_vars
       (mkCall "create" [("vm_id", PyStr "100"); ("vm_id", PyStr "999")]) = None
  /\ vm_call_vars (mkCall "create" [("vm_id", PyStr "999")])
     = Some [("vm_state", PyStr "present"); ("vm_id", PyStr "999");
             ("vm_name", PyNone)].
Proof.
  split; [|split; reflexivity].
  intros (c & ev & Hev & Hne). apply Hne. revert Hev.
  unfold vm_call_vars. destruct (multiple_values c) eqn:Hbinds; [discriminate|].
  destruct (Dict.get (call_operation c) op_map) as [state|]; [|discriminate].
  intros [= <-]. apply vm_vars_id. now not_in_kwargs.
Qed.

(** ** Keys the backup mapper leaves out *)

(** C10: [run_backup_management] puts [vm_id], [backup_id], [storage] and
    [node] in the variable mapping only when the value is truthy; for a
    falsy value, such as the integer 0 or the empty string, the key is not
    in the mapping at all.  [run_vm_management] always puts [vm_id] and
    [vm_name] in the mapping, with the value [None] when they are not
    given. *)
Theorem backup_keys_only_when_truthy (c vm : call) :
  multiple_values c = false ->
  in_list (call_operation c) valid_operations = true ->
  multiple_values vm = false ->
  Dict.mem (call_operation vm) op_map = true ->
  (exists ev,
      backup_call_vars c = Some ev
      /\ (forall p, In p ["vm_id"; "backup_id"; "storage"; "node"] ->
            Dict.get p ev = set_when_truthy (arg p c))
      /\ (forall p, In p ["vm_id"; "backup_id"; "storage"; "node"] ->
            truthy (arg p c) = false -> Dict.mem p ev = false))
  /\ (exists ev,
      vm_call_vars vm = Some ev
      /\ Dict.mem "vm_id" ev = true /\ Dict.mem "vm_name" ev = true
      /\ (Dict.get "vm_id" (call_keywords vm) = None ->
          Dict.get "vm_id" ev = Some PyNone)
      /\ (Dict.get "vm_name" (call_keywords vm) = None ->
          Dict.get "vm_name" ev = Some PyNone))
  /\ backup_call_vars (mkCall "create" [("vm_id", PyInt 0); ("storage", PyStr "")])
     = Some [("operation", PyStr "create")]
  /\ vm_call_vars (mkCall "start" [])
     = Some [("vm_state", PyStr "started"); ("vm_id", PyNone); ("vm_name", PyNone)].
Proof.
  intros Hc Hop Hvm Hvop.
  split; [|split; [|split; reflexivity]].
  - exists (backup_extra_vars (call_operation c) (arg "vm_id" c) (arg "backup_id" c)
              (arg "storage" c) (arg "node" c) (kwargs_of backup_params c)).
    unfold backup_call_vars. rewrite Hc, Hop. cbn [negb].
    assert (forall p, In p ["vm_id"; "backup_id"; "storage"; "node"] ->
              Dict.get p (backup_extra_vars (call_operation c) (arg "vm_id" c)
                            (arg "backup_id" c) (arg "storage" c) (arg "node" c)
                            (kwargs_of backup_params c))
              = set_when_truthy (arg p c)) as Hget.
    { intros p Hp.
      destruct (backup_vars_base (call_operation c) (arg "vm_id" c)
                  (arg "backup_id" c) (arg "storage" c) (arg "node" c)
                  (kwargs_of backup_params c))
        as (_ & H1 & H2 & H3 & H4); try now not_in_kwargs.
      destruct Hp as [<-|[<-|[<-|[<-|[]]]]]; assumption. }
    split; [reflexivity|]. split; [exact Hget|].
    intros p Hp Hfalsy. unfold Dict.mem. rewrite (Hget p Hp).
    unfold set_when_truthy. now rewrite Hfalsy.
  - unfold Dict.mem in Hvop.
    destruct (Dict.get (call_operation vm) op_map) as [state|] eqn:E; [|discriminate].
    exists (vm_extra_vars state (arg "vm_id" vm) (arg "vm_name" vm) (arg "node" vm)
              (kwargs_of vm_params vm)).
    unfold vm_call_vars. rewrite Hvm, E.
    assert (Dict.get "vm_id" (vm_extra_vars state (arg "vm_id" vm) (arg "vm_name" vm)
                                (arg "node" vm) (kwargs_of vm_params vm))
            = Some (arg "vm_id" vm)) as Hid
      by (apply vm_vars_id; now not_in_kwargs).
    assert (Dict.get "vm_name" (vm_extra_vars state (arg "vm_id" vm) (arg "vm_name" vm)
                                  (arg "node" vm) (kwargs_of vm_params vm))
            = Some (arg "vm_name" vm)) as Hname
      by (apply vm_vars_name; now not_in_kwargs).
    unfold Dict.mem. rewrite Hid, Hname. repeat split.
    + intros H. unfold arg. now rewrite H.
    + intros H. unfold arg. now rewrite H.
Qed.

Lemma backup_keys_only_when_truthy_witness :
  exists ev,
    backup_call_vars
      (mkCall "restore"
         [("vm_id", PyInt 0); ("backup_id", PyStr "b7"); ("storage", PyStr "")])
    = Some ev
    /\ Dict.mem "vm_id" ev = false /\ Dict.mem "storage" ev = false
    /\ Dict.get "backup_id" ev = Some (PyStr "b7").
Proof.
  destruct (backup_keys_only_when_truthy
              (mkCall "restore"
                 [("vm_id", PyInt 0); ("backup_id", PyStr "b7"); ("storage", PyStr "")])
              (mkCall "start" []) eq_refl eq_refl eq_refl eq_refl)
    as [(ev & Hev & Hget & Hfalsy) _].
  exists ev. split; [exact Hev|].
  split; [exact (Hfalsy "vm_id" ltac:(cbn; tauto) eq_refl)|].
  split; [exact (Hfalsy "storage" ltac:(cbn; tauto) eq_refl)|].
  exact (Hget "backup_id" ltac:(cbn; tauto)).
Defined.

(** ** The cluster mapper does not check its operation keyword *)

(** C1 fails on the code: for the keyword [bogus], which is none of
    [status], [create_cluster], [join_cluster], [leave_cluster],
    [enable_ha], [run_cluster_management] spawns [ansible-playbook] with
    [operation] set to [bogus] and relays its result, where
    [run_backup_management], [run_vm_management] and
    [run_container_management] return the "Invalid operation" result
    without spawning anything. *)
Lemma cluster_operation_not_validated (world : invocation -> run_outcome) :
  let mgr := mkAnsibleManager "/a" "/a/inventory" "/a/playbooks"
               [("proxmox_cluster_manager", "/a/playbooks/proxmox_cluster_manager.yml");
                ("proxmox_backup_manager", "/a/playbooks/proxmox_backup_manager.yml");
                ("proxmox_vm_manager", "/a/playbooks/proxmox_vm_manager.yml");
                ("proxmox_container_manager",
                 "/a/playbooks/proxmox_container_manager.yml")] in
  in_list "bogus" cluster_operations = false
  /\ spawned (run_cluster_management mgr "bogus" PyNone PyNone PyNone []) world
     = [mkInvocation
          ["ansible-playbook"; "/a/playbooks/proxmox_cluster_manager.yml";
           "--extra-vars"; Json.dumps (PyDict [("operation", PyStr "bogus")])]
          "/a/ansible.cfg" "/a"]
  /\ run_backup_management mgr "bogus" PyNone PyNone PyNone PyNone [] world
     = ((false, "Invalid operation 'bogus'. Must be one of: list, create, restore, delete, schedule"),
        [])
  /\ run_vm_management mgr "bogus" PyNone PyNone PyNone [] world
     = ((false, "Invalid operation 'bogus'. Must be one of: create, start, stop, restart, delete"),
        [])
  /\ run_container_management mgr "bogus" PyNone PyNone PyNone [] world
     = ((false, "Invalid operation 'bogus'. Must be one of: create, start, stop, restart, delete"),
        []).
Proof.
  intros mgr. split; [reflexivity|]. split; [|repeat split; reflexivity].
  unfold spawned, run_cluster_management.
  rewrite (run_playbook_found world mgr "proxmox_cluster_manager"
             "/a/playbooks/proxmox_cluster_manager.yml" _ _ _ _ eq_refl).
  reflexivity.
Qed.

(** ** The backup sub-command *)

(** The call of [handle_backup_command] always binds, and of [mode] and
    [compress] its [**kwargs] hold what the command line gave, when that is
    truthy. *)
Lemma backup_call_kwargs (args : backup_options) :
  multiple_values (backup_call args) = false
  /\ Dict.get "compress" (kwargs_of backup_params (backup_call args))
     = (if given_str (opt_compress args)
        then option_map PyStr (opt_compress args) else None)
  /\ Dict.get "mode" (kwargs_of backup_params (backup_call args))
     = (if given_str (opt_mode args)
        then option_map PyStr (opt_mode args) else None).
Proof.
  destruct args as [op vm bk st nd mode comp h mi d mo w].
  destruct h, mi, d, mo, w, mode as [[|? ?]|], comp as [[|? ?]|];
    repeat split; reflexivity.
Qed.

Lemma backup_vars_unset (operation : string) (a1 a2 a3 a4 : pyvalue)
    (kwargs : pydict) (k : string) :
  In k ["compress"; "mode"] -> Dict.get k kwargs = None ->
  Dict.get k (backup_extra_vars operation a1 a2 a3 a4 kwargs) = None.
Proof.
  intros Hk H. unfold backup_extra_vars. rewrite get_update_other by exact H.
  destruct Hk as [<-|[<-|[]]];
    destruct (truthy a1), (truthy a2), (truthy a3), (truthy a4); reflexivity.
Qed.

Lemma choice_ok_given (choices : list string) (o : option string) (x : string) :
  ~ In "" choices -> choice_ok choices o = true -> o = Some x ->
  In x choices /\ given_str o = true.
Proof.
  intros Hne Hok ->. cbn in *. apply in_list_true in Hok. split; [exact Hok|].
  destruct (String.eqb x "") eqn:E; [|reflexivity].
  apply String.eqb_eq in E. subst x. contradiction.
Qed.

Lemma parse_backup_args_inv (o args : backup_options) :
  parse_backup_args o = Some args ->
  args = o
  /\ (exists op, opt_operation o = Some op /\ in_list op valid_operations = true)
  /\ choice_ok mode_choices (opt_mode o) = true
  /\ choice_ok compress_choices (opt_compress o) = true.
Proof.
  unfold parse_backup_args.
  destruct (opt_operation o) as [op|]; [|discriminate].
  destruct (in_list op backup_operation_choices) eqn:E1; [|discriminate].
  destruct (choice_ok mode_choices (opt_mode o)) eqn:E2; [|discriminate].
  destruct (choice_ok compress_choices (opt_compress o)) eqn:E3; [|discriminate].
  cbn [andb]. intros [= <-]. repeat split. now exists op.
Qed.

(** C8 (amended): every backup invocation that the command line accepts
    builds a variable mapping; the compression method in it, if any, is one
    of {0, gzip, lzo, zstd}, and it is the method given on the command
    line; the backup mode in it, if any, is one of {snapshot, suspend,
    stop}, and it is the mode given on the command line; any other
    compression method or mode is refused by the command line. *)
Theorem backup_cli_compress_and_mode (o args : backup_options) :
  parse_backup_args o = Some args ->
  (exists ev,
      backup_cli_vars o = Some ev
      /\ (forall v, Dict.get "compress" ev = Some v ->
            In v [PyStr "0"; PyStr "gzip"; PyStr "lzo"; PyStr "zstd"])
      /\ (forall v, Dict.get "mode" ev = Some v ->
            In v [PyStr "snapshot"; PyStr "suspend"; PyStr "stop"])
      /\ (forall x, opt_compress o = Some x ->
            Dict.get "compress" ev = Some (PyStr x))
      /\ (forall x, opt_mode o = Some x -> Dict.get "mode" ev = Some (PyStr x)))
  /\ (forall o' x, opt_compress o' = Some x ->
        ~ In x ["0"; "gzip"; "lzo"; "zstd"] -> backup_cli_vars o' = None)
  /\ (forall o' x, opt_mode o' = Some x ->
        ~ In x ["snapshot"; "suspend"; "stop"] -> backup_cli_vars o' = None).
Proof.
  intros Hparse. split; [|split].
  - pose proof Hparse as Hinv.
    apply parse_backup_args_inv in Hinv as (-> & (op & Hop & Hvalid) & Hmode & Hcomp).
    destruct (backup_call_kwargs o) as (Hbinds & Hkc & Hkm).
    set (kw := kwargs_of backup_params (backup_call o)) in *.
    exists (backup_extra_vars op (arg "vm_id" (backup_call o))
              (arg "backup_id" (backup_call o)) (arg "storage" (backup_call o))
              (arg "node" (backup_call o)) kw).
    set (ev := backup_extra_vars _ _ _ _ _ _).
    assert (backup_cli_vars o = Some ev) as Hev.
    { unfold backup_cli_vars. rewrite Hparse. unfold backup_call_vars.
      rewrite Hbinds. unfold backup_call at 1 2. cbn [call_operation].
      rewrite Hop, Hvalid. reflexivity. }
    assert (forall x, opt_compress o = Some x ->
              In x compress_choices /\ Dict.get "compress" ev = Some (PyStr x))
      as Hc.
    { intros x Hx.
      destruct (choice_ok_given compress_choices _ x
                  ltac:(cbn; intuition discriminate) Hcomp Hx) as [Hin Hg].
      split; [exact Hin|]. subst ev kw. unfold backup_extra_vars.
      apply kwargs_merged; [exact Hbinds|]. now rewrite Hkc, Hg, Hx. }
    assert (forall x, opt_mode o = Some x ->
              In x mode_choices /\ Dict.get "mode" ev = Some (PyStr x)) as Hm.
    { intros x Hx.
      destruct (choice_ok_given mode_choices _ x
                  ltac:(cbn; intuition discriminate) Hmode Hx) as [Hin Hg].
      split; [exact Hin|]. subst ev kw. unfold backup_extra_vars.
      apply kwargs_merged; [exact Hbinds|]. now rewrite Hkm, Hg, Hx. }
    split; [exact Hev|]. repeat split.
    + intros v Hv. destruct (opt_compress o) as [x|] eqn:Ex.
      * destruct (Hc x eq_refl) as [Hin Hget]. rewrite Hget in Hv.
        injection Hv as <-. now apply (in_map PyStr) in Hin.
      * cbn in Hkc. subst ev.
        rewrite backup_vars_unset in Hv by (cbn; tauto || exact Hkc).
        discriminate.
    + intros v Hv. destruct (opt_mode o) as [x|] eqn:Ex.
      * destruct (Hm x eq_refl) as [Hin Hget]. rewrite Hget in Hv.
        injection Hv as <-. now apply (in_map PyStr) in Hin.
      * cbn in Hkm. subst ev.
        rewrite backup_vars_unset in Hv by (cbn; tauto || exact Hkm).
        discriminate.
    + intros x Hx. now apply Hc.
    + intros x Hx. now apply Hm.
  - intros o' x Hx Hnot. unfold backup_cli_vars, parse_backup_args.
    destruct (opt_operation o'); [|reflexivity]. rewrite Hx. cbn [choice_ok].
    destruct (in_list x compress_choices) eqn:E.
    + apply in_list_true in E. contradiction.
    + now rewrite !andb_false_r.
  - intros o' x Hx Hnot. unfold backup_cli_vars, parse_backup_args.
    destruct (opt_operation o'); [|reflexivity]. rewrite Hx. cbn [choice_ok].
    destruct (in_list x mode_choices) eqn:E.
    + apply in_list_true in E. contradiction.
    + now rewrite !andb_false_r.
Qed.

Lemma backup_cli_compress_and_mode_witness :
  exists ev,
    backup_cli_vars
      (mkBackupOptions (Some "create") (Some "100") None (Some "local") None
         (Some "snapshot") (Some "zstd") None None None None None)
    = Some ev
    /\ Dict.get "compress" ev = Some (PyStr "zstd")
    /\ Dict.get "mode" ev = Some (PyStr "snapshot").
Proof.
  destruct (proj1 (backup_cli_compress_and_mode
                     (mkBackupOptions (Some "create") (Some "100") None (Some "local")
                        None (Some "snapshot") (Some "zstd") None None None None None)
                     _ eq_refl))
    as (ev & Hev & _ & _ & Hc & Hm).
  exists ev. split; [exact Hev|]. split; [exact (Hc _ eq_refl) | exact (Hm _ eq_refl)].
Defined.

(** C8 as stated fails: the command line accepts the compression method
    [0], which is not in {none, gzip, lzo, zstd}, and carries it into the
    variable mapping; it refuses [none]. *)
Lemma compress_zero_accepted_none_refused :
  let with_compress x :=
    mkBackupOptions (Some "create") (Some "100") None None None None (Some x)
      None None None None None in
  backup_cli_vars (with_compress "0")
  = Some [("operation", PyStr "create"); ("vm_id", PyStr "100");
          ("compress", PyStr "0")]
  /\ ~ In "0" spec_compress_methods
  /\ In "none" spec_compress_methods
  /\ backup_cli_vars (with_compress "none") = None.
Proof.
  cbv zeta. split; [reflexivity|]. split; [cbn; intuition discriminate|].
  split; [cbn; tauto | reflexivity].
Qed.

(* ================================================================== *)
(** * Further properties *)
(* ================================================================== *)

(** ** The registry *)

Section DictOrder.
Context {V : Type}.
Implicit Types (d : Dict.t V) (k : string) (v : V).

Lemma keys_set_absent k v d :
  ~ In k (Dict.keys d) -> Dict.keys (Dict.set k v d) = (Dict.keys d ++ [k])%list.
Proof.
  intros H. rewrite set_absent by now apply get_none_keys.
  unfold Dict.keys. now rewrite List.map_app.
Qed.

(** Assignment keeps the keys of a dictionary distinct. *)
Lemma set_keys_nodup k v d :
  NoDup (Dict.keys d) -> NoDup (Dict.keys (Dict.set k v d)).
Proof.
  intros Hnd. destruct (in_dec string_dec k (Dict.keys d)) as [Hin|Hnot].
  - now rewrite keys_set_present.
  - rewrite keys_set_absent by exact Hnot.
    apply NoDup_app; [exact Hnd | repeat constructor; intros [] | ].
    intros x Hx [<-|[]]. contradiction.
Qed.

Lemma update_keys_nodup d (o : Dict.t V) :
  NoDup (Dict.keys d) -> NoDup (Dict.keys (Dict.update d o)).
Proof.
  unfold Dict.update. revert d.
  induction o as [|[k v] o IH]; intros d H; cbn [fold_left]; [exact H|].
  apply IH. now apply set_keys_nodup.
Qed.

Lemma length_set k v d : List.length (Dict.set k v d) <= S (List.length d).
Proof.
  induction d as [|[k' v'] d IH]; cbn; [lia|].
  destruct (String.eqb k k'); cbn; lia.
Qed.

Lemma get_set k k' v d :
  Dict.get k (Dict.set k' v d) = if String.eqb k k' then Some v else Dict.get k d.
Proof.
  destruct (String.eqb k k') eqn:E.
  - apply String.eqb_eq in E. subst. apply get_set_same.
  - apply String.eqb_neq in E. now apply get_set_other.
Qed.

End DictOrder.

Lemma find_append {A} (p : A -> bool) (l1 l2 : list A) :
  find p (l1 ++ l2)%list
  = match find p l1 with Some x => Some x | None => find p l2 end.
Proof.
  induction l1 as [|x l1 IH]; cbn; [reflexivity|]. now destruct (p x).
Qed.

Section Scan.
Variable dir : string.

Lemma scan_fold_nodup (files : list string) (acc : Dict.t string) :
  NoDup (Dict.keys acc) ->
  NoDup (Dict.keys (fold_left (scan_step dir) files acc)).
Proof.
  revert acc. induction files as [|f files IH]; intros acc H; cbn [fold_left];
    [exact H|].
  apply IH. unfold scan_step.
  destruct (PyStr.endswith_any playbook_extensions f); [|exact H].
  now apply set_keys_nodup.
Qed.

Lemma scan_fold_length (files : list string) (acc : Dict.t string) :
  List.length (fold_left (scan_step dir) files acc)
  <= List.length acc + List.length (recognized files).
Proof.
  revert acc. induction files as [|f files IH]; intros acc; cbn [fold_left];
    [cbn; lia|].
  specialize (IH (scan_step dir acc f)). unfold scan_step, recognized in *.
  cbn [filter]. destruct (PyStr.endswith_any playbook_extensions f).
  - pose proof (length_set (playbook_name_of f) (os_path_join dir f) acc).
    cbn [List.length]. lia.
  - exact IH.
Qed.

(** What a name resolves to after the scan: the last recognised file of
    the listing that gives this name decides, and the entries that were
    there before the scan stay for the other names. *)
Lemma scan_fold_get (files : list string) (acc : Dict.t string) (name : string) :
  Dict.get name (fold_left (scan_step dir) files acc)
  = match find (fun f => String.eqb (playbook_name_of f) name)
            (rev (recognized files)) with
    | Some f => Some (os_path_join dir f)
    | None => Dict.get name acc
    end.
Proof.
  revert acc. induction files as [|f files IH]; intros acc; [reflexivity|].
  cbn [fold_left]. rewrite IH. unfold recognized, scan_step. cbn [filter].
  destruct (PyStr.endswith_any playbook_extensions f); [|reflexivity].
  cbn [rev]. rewrite find_append.
  destruct (find _ (rev (filter _ files))); [reflexivity|].
  cbn [find]. rewrite get_set, (String.eqb_sym name). now destruct (String.eqb _ name).
Qed.

End Scan.

Lemma startswith_append (p rest : string) : PyStr.startswith p (p ++ rest) = true.
Proof.
  induction p as [|c p IH]; cbn; [reflexivity|]. now rewrite Ascii.eqb_refl, IH.
Qed.

Lemma endswith_append (suf front s : string) :
  PyStr.endswith suf s = true -> PyStr.endswith suf (front ++ s) = true.
Proof.
  intros H. induction front as [|c front IH]; [exact H|].
  cbn [append]. rewrite endswith_cons, IH. now destruct (String.eqb _ suf).
Qed.

Lemma os_path_join_relative (a b : string) :
  PyStr.startswith "/" b = false ->
  exists sep, os_path_join a b = a ++ sep ++ b.
Proof.
  intros H. unfold os_path_join. rewrite H.
  destruct (String.eqb a "" || PyStr.endswith "/" a).
  - now exists "".
  - now exists "/".
Qed.

(** X1: whatever the directory holds, and also when it does not exist, the
    names of the registry that [__init__] builds are pairwise distinct. *)
Theorem registry_names_distinct (project_root : string)
    (listdir : string -> option (list string))
    (ansible_path_arg inventory_path_arg playbooks_path_arg : option string) :
  NoDup (list_playbooks
           (AnsibleManager_init project_root listdir ansible_path_arg
              inventory_path_arg playbooks_path_arg)).
Proof.
  unfold list_playbooks, AnsibleManager_init. cbn [available_playbooks].
  unfold _scan_playbooks. destruct (listdir _) as [files|].
  - apply scan_fold_nodup. constructor.
  - constructor.
Qed.

(** X2: a name resolves to the path of the last file of the listing, among
    those with a recognised extension, that the scan gives this name; it
    does not resolve when there is no such file.  So a later file silently
    takes the place of an earlier one of the same name. *)
Theorem registry_resolves_last_file (dir : string) (files : list string)
    (name : string) :
  Dict.get name (_scan_playbooks dir (Some files))
  = option_map (os_path_join dir)
      (find (fun f => String.eqb (playbook_name_of f) name)
         (rev (recognized files))).
Proof.
  cbn [_scan_playbooks]. rewrite scan_fold_get.
  now destruct (find _ (rev (recognized files))).
Qed.

(** X3: the names [list_playbooks] returns are exactly the names the scan
    derives from the files with a recognised extension, and there are at
    most as many names as such files. *)
Theorem registry_names_are_derived (a i dir : string) (files : list string) :
  let mgr := mkAnsibleManager a i dir (_scan_playbooks dir (Some files)) in
  (forall name,
      In name (list_playbooks mgr)
      <-> exists f, In f files
                    /\ PyStr.endswith_any playbook_extensions f = true
                    /\ playbook_name_of f = name)
  /\ List.length (list_playbooks mgr) <= List.length (recognized files).
Proof.
  intros mgr. subst mgr. unfold list_playbooks. cbn [available_playbooks].
  split.
  - intros name. rewrite <- mem_keys. unfold Dict.mem.
    cbn [_scan_playbooks]. rewrite scan_fold_get. cbn [Dict.get].
    destruct (find _ (rev (recognized files))) as [f|] eqn:E.
    + split; [intros _ | reflexivity].
      apply find_some in E as [Hin Hp]. apply in_rev in Hin.
      apply filter_In in Hin as [Hin Hrec]. apply String.eqb_eq in Hp.
      now exists f.
    + split; [discriminate|]. intros (f & Hin & Hrec & Hname).
      pose proof (find_none _ _ E f) as Hf.
      rewrite <- in_rev in Hf. unfold recognized in Hf. rewrite filter_In in Hf.
      specialize (Hf (conj Hin Hrec)). cbn in Hf.
      apply String.eqb_neq in Hf. contradiction.
  - unfold Dict.keys. rewrite length_map. cbn [_scan_playbooks].
    pose proof (scan_fold_length dir files Dict.empty) as H. cbn in H. exact H.
Qed.

(** X4: when no name of the listing starts with a slash (the names of
    [os.listdir] hold none), every path in the registry starts with the
    playbooks directory and ends with a recognised extension. *)
Theorem registry_paths_under_directory (dir : string) (files : list string)
    (name path : string) :
  (forall f, In f files -> PyStr.startswith "/" f = false) ->
  Dict.get name (_scan_playbooks dir (Some files)) = Some path ->
  PyStr.startswith dir path = true
  /\ PyStr.endswith_any playbook_extensions path = true.
Proof.
  intros Hrel. cbn [_scan_playbooks]. rewrite scan_fold_get. cbn [Dict.get].
  destruct (find _ (rev (recognized files))) as [f|] eqn:E; [|discriminate].
  intros [= <-]. apply find_some in E as [Hin _]. apply in_rev in Hin.
  apply filter_In in Hin as [Hin Hrec].
  destruct (os_path_join_relative dir f (Hrel f Hin)) as [sep ->].
  split; [apply startswith_append|].
  unfold PyStr.endswith_any in *. apply existsb_exists in Hrec as (ext & Hext & He).
  apply existsb_exists. exists ext. split; [exact Hext|].
  rewrite <- append_assoc. now apply endswith_append.
Qed.

Lemma registry_paths_under_directory_witness :
  PyStr.startswith "/a/playbooks" "/a/playbooks/site.yaml" = true
  /\ PyStr.endswith_any playbook_extensions "/a/playbooks/site.yaml" = true.
Proof.
  apply (registry_paths_under_directory "/a/playbooks" ["notes.txt"; "site.yaml"]
           "site" "/a/playbooks/site.yaml").
  - intros f [<-|[<-|[]]]; reflexivity.
  - reflexivity.
Defined.

(** ** The runner and the mappers *)

Section RunnerFacts.
Variable world : invocation -> run_outcome.
Variable mgr : AnsibleManager.

Lemma run_playbook_missing (name : string) (extra_vars : option pydict)
    (limit_hosts : option string) (tags : option (list string)) (verbose : bool) :
  Dict.get name (available_playbooks mgr) = None ->
  run_playbook mgr name extra_vars limit_hosts tags verbose world
  = ((false, "Playbook '" ++ name ++ "' not found. Available playbooks: "
             ++ PyStr.join ", " (list_playbooks mgr)), []).
Proof. intros H. unfold run_playbook. now rewrite H. Qed.

Lemma build_command_any_vars (path : string) (extra_vars : option pydict)
    (limit_hosts : option string) (tags : option (list string)) (verbose : bool) :
  build_command_any path (py_of_vars extra_vars) limit_hosts tags verbose
  = build_command path extra_vars limit_hosts tags verbose.
Proof.
  unfold build_command_any, build_command.
  destruct extra_vars as [[|kv d]|]; reflexivity.
Qed.

(** On a mapping, or on no [extra_vars] at all, the runner for values of
    any type is [run_playbook]. *)
Lemma run_playbook_any_vars (name : string) (extra_vars : option pydict)
    (limit_hosts : option string) (tags : option (list string)) (verbose : bool) :
  run_playbook_any mgr name (py_of_vars extra_vars) limit_hosts tags verbose
  = run_playbook mgr name extra_vars limit_hosts tags verbose.
Proof.
  unfold run_playbook_any, run_playbook.
  destruct (Dict.get name (available_playbooks mgr)); [|reflexivity].
  now rewrite build_command_any_vars.
Qed.

Lemma run_playbook_any_found (name path : string) (extra_vars : pyvalue)
    (limit_hosts : option string) (tags : option (list string)) (verbose : bool) :
  Dict.get name (available_playbooks mgr) = Some path ->
  run_playbook_any mgr name extra_vars limit_hosts tags verbose world
  = (match world (invocation_of mgr
                    (build_command_any path extra_vars limit_hosts tags verbose)) with
     | CompletedProcess rc out err =>
         if Z.eqb rc 0 then (true, out) else (false, "Error: " ++ err)
     | Raises description => (false, "Exception: " ++ description)
     end,
     [invocation_of mgr
        (build_command_any path extra_vars limit_hosts tags verbose)]).
Proof.
  intros H. unfold run_playbook_any. rewrite H.
  unfold bind, subprocess_run, invocation_of.
  destruct (world _) as [rc out err|d]; [destruct (Z.eqb rc 0)|]; reflexivity.
Qed.

Lemma run_playbook_any_missing (name : string) (extra_vars : pyvalue)
    (limit_hosts : option string) (tags : option (list string)) (verbose : bool) :
  Dict.get name (available_playbooks mgr) = None ->
  run_playbook_any mgr name extra_vars limit_hosts tags verbose world
  = ((false, "Playbook '" ++ name ++ "' not found. Available playbooks: "
             ++ PyStr.join ", " (list_playbooks mgr)), []).
Proof. intros H. unfold run_playbook_any. now rewrite H. Qed.

(** With a mapping that is not empty and no other option, the command has
    four words. *)
Lemma build_command_vars_only (path : string) (kv : string * pyvalue) (d : pydict) :
  build_command path (Some (kv :: d)) None None false
  = ["ansible-playbook"; path; "--extra-vars"; Json.dumps (PyDict (kv :: d))].
Proof. reflexivity. Qed.

End RunnerFacts.

Lemma update_cons {V : Type} (kv : string * V) (d o : Dict.t V) :
  exists kv' d', Dict.update (kv :: d) o = kv' :: d'.
Proof.
  unfold Dict.update. revert kv d.
  induction o as [|[k v] o IH]; intros kv d; cbn [fold_left]; [now eauto|].
  destruct kv as [k0 v0]. cbn [Dict.set fst snd].
  destruct (String.eqb k k0); apply IH.
Qed.

Lemma set_cons {V : Type} (k : string) (v : V) (d : Dict.t V) :
  exists kv' d', Dict.set k v d = kv' :: d'.
Proof.
  destruct d as [|[k' v'] d]; cbn; [now eauto|].
  destruct (String.eqb k k'); now eauto.
Qed.

(** Every mapper builds a mapping that is not empty. *)
Lemma mapper_vars_cons :
  (forall state id name node kwargs,
      exists kv d, vm_extra_vars state id name node kwargs = kv :: d)
  /\ (forall state id name node kwargs,
      exists kv d, ct_extra_vars state id name node kwargs = kv :: d)
  /\ (forall operation a1 a2 a3 kwargs,
      exists kv d, cluster_extra_vars operation a1 a2 a3 kwargs = kv :: d)
  /\ (forall operation a1 a2 a3 a4 kwargs,
      exists kv d, backup_extra_vars operation a1 a2 a3 a4 kwargs = kv :: d).
Proof.
  repeat split; intros.
  - unfold vm_extra_vars. destruct (truthy node); apply update_cons.
  - unfold ct_extra_vars. destruct (truthy node); apply update_cons.
  - unfold cluster_extra_vars.
    destruct (truthy a1), (truthy a2), (truthy a3); apply update_cons.
  - unfold backup_extra_vars.
    destruct (truthy a1), (truthy a2), (truthy a3), (truthy a4); apply update_cons.
Qed.

(** A run with the mapping of a mapper: one process, four words. *)
Lemma run_mapper_vars (world : invocation -> run_outcome) (mgr : AnsibleManager)
    (name path : string) (ev : pydict) :
  (exists kv d, ev = kv :: d) ->
  Dict.get name (available_playbooks mgr) = Some path ->
  spawned (run_playbook mgr name (Some ev) None None false) world
  = [mkInvocation
       ["ansible-playbook"; path; "--extra-vars"; Json.dumps (PyDict ev)]
       (os_path_join (ansible_path mgr) "ansible.cfg") (ansible_path mgr)].
Proof.
  intros (kv & d & ->) Hget. unfold spawned.
  now rewrite (run_playbook_found world mgr name path _ _ _ _ Hget).
Qed.

Lemma in_list_false (x : string) (l : list string) :
  ~ In x l -> in_list x l = false.
Proof.
  intros H. destruct (in_list x l) eqn:E; [|reflexivity].
  apply in_list_true in E. contradiction.
Qed.

Lemma op_map_unknown (operation : string) :
  ~ In operation ["create"; "start"; "stop"; "restart"; "delete"] ->
  Dict.get operation op_map = None.
Proof.
  intros H. apply get_none_keys. exact H.
Qed.

(** X5: [run_playbook] starts at most one subprocess.  For a name that
    is not in the registry it starts none.  For a registered name it starts
    exactly one, which is [ansible-playbook] on the registered path, with
    the automation root as working directory and [ANSIBLE_CONFIG] set to
    [ansible.cfg] in that directory; unless [extra_vars] is non-empty and
    [json.dumps] cannot write it (an integer of more than 4300 digits):
    [json.dumps] is called before the [try], so its exception leaves
    [run_playbook] and nothing is started. *)
Theorem run_playbook_one_process (world : invocation -> run_outcome)
    (mgr : AnsibleManager) (name : string) (extra_vars : option pydict)
    (limit_hosts : option string) (tags : option (list string)) (verbose : bool) :
  match run_playbook_checked mgr name extra_vars limit_hosts tags verbose with
  | None =>
      Dict.mem name (available_playbooks mgr) = true
      /\ given_vars extra_vars = true
      /\ Json.serializable (py_of_vars extra_vars) = false
  | Some run =>
      let trace := spawned run world in
      (Dict.mem name (available_playbooks mgr) = true ->
       given_vars extra_vars = true ->
       Json.serializable (py_of_vars extra_vars) = true)
      /\ List.length trace
         = (if Dict.mem name (available_playbooks mgr) then 1 else 0)
      /\ forall inv, In inv trace ->
           (exists path rest,
               Dict.get name (available_playbooks mgr) = Some path
               /\ argv inv = "ansible-playbook" :: path :: rest)
           /\ cwd inv = ansible_path mgr
           /\ env_ANSIBLE_CONFIG inv = os_path_join (ansible_path mgr) "ansible.cfg"
  end.
Proof.
  unfold run_playbook_checked, spawned, Dict.mem.
  destruct (Dict.get name (available_playbooks mgr)) as [path|] eqn:E.
  - destruct (given_vars extra_vars) eqn:G;
      destruct (Json.serializable (py_of_vars extra_vars)) eqn:S;
      cbn [andb negb]; try (now repeat split);
      rewrite (run_playbook_found world mgr name path _ _ _ _ E); cbn [snd];
      (split; [congruence|]); (split; [reflexivity|]);
      intros inv [<-|[]]; unfold invocation_of; cbn;
      repeat split; rewrite build_command_segments; now eauto.
  - rewrite (run_playbook_missing world mgr name _ _ _ _ E). cbn [snd].
    split; [discriminate|]. split; [reflexivity | intros inv []].
Qed.

(** X6: for every operation keyword other than create, start, stop,
    restart and delete, the VM and the container mapper return the failed
    result that names the keyword and lists the five valid ones, and start
    no subprocess. *)
Theorem lifecycle_invalid_operation (world : invocation -> run_outcome)
    (mgr : AnsibleManager) (operation : string) (id name node : pyvalue)
    (kwargs : pydict) :
  ~ In operation ["create"; "start"; "stop"; "restart"; "delete"] ->
  run_vm_management mgr operation id name node kwargs world
  = ((false, "Invalid operation '" ++ operation
             ++ "'. Must be one of: create, start, stop, restart, delete"), [])
  /\ run_container_management mgr operation id name node kwargs world
     = ((false, "Invalid operation '" ++ operation
                ++ "'. Must be one of: create, start, stop, restart, delete"), []).
Proof.
  intros H. apply op_map_unknown in H.
  unfold run_vm_management, run_container_management. rewrite H. split; reflexivity.
Qed.

Lemma lifecycle_invalid_operation_witness :
  run_vm_management
    (mkAnsibleManager "/a" "/a/inventory" "/a/playbooks"
       [("proxmox_vm_manager", "/a/playbooks/proxmox_vm_manager.yml")])
    "reboot" (PyInt 100) PyNone PyNone [] (fun _ => CompletedProcess 0 "" "")
  = ((false, "Invalid operation 'reboot'. Must be one of: create, start, stop, restart, delete"),
     []).
Proof.
  exact (proj1 (lifecycle_invalid_operation (fun _ => CompletedProcess 0 "" "")
                  (mkAnsibleManager "/a" "/a/inventory" "/a/playbooks"
                     [("proxmox_vm_manager", "/a/playbooks/proxmox_vm_manager.yml")])
                  "reboot" (PyInt 100) PyNone PyNone []
                  ltac:(cbn; intuition discriminate))).
Defined.

(** X7: for every operation keyword other than list, create, restore,
    delete and schedule, the backup mapper returns the failed result that
    names the keyword and lists the five valid ones, and starts no
    subprocess. *)
Theorem backup_invalid_operation (world : invocation -> run_outcome)
    (mgr : AnsibleManager) (operation : string)
    (vm_id backup_id storage node : pyvalue) (kwargs : pydict) :
  ~ In operation ["list"; "create"; "restore"; "delete"; "schedule"] ->
  run_backup_management mgr operation vm_id backup_id storage node kwargs world
  = ((false, "Invalid operation '" ++ operation
             ++ "'. Must be one of: list, create, restore, delete, schedule"), []).
Proof.
  intros H. unfold run_backup_management, valid_operations.
  now rewrite (in_list_false _ _ H).
Qed.

Lemma backup_invalid_operation_witness :
  run_backup_management
    (mkAnsibleManager "/a" "/a/inventory" "/a/playbooks"
       [("proxmox_backup_manager", "/a/playbooks/proxmox_backup_manager.yml")])
    "prune" PyNone PyNone PyNone PyNone [] (fun _ => CompletedProcess 0 "" "")
  = ((false, "Invalid operation 'prune'. Must be one of: list, create, restore, delete, schedule"),
     []).
Proof.
  exact (backup_invalid_operation (fun _ => CompletedProcess 0 "" "")
           (mkAnsibleManager "/a" "/a/inventory" "/a/playbooks"
              [("proxmox_backup_manager", "/a/playbooks/proxmox_backup_manager.yml")])
           "prune" PyNone PyNone PyNone PyNone []
           ltac:(cbn; intuition discriminate)).
Defined.

(** X8: each mapper on its own, when the registry has the playbook of
    that mapper (whatever else it has) and the mapping is one [json.dumps]
    can write: for a valid operation keyword (the cluster mapper: for every
    keyword) the mapper starts exactly one subprocess, and its command is
    [ansible-playbook], the path, [--extra-vars] and the serialised
    mapping: a mapper never passes [-vvv], [-l] or [-t]. *)
Theorem mappers_pass_only_extra_vars (world : invocation -> run_outcome)
    (mgr : AnsibleManager) (a1 a2 a3 a4 : pyvalue) (kwargs : pydict) :
  let command path ev :=
    [mkInvocation ["ansible-playbook"; path; "--extra-vars"; Json.dumps (PyDict ev)]
       (os_path_join (ansible_path mgr) "ansible.cfg") (ansible_path mgr)] in
  let lifecycle :=
    [("create", "present"); ("start", "started"); ("stop", "stopped");
     ("restart", "restarted"); ("delete", "absent")] in
  (forall path operation state,
      Dict.get "proxmox_vm_manager" (available_playbooks mgr) = Some path ->
      In (operation, state) lifecycle ->
      Json.serializable (PyDict (vm_extra_vars state a1 a2 a3 kwargs)) = true ->
      spawned (run_vm_management mgr operation a1 a2 a3 kwargs) world
      = command path (vm_extra_vars state a1 a2 a3 kwargs))
  /\ (forall path operation state,
      Dict.get "proxmox_container_manager" (available_playbooks mgr) = Some path ->
      In (operation, state) lifecycle ->
      Json.serializable (PyDict (ct_extra_vars state a1 a2 a3 kwargs)) = true ->
      spawned (run_container_management mgr operation a1 a2 a3 kwargs) world
      = command path (ct_extra_vars state a1 a2 a3 kwargs))
  /\ (forall path operation,
      Dict.get "proxmox_cluster_manager" (available_playbooks mgr) = Some path ->
      Json.serializable (PyDict (cluster_extra_vars operation a1 a2 a3 kwargs))
      = true ->
      spawned (run_cluster_management mgr operation a1 a2 a3 kwargs) world
      = command path (cluster_extra_vars operation a1 a2 a3 kwargs))
  /\ (forall path operation,
      Dict.get "proxmox_backup_manager" (available_playbooks mgr) = Some path ->
      In operation ["list"; "create"; "restore"; "delete"; "schedule"] ->
      Json.serializable (PyDict (backup_extra_vars operation a1 a2 a3 a4 kwargs))
      = true ->
      spawned (run_backup_management mgr operation a1 a2 a3 a4 kwargs) world
      = command path (backup_extra_vars operation a1 a2 a3 a4 kwargs)).
Proof.
  intros command lifecycle. subst command lifecycle.
  destruct mapper_vars_cons as (Cvm & Cct & Ccl & Cbk).
  unfold run_vm_management, run_container_management, run_cluster_management,
    run_backup_management.
  split; [|split; [|split]].
  - intros path operation state Hget Hop _. apply op_map_table in Hop.
    rewrite Hop. apply run_mapper_vars; auto.
  - intros path operation state Hget Hop _. apply op_map_table in Hop.
    rewrite Hop. apply run_mapper_vars; auto.
  - intros path operation Hget _. apply run_mapper_vars; auto.
  - intros path operation Hget Hop _. apply in_list_true in Hop.
    unfold valid_operations. rewrite Hop. cbn [negb].
    apply run_mapper_vars; auto.
Qed.

Lemma mappers_pass_only_extra_vars_witness :
  let q := Json.quote in
  spawned
    (run_cluster_management
       (mkAnsibleManager "/a" "/a/inventory" "/a/playbooks"
          [("site", "/a/playbooks/site.yml");
           ("proxmox_cluster_manager", "/a/playbooks/proxmox_cluster_manager.yml")])
       "status" (PyStr "pve1") PyNone PyNone [])
    (fun _ => CompletedProcess 0 "ok" "")
  = [mkInvocation
       ["ansible-playbook"; "/a/playbooks/proxmox_cluster_manager.yml"; "--extra-vars";
        "{" ++ q ++ "operation" ++ q ++ ": " ++ q ++ "status" ++ q ++ ", "
            ++ q ++ "target_node" ++ q ++ ": " ++ q ++ "pve1" ++ q ++ "}"]
       "/a/ansible.cfg" "/a"]
  /\ spawned
       (run_vm_management
          (mkAnsibleManager "/a" "/a/inventory" "/a/playbooks"
             [("proxmox_vm_manager", "/a/playbooks/proxmox_vm_manager.yaml")])
          "stop" (PyInt 100) PyNone PyNone [])
       (fun _ => CompletedProcess 0 "ok" "")
     = [mkInvocation
          ["ansible-playbook"; "/a/playbooks/proxmox_vm_manager.yaml"; "--extra-vars";
           "{" ++ q ++ "vm_state" ++ q ++ ": " ++ q ++ "stopped" ++ q ++ ", "
               ++ q ++ "vm_id" ++ q ++ ": 100, " ++ q ++ "vm_name" ++ q ++ ": null}"]
          "/a/ansible.cfg" "/a"].
Proof.
  split.
  - exact (proj1 (proj2 (proj2
      (mappers_pass_only_extra_vars (fun _ => CompletedProcess 0 "ok" "")
         (mkAnsibleManager "/a" "/a/inventory" "/a/playbooks"
            [("site", "/a/playbooks/site.yml");
             ("proxmox_cluster_manager", "/a/playbooks/proxmox_cluster_manager.yml")])
         (PyStr "pve1") PyNone PyNone PyNone [])))
      "/a/playbooks/proxmox_cluster_manager.yml" "status" eq_refl eq_refl).
  - exact (proj1
      (mappers_pass_only_extra_vars (fun _ => CompletedProcess 0 "ok" "")
         (mkAnsibleManager "/a" "/a/inventory" "/a/playbooks"
            [("proxmox_vm_manager", "/a/playbooks/proxmox_vm_manager.yaml")])
         (PyInt 100) PyNone PyNone PyNone [])
      "/a/playbooks/proxmox_vm_manager.yaml" "stop" "stopped" eq_refl
      ltac:(cbn; tauto) eq_refl).
Defined.

(** X9: when the registry has no playbook of the name a mapper runs, the
    mapper returns the "not found" result of [run_playbook], which lists
    the names the registry has, and starts no subprocess. *)
Theorem mappers_without_playbook (world : invocation -> run_outcome)
    (mgr : AnsibleManager) (operation state cluster_op backup_op : string)
    (a1 a2 a3 a4 : pyvalue) (kwargs : pydict) :
  (forall name, In name ["proxmox_vm_manager"; "proxmox_container_manager";
                         "proxmox_cluster_manager"; "proxmox_backup_manager"] ->
                Dict.mem name (available_playbooks mgr) = false) ->
  In (operation, state)
     [("create", "present"); ("start", "started"); ("stop", "stopped");
      ("restart", "restarted"); ("delete", "absent")] ->
  In backup_op ["list"; "create"; "restore"; "delete"; "schedule"] ->
  let not_found name :=
    ((false, "Playbook '" ++ name ++ "' not found. Available playbooks: "
             ++ PyStr.join ", " (list_playbooks mgr)), @nil invocation) in
  run_vm_management mgr operation a1 a2 a3 kwargs world
  = not_found "proxmox_vm_manager"
  /\ run_container_management mgr operation a1 a2 a3 kwargs world
     = not_found "proxmox_container_manager"
  /\ run_cluster_management mgr cluster_op a1 a2 a3 kwargs world
     = not_found "proxmox_cluster_manager"
  /\ run_backup_management mgr backup_op a1 a2 a3 a4 kwargs world
     = not_found "proxmox_backup_manager".
Proof.
  intros Hmissing Hop Hbop not_found. subst not_found.
  apply op_map_table in Hop. apply in_list_true in Hbop.
  assert (forall name, In name ["proxmox_vm_manager"; "proxmox_container_manager";
                                "proxmox_cluster_manager"; "proxmox_backup_manager"] ->
                       Dict.get name (available_playbooks mgr) = None) as Hget.
  { intros name Hin. specialize (Hmissing name Hin). unfold Dict.mem in Hmissing.
    now destruct (Dict.get name (available_playbooks mgr)). }
  unfold run_vm_management, run_container_management, run_cluster_management,
    run_backup_management.
  rewrite Hop. unfold valid_operations. rewrite Hbop. cbn [negb].
  repeat split; apply run_playbook_missing; apply Hget; cbn; tauto.
Qed.

Lemma mappers_without_playbook_witness :
  run_vm_management
    (mkAnsibleManager "/a" "/a/inventory" "/a/playbooks"
       [("site", "/a/playbooks/site.yml")])
    "start" (PyInt 100) PyNone PyNone [] (fun _ => CompletedProcess 0 "" "")
  = ((false, "Playbook 'proxmox_vm_manager' not found. Available playbooks: site"),
     []).
Proof.
  exact (proj1
    (mappers_without_playbook (fun _ => CompletedProcess 0 "" "")
       (mkAnsibleManager "/a" "/a/inventory" "/a/playbooks"
          [("site", "/a/playbooks/site.yml")])
       "start" "started" "status" "list" (PyInt 100) PyNone PyNone PyNone []
       ltac:(intros name [<-|[<-|[<-|[<-|[]]]]]; reflexivity)
       ltac:(cbn; tauto) ltac:(cbn; tauto))).
Defined.

(** ** The serialised mapping of a mapper decodes to the mapping *)

Lemma decodable_dict (d : pydict) :
  NoDup (Dict.keys d) -> (forall k v, In (k, v) d -> decodable v) ->
  decodable (PyDict d).
Proof.
  intros Hnd Hall. split.
  - cbn [json_native]. apply forallb_forall. intros [k v] Hin.
    now destruct (Hall k v Hin).
  - cbn. split; [exact Hnd|]. clear Hnd.
    induction d as [|[k v] d IH]; [exact I|]. split.
    + now destruct (Hall k v (or_introl eq_refl)).
    + apply IH. intros k' v' Hin. apply (Hall k' v'). now right.
Qed.

Lemma in_set {V : Type} (k k0 : string) (v v0 : V) (d : Dict.t V) :
  In (k, v) (Dict.set k0 v0 d) -> (k, v) = (k0, v0) \/ In (k, v) d.
Proof.
  induction d as [|[k' v'] d IH]; cbn.
  - intros [H|[]]. left. now symmetry.
  - destruct (String.eqb k0 k') eqn:E; cbn.
    + apply String.eqb_eq in E. subst k'. intros [H|H]; [left; now symmetry | tauto].
    + intros [H|H]; [tauto|]. destruct (IH H); tauto.
Qed.

Lemma in_update {V : Type} (kv : string * V) (d o : Dict.t V) :
  In kv (Dict.update d o) -> In kv d \/ In kv o.
Proof.
  unfold Dict.update. revert d.
  induction o as [|[k v] o IH]; intros d; cbn [fold_left]; [tauto|].
  intros H. destruct (IH _ H) as [H1|H1]; [|right; now right].
  destruct kv as [k1 v1]. cbn [fst snd] in H1.
  destruct (in_set _ _ _ _ _ H1) as [E|E]; [right; left; now symmetry | now left].
Qed.

Lemma get_in {V : Type} (k : string) (v : V) (d : Dict.t V) :
  Dict.get k d = Some v -> In (k, v) d.
Proof.
  induction d as [|[k' v'] d IH]; cbn; [discriminate|].
  destruct (String.eqb k k') eqn:E.
  - apply String.eqb_eq in E. subst k'. intros [= ->]. now left.
  - intros H. right. now apply IH.
Qed.

Section DecodableVars.
Variable c : call.
Hypothesis Hvalues : forall k v, In (k, v) (call_keywords c) -> decodable v.

Lemma arg_decodable (p : string) : decodable (arg p c).
Proof.
  unfold arg. destruct (Dict.get p (call_keywords c)) as [v|] eqn:E.
  - apply (Hvalues p). now apply get_in.
  - now split.
Qed.

Lemma kwargs_decodable (params : list string) (k : string) (v : pyvalue) :
  In (k, v) (kwargs_of params c) -> decodable v.
Proof.
  unfold kwargs_of, Dict.without. intros H. apply filter_In in H as [H _].
  now apply (Hvalues k).
Qed.

(** The mapping that [update] returns is decodable when the base mapping
    is: the values of [**kwargs] are. *)
Lemma merged_decodable (params : list string) (base : pydict) :
  NoDup (Dict.keys base) -> (forall k v, In (k, v) base -> decodable v) ->
  decodable (PyDict (Dict.update base (kwargs_of params c))).
Proof.
  intros Hnd Hbase. apply decodable_dict; [now apply update_keys_nodup|].
  intros k v Hin. apply in_update in Hin as [Hin|Hin].
  - now apply (Hbase k).
  - now apply (kwargs_decodable params k).
Qed.

End DecodableVars.

Ltac base_decodable :=
  match goal with
  | |- NoDup _ => cbn; repeat constructor; cbn; intuition discriminate
  | |- forall k v, In _ _ -> decodable _ =>
      let k := fresh "k" in let v := fresh "v" in let H := fresh "H" in
      intros k v H; cbn in H;
      repeat match type of H with
             | _ \/ _ => destruct H as [H|H]
             | False => contradiction
             end;
      injection H as <- <-; first [now split | now apply arg_decodable]
  end.



(** ** The handlers of [vm], [ct] and [cluster] *)

Lemma vm_call_binds (args : vm_options) : multiple_values (vm_call args) = false.
Proof.
  destruct args as [op id name node memory cores disk storage template iso].
  destruct memory, cores, disk, storage, template, iso; reflexivity.
Qed.

Lemma ct_call_binds (args : ct_options) : multiple_values (ct_call args) = false.
Proof.
  destruct args as [op id name node memory cores disk storage template].
  destruct memory, cores, disk, storage, template; reflexivity.
Qed.

Lemma cluster_call_binds (args : cluster_options) :
  multiple_values (cluster_call args) = false.
Proof. reflexivity. Qed.

(** X11: for every accepted [vm] command line the mapping given to the
    playbook is exactly: [vm_state] with the state mapped from the
    operation keyword, [vm_id] and [vm_name] ([None] when the option is
    absent), [vm_node] when [--node] is given and not empty, then those of
    [memory], [cores], [disk_size], [storage], [template] and [iso] that
    are given, in this order.  No option of the command line can replace
    the state. *)
Theorem vm_command_mapping (args : vm_options) (operation state : string) :
  vm_operation args = Some operation ->
  In (operation, state)
     [("create", "present"); ("start", "started"); ("stop", "stopped");
      ("restart", "restarted"); ("delete", "absent")] ->
  vm_call_vars (vm_call args)
  = Some ([("vm_state", PyStr state);
           ("vm_id", py_of_opt (vm_opt_vm_id args));
           ("vm_name", py_of_opt (vm_opt_vm_name args))]
          ++ opt_entry "vm_node" (set_when_truthy (py_of_opt (vm_opt_node args)))
          ++ opt_entry "memory" (option_map PyInt (vm_opt_memory args))
          ++ opt_entry "cores" (option_map PyInt (vm_opt_cores args))
          ++ opt_entry "disk_size" (option_map PyStr (vm_opt_disk_size args))
          ++ opt_entry "storage" (option_map PyStr (vm_opt_storage args))
          ++ opt_entry "template" (option_map PyStr (vm_opt_template args))
          ++ opt_entry "iso" (option_map PyStr (vm_opt_iso args)))%list.
Proof.
  intros Hop Htable. apply op_map_table in Htable.
  unfold vm_call_vars. rewrite vm_call_binds.
  unfold vm_call at 1. cbn [call_operation]. rewrite Hop. cbn [value_or].
  rewrite Htable. f_equal.
  destruct args as [op id name node memory cores disk storage template iso].
  cbn [vm_opt_vm_id vm_opt_vm_name vm_opt_node vm_opt_memory vm_opt_cores
       vm_opt_disk_size vm_opt_storage vm_opt_template vm_opt_iso].
  destruct node as [[|ch node]|], memory, cores, disk, storage, template, iso;
    reflexivity.
Qed.

Lemma vm_command_mapping_witness :
  vm_call_vars
    (vm_call (mkVmOptions (Some "create") (Some "100") (Some "test") None
                (Some 2048%Z) None None (Some "local-lvm") None None))
  = Some [("vm_state", PyStr "present"); ("vm_id", PyStr "100");
          ("vm_name", PyStr "test"); ("memory", PyInt 2048);
          ("storage", PyStr "local-lvm")].
Proof.
  exact (vm_command_mapping
           (mkVmOptions (Some "create") (Some "100") (Some "test") None
              (Some 2048%Z) None None (Some "local-lvm") None None)
           "create" "present" eq_refl ltac:(cbn; tauto)).
Defined.

(** X12: for every accepted [ct] command line the mapping given to the
    playbook is exactly: [ct_state] with the state mapped from the
    operation keyword, [ct_id] and [ct_hostname] (from [--hostname]; [None]
    when the option is absent), [ct_node] when [--node] is given and not
    empty, then those of [memory], [cores], [disk], [storage] and
    [ostemplate] that are given, in this order. *)
Theorem ct_command_mapping (args : ct_options) (operation state : string) :
  ct_operation args = Some operation ->
  In (operation, state)
     [("create", "present"); ("start", "started"); ("stop", "stopped");
      ("restart", "restarted"); ("delete", "absent")] ->
  ct_call_vars (ct_call args)
  = Some ([("ct_state", PyStr state);
           ("ct_id", py_of_opt (ct_opt_ct_id args));
           ("ct_hostname", py_of_opt (ct_opt_hostname args))]
          ++ opt_entry "ct_node" (set_when_truthy (py_of_opt (ct_opt_node args)))
          ++ opt_entry "memory" (option_map PyInt (ct_opt_memory args))
          ++ opt_entry "cores" (option_map PyInt (ct_opt_cores args))
          ++ opt_entry "disk" (option_map PyStr (ct_opt_disk args))
          ++ opt_entry "storage" (option_map PyStr (ct_opt_storage args))
          ++ opt_entry "ostemplate" (option_map PyStr (ct_opt_ostemplate args)))%list.
Proof.
  intros Hop Htable. apply op_map_table in Htable.
  unfold ct_call_vars. rewrite ct_call_binds.
  unfold ct_call at 1. cbn [call_operation]. rewrite Hop. cbn [value_or].
  rewrite Htable. f_equal.
  destruct args as [op id name node memory cores disk storage template].
  cbn [ct_opt_ct_id ct_opt_hostname ct_opt_node ct_opt_memory ct_opt_cores
       ct_opt_disk ct_opt_storage ct_opt_ostemplate].
  destruct node as [[|ch node]|], memory, cores, disk, storage, template;
    reflexivity.
Qed.

Lemma ct_command_mapping_witness :
  ct_call_vars
    (ct_call (mkCtOptions (Some "stop") (Some "200") None (Some "pve1")
                None None None None None))
  = Some [("ct_state", PyStr "stopped"); ("ct_id", PyStr "200");
          ("ct_hostname", PyNone); ("ct_node", PyStr "pve1")].
Proof.
  exact (ct_command_mapping
           (mkCtOptions (Some "stop") (Some "200") None (Some "pve1")
              None None None None None)
           "stop" "stopped" eq_refl ltac:(cbn; tauto)).
Defined.

(** X13: a [cluster] command line whose operation is absent or is none of
    status, create_cluster, join_cluster, leave_cluster and enable_ha is
    refused by [parse_args]: the program ends with status 2, prints
    nothing and starts no subprocess, so the cluster mapper is not
    reached. *)
Theorem cluster_command_refused (json_loads : string -> loads_outcome)
    (world : invocation -> run_outcome) (mgr : AnsibleManager)
    (o : cluster_options) :
  (forall operation, cluster_operation o = Some operation ->
     ~ In operation ["status"; "create_cluster"; "join_cluster"; "leave_cluster";
                     "enable_ha"]) ->
  main json_loads mgr (ClusterCommand o) world = (mkCli 2 [], []).
Proof.
  intros H. unfold main, accepted, required_choice.
  destruct (cluster_operation o) as [operation|]; [|reflexivity].
  unfold cluster_operations. now rewrite (in_list_false _ _ (H operation eq_refl)).
Qed.

Lemma cluster_command_refused_witness :
  main (fun _ => JSONDecodeError)
    (mkAnsibleManager "/a" "/a/inventory" "/a/playbooks"
       [("proxmox_cluster_manager", "/a/playbooks/proxmox_cluster_manager.yml")])
    (ClusterCommand (mkClusterOptions (Some "bogus") None None None))
    (fun _ => CompletedProcess 0 "" "")
  = (mkCli 2 [], []).
Proof.
  apply cluster_command_refused.
  intros operation [= <-]. cbn. intuition discriminate.
Defined.

(** ** The handler of [run] *)

Lemma in_list_playbooks (mgr : AnsibleManager) (name : string) :
  in_list name (list_playbooks mgr) = Dict.mem name (available_playbooks mgr).
Proof.
  unfold list_playbooks.
  destruct (Dict.mem name (available_playbooks mgr)) eqn:E.
  - apply in_list_true. now apply mem_keys.
  - apply in_list_false. intros H. apply mem_keys in H. congruence.
Qed.

Lemma build_command_any_segments (path : string) (extra_vars : pyvalue)
    (limit_hosts : option string) (tags : option (list string)) (verbose : bool) :
  build_command_any path extra_vars limit_hosts tags verbose
  = ("ansible-playbook" :: path
       :: segment verbose ["-vvv"]
       ++ segment (given_str limit_hosts) ["-l"; value_or "" limit_hosts]
       ++ segment (given_tags tags) ["-t"; PyStr.join "," (value_or [] tags)]
       ++ segment (truthy extra_vars) ["--extra-vars"; Json.dumps extra_vars])%list.
Proof.
  unfold build_command_any, segment, given_str, given_tags, value_or.
  cbn [truthy].
  destruct verbose;
    destruct limit_hosts as [l|]; [destruct (String.eqb l "")| | destruct (String.eqb l "")|];
    destruct tags as [[|t ts]|]; destruct (truthy extra_vars); reflexivity.
Qed.

(** What [handle_run_command] has as [extra_vars] after [--vars]: [None]
    when the option is absent or empty, the decoded value otherwise. *)
Lemma run_vars_absent (json_loads : string -> loads_outcome)
    (mgr : AnsibleManager) (args : run_options) (path : string) :
  Dict.get (value_or "" (opt_playbook args)) (available_playbooks mgr) = Some path ->
  given_str (opt_vars args) = false ->
  handle_run_command json_loads mgr args
  = (let first := "Running playbook: " ++ value_or "" (opt_playbook args) in
     r <- run_playbook_any mgr (value_or "" (opt_playbook args)) PyNone
            (opt_limit args) (run_tags args) (opt_verbose args) ;;
     ret (mkCli 0
            ([first;
              if fst r then "Playbook executed successfully."
              else "Playbook execution failed."]
             ++ output_section (snd r))%list)).
Proof.
  intros Hget Hvars. unfold handle_run_command.
  rewrite in_list_playbooks. unfold Dict.mem. rewrite Hget. cbn [negb].
  destruct (opt_vars args) as [text|]; [|reflexivity]. now rewrite Hvars.
Qed.

Lemma run_vars_decoded (json_loads : string -> loads_outcome)
    (mgr : AnsibleManager) (args : run_options) (path text : string)
    (decoded : loads_outcome) :
  Dict.get (value_or "" (opt_playbook args)) (available_playbooks mgr) = Some path ->
  opt_vars args = Some text -> text <> "" -> json_loads text = decoded ->
  handle_run_command json_loads mgr args
  = match decoded with
    | JSONDecodeError => ret (mkCli 1 ["Error: --vars must be a valid JSON string"])
    | OtherError => ret (mkCli 1 [])
    | Decoded extra_vars =>
        let first := "Running playbook: " ++ value_or "" (opt_playbook args) in
        r <- run_playbook_any mgr (value_or "" (opt_playbook args)) extra_vars
               (opt_limit args) (run_tags args) (opt_verbose args) ;;
        ret (mkCli 0
               ([first;
                 if fst r then "Playbook executed successfully."
                 else "Playbook execution failed."]
                ++ output_section (snd r))%list)
    end.
Proof.
  intros Hget Hvars Hne Hdec. unfold handle_run_command.
  rewrite in_list_playbooks. unfold Dict.mem. rewrite Hget. cbn [negb].
  rewrite Hvars. cbn [given_str]. apply String.eqb_neq in Hne. rewrite Hne.
  cbn [negb]. now rewrite Hdec.
Qed.

(** X14: for a playbook name the registry does not have, [run] prints the
    error and the names the registry has, ends with status 1, and starts no
    subprocess; [--vars] is not even decoded. *)
Theorem run_command_unknown_playbook (json_loads : string -> loads_outcome)
    (world : invocation -> run_outcome) (mgr : AnsibleManager) (args : run_options)
    (playbook : string) :
  opt_playbook args = Some playbook ->
  Dict.mem playbook (available_playbooks mgr) = false ->
  main json_loads mgr (RunCommand args) world
  = (mkCli 1 ["Error: Playbook '" ++ playbook ++ "' not found.";
              "Available playbooks: " ++ PyStr.join ", " (list_playbooks mgr)],
     []).
Proof.
  intros Hp Hmem. unfold main, accepted. rewrite Hp. cbn [negb].
  unfold handle_run_command. rewrite Hp. cbn [value_or].
  now rewrite in_list_playbooks, Hmem.
Qed.

Lemma run_command_unknown_playbook_witness :
  main (fun _ => JSONDecodeError)
    (mkAnsibleManager "/a" "/a/inventory" "/a/playbooks"
       [("site", "/a/playbooks/site.yml"); ("net", "/a/playbooks/net.yaml")])
    (RunCommand (mkRunOptions (Some "missing") (Some "not json") None None false))
    (fun _ => CompletedProcess 0 "" "")
  = (mkCli 1 ["Error: Playbook 'missing' not found.";
              "Available playbooks: site, net"], []).
Proof.
  exact (run_command_unknown_playbook (fun _ => JSONDecodeError)
           (fun _ => CompletedProcess 0 "" "")
           (mkAnsibleManager "/a" "/a/inventory" "/a/playbooks"
              [("site", "/a/playbooks/site.yml"); ("net", "/a/playbooks/net.yaml")])
           (mkRunOptions (Some "missing") (Some "not json") None None false)
           "missing" eq_refl eq_refl).
Defined.

(** X15: for a known playbook and a [--vars] text that is not empty and
    on which [json.loads] raises, [run] ends with status 1 and starts no
    subprocess.  When the exception is [JSONDecodeError] it prints one
    error line; any other exception is not caught, and nothing is
    printed. *)
Theorem run_command_malformed_vars (json_loads : string -> loads_outcome)
    (world : invocation -> run_outcome) (mgr : AnsibleManager) (args : run_options)
    (playbook text : string) :
  opt_playbook args = Some playbook ->
  Dict.mem playbook (available_playbooks mgr) = true ->
  opt_vars args = Some text -> text <> "" ->
  (forall v, json_loads text <> Decoded v) ->
  main json_loads mgr (RunCommand args) world
  = (mkCli 1 (match json_loads text with
              | JSONDecodeError => ["Error: --vars must be a valid JSON string"]
              | _ => []
              end), []).
Proof.
  intros Hp Hmem Hvars Hne Hdec. unfold main, accepted. rewrite Hp. cbn [negb].
  unfold Dict.mem in Hmem.
  destruct (Dict.get playbook (available_playbooks mgr)) as [path|] eqn:E;
    [|discriminate].
  rewrite (run_vars_decoded json_loads mgr args path text (json_loads text));
    try assumption; try reflexivity; [|rewrite Hp; exact E].
  destruct (json_loads text) as [v| |]; [|reflexivity|reflexivity].
  now contradiction (Hdec v).
Qed.

(** [{a: 1}] is no JSON; a literal of 4301 digits is JSON, but [int]
    refuses to convert it, with a [ValueError]. *)
Lemma run_command_malformed_vars_witness :
  let digits := String.concat "" (List.repeat "9" 4301) in
  let json_loads text :=
    if String.eqb text digits then OtherError else JSONDecodeError in
  let mgr := mkAnsibleManager "/a" "/a/inventory" "/a/playbooks"
               [("site", "/a/playbooks/site.yml")] in
  main json_loads mgr
    (RunCommand (mkRunOptions (Some "site") (Some "{a: 1}") None None false))
    (fun _ => CompletedProcess 0 "" "")
  = (mkCli 1 ["Error: --vars must be a valid JSON string"], [])
  /\ main json_loads mgr
       (RunCommand (mkRunOptions (Some "site") (Some digits) None None false))
       (fun _ => CompletedProcess 0 "" "")
     = (mkCli 1 [], []).
Proof.
  split.
  - exact (run_command_malformed_vars
             (fun text => if String.eqb text (String.concat "" (List.repeat "9" 4301))
                          then OtherError else JSONDecodeError)
             (fun _ => CompletedProcess 0 "" "")
             (mkAnsibleManager "/a" "/a/inventory" "/a/playbooks"
                [("site", "/a/playbooks/site.yml")])
             (mkRunOptions (Some "site") (Some "{a: 1}") None None false)
             "site" "{a: 1}" eq_refl eq_refl eq_refl ltac:(discriminate)
             ltac:(discriminate)).
  - exact (run_command_malformed_vars
             (fun text => if String.eqb text (String.concat "" (List.repeat "9" 4301))
                          then OtherError else JSONDecodeError)
             (fun _ => CompletedProcess 0 "" "")
             (mkAnsibleManager "/a" "/a/inventory" "/a/playbooks"
                [("site", "/a/playbooks/site.yml")])
             (mkRunOptions (Some "site")
                (Some (String.concat "" (List.repeat "9" 4301))) None None false)
             "site" (String.concat "" (List.repeat "9" 4301))
             eq_refl eq_refl eq_refl ltac:(discriminate)
             ltac:(intros v; vm_compute; discriminate)).
Defined.

(** X16: for a known playbook and a [--vars] text that [json.loads]
    decodes to a value of the model ([None], a boolean, an integer, a
    string, a list or a dictionary of such values) that [json.dumps] can
    write again, [run] starts exactly one subprocess and ends with status 0
    whatever the subprocess does; [--extra-vars] with the value serialised
    again is passed exactly when the value is truthy, also when it is no
    mapping (a list is passed on; an empty mapping, an empty list, zero and
    null are dropped); the last line printed is the output [run_playbook]
    returned. *)
Theorem run_command_runs (json_loads : string -> loads_outcome)
    (world : invocation -> run_outcome) (mgr : AnsibleManager) (args : run_options)
    (playbook path text : string) (extra_vars : pyvalue) :
  opt_playbook args = Some playbook ->
  Dict.get playbook (available_playbooks mgr) = Some path ->
  opt_vars args = Some text -> text <> "" ->
  json_loads text = Decoded extra_vars ->
  Json.serializable extra_vars = true ->
  let inv :=
    mkInvocation
      ("ansible-playbook" :: path
         :: segment (opt_verbose args) ["-vvv"]
         ++ segment (given_str (opt_limit args)) ["-l"; value_or "" (opt_limit args)]
         ++ segment (given_tags (run_tags args))
              ["-t"; PyStr.join "," (value_or [] (run_tags args))]
         ++ segment (truthy extra_vars) ["--extra-vars"; Json.dumps extra_vars])%list
      (os_path_join (ansible_path mgr) "ansible.cfg") (ansible_path mgr) in
  let run := main json_loads mgr (RunCommand args) in
  spawned run world = [inv]
  /\ exit_code (result_of run world) = 0%Z
  /\ exists verdict output,
       printed (result_of run world)
       = ["Running playbook: " ++ playbook; verdict; newline ++ "Output:";
          "======="; output]
       /\ (verdict, output)
          = match world inv with
            | CompletedProcess rc out err =>
                if Z.eqb rc 0 then ("Playbook executed successfully.", out)
                else ("Playbook execution failed.", "Error: " ++ err)
            | Raises description =>
                ("Playbook execution failed.", "Exception: " ++ description)
            end.
Proof.
  intros Hp Hget Hvars Hne Hdec _ inv run. subst run.
  unfold main, accepted, spawned, result_of. rewrite Hp. cbn [negb].
  rewrite (run_vars_decoded json_loads mgr args path text (Decoded extra_vars));
    try assumption; [|rewrite Hp; exact Hget].
  rewrite Hp. cbn [value_or]. unfold bind.
  rewrite (run_playbook_any_found world mgr playbook path _ _ _ _ Hget).
  unfold invocation_of. rewrite build_command_any_segments. fold inv.
  destruct (world inv) as [rc out err|description]; [destruct (Z.eqb rc 0)|];
    cbn; (split; [reflexivity|]); (split; [reflexivity|]);
    do 2 eexists; split; reflexivity.
Qed.

(** [json.loads] of the text [[1, 2]] is the list of 1 and 2. *)
Lemma run_command_runs_witness :
  let json_loads text :=
    if String.eqb text "[1, 2]" then Decoded (PyList [PyInt 1; PyInt 2])
    else JSONDecodeError in
  spawned
    (main json_loads
       (mkAnsibleManager "/a" "/a/inventory" "/a/playbooks"
          [("site", "/a/playbooks/site.yml")])
       (RunCommand (mkRunOptions (Some "site") (Some "[1, 2]") None
                      (Some "setup, net") false)))
    (fun _ => CompletedProcess 4 "" "failed")
  = [mkInvocation
       ["ansible-playbook"; "/a/playbooks/site.yml"; "-t"; "setup,net";
        "--extra-vars"; "[1, 2]"]
       "/a/ansible.cfg" "/a"].
Proof.
  exact (proj1
    (run_command_runs
       (fun text => if String.eqb text "[1, 2]"
                    then Decoded (PyList [PyInt 1; PyInt 2]) else JSONDecodeError)
       (fun _ => CompletedProcess 4 "" "failed")
       (mkAnsibleManager "/a" "/a/inventory" "/a/playbooks"
          [("site", "/a/playbooks/site.yml")])
       (mkRunOptions (Some "site") (Some "[1, 2]") None (Some "setup, net") false)
       "site" "/a/playbooks/site.yml" "[1, 2]" (PyList [PyInt 1; PyInt 2])
       eq_refl eq_refl eq_refl ltac:(discriminate) eq_refl eq_refl)).
Defined.

(** ** The exit status *)

Section Traces.
Variable world : invocation -> run_outcome.
Variable mgr : AnsibleManager.

Lemma run_playbook_any_trace (name : string) (extra_vars : pyvalue)
    (limit_hosts : option string) (tags : option (list string)) (verbose : bool) :
  List.length (snd (run_playbook_any mgr name extra_vars limit_hosts tags verbose
                      world)) <= 1.
Proof.
  destruct (Dict.get name (available_playbooks mgr)) as [path|] eqn:E.
  - rewrite (run_playbook_any_found world mgr name path _ _ _ _ E). cbn. lia.
  - rewrite (run_playbook_any_missing world mgr name _ _ _ _ E). cbn. lia.
Qed.

Lemma run_playbook_trace (name : string) (extra_vars : option pydict)
    (limit_hosts : option string) (tags : option (list string)) (verbose : bool) :
  List.length (snd (run_playbook mgr name extra_vars limit_hosts tags verbose
                      world)) <= 1.
Proof. rewrite <- run_playbook_any_vars. apply run_playbook_any_trace. Qed.

Lemma mapper_traces (operation : string) (a1 a2 a3 a4 : pyvalue) (kwargs : pydict) :
  List.length (snd (run_vm_management mgr operation a1 a2 a3 kwargs world)) <= 1
  /\ List.length (snd (run_container_management mgr operation a1 a2 a3 kwargs world))
     <= 1
  /\ List.length (snd (run_cluster_management mgr operation a1 a2 a3 kwargs world))
     <= 1
  /\ List.length (snd (run_backup_management mgr operation a1 a2 a3 a4 kwargs world))
     <= 1.
Proof.
  unfold run_vm_management, run_container_management, run_cluster_management,
    run_backup_management.
  repeat split.
  - destruct (Dict.get operation op_map); [apply run_playbook_trace | cbn; lia].
  - destruct (Dict.get operation op_map); [apply run_playbook_trace | cbn; lia].
  - apply run_playbook_trace.
  - destruct (negb (in_list operation valid_operations));
      [cbn; lia | apply run_playbook_trace].
Qed.

(** A handler whose call binds ends with status 0 and starts what the
    mapper starts. *)
Lemma report_call_exit (first success failure : string) (run : Proc result) :
  exit_code (fst (report_call first success failure (Some run) world)) = 0%Z.
Proof.
  unfold report_call, bind, ret. now destruct (run world) as [r t].
Qed.

Lemma report_call_trace (first success failure : string) (run : Proc result) :
  snd (report_call first success failure (Some run) world) = snd (run world).
Proof.
  unfold report_call, bind, ret. destruct (run world) as [r t]. cbn.
  apply List.app_nil_r.
Qed.

Lemma handle_run_command_status (json_loads : string -> loads_outcome)
    (args : run_options) :
  exit_code (fst (handle_run_command json_loads mgr args world))
  = (if negb (in_list (value_or "" (opt_playbook args)) (list_playbooks mgr))
     then 1
     else match opt_vars args with
          | Some text =>
              if given_str (opt_vars args)
              then match json_loads text with Decoded _ => 0 | _ => 1 end
              else 0
          | None => 0
          end)%Z
  /\ List.length (snd (handle_run_command json_loads mgr args world)) <= 1.
Proof.
  unfold handle_run_command.
  destruct (negb (in_list _ (list_playbooks mgr))); [cbn; split; [reflexivity|lia]|].
  set (decoded := match opt_vars args with
                  | Some text => if given_str (opt_vars args)
                                 then json_loads text else Decoded PyNone
                  | None => Decoded PyNone
                  end).
  assert (match decoded with Decoded _ => 0%Z | _ => 1%Z end
          = match opt_vars args with
            | Some text =>
                if given_str (opt_vars args)
                then match json_loads text with Decoded _ => 0 | _ => 1 end
                else 0
            | None => 0
            end)%Z as <-.
  { subst decoded. destruct (opt_vars args); [|reflexivity].
    now destruct (given_str (Some s)). }
  destruct decoded as [extra_vars| |]; try (cbn; split; [reflexivity|lia]).
  unfold bind, ret.
  pose proof (run_playbook_any_trace (value_or "" (opt_playbook args)) extra_vars
                (opt_limit args) (run_tags args) (opt_verbose args)) as Hlen.
  destruct (run_playbook_any _ _ _ _ _ _ world) as [r t]. cbn in *.
  split; [reflexivity | rewrite List.app_nil_r; exact Hlen].
Qed.

End Traces.

(** X17: the exit status of the program does not depend on what the
    subprocess does: it is 2 when [parse_args] refuses the command line, 1
    when no sub-command is given, 0 for every accepted [list], [vm], [ct],
    [cluster] and [backup] command line, also when the operation fails, and
    for [run] it is decided by the registry and by [--vars] alone.  No
    command line starts more than one subprocess. *)
Theorem exit_status_ignores_subprocess (json_loads : string -> loads_outcome)
    (mgr : AnsibleManager) (cl : command_line)
    (world world' : invocation -> run_outcome) :
  let status w := exit_code (result_of (main json_loads mgr cl) w) in
  status world = status world'
  /\ List.length (spawned (main json_loads mgr cl) world) <= 1
  /\ (accepted cl = false -> status world = 2%Z)
  /\ (accepted cl = true ->
      match cl with
      | NoCommand => status world = 1%Z
      | RunCommand _ => status world = 0%Z \/ status world = 1%Z
      | _ => status world = 0%Z
      end).
Proof.
  intros status. subst status. unfold result_of, spawned, main.
  destruct (accepted cl) eqn:Hacc; cbn [negb];
    [|cbn; repeat split; try lia; discriminate].
  destruct cl as [| |o|o|o|o|o].
  - cbn. repeat split; try lia; discriminate.
  - unfold handle_list_command.
    destruct (list_playbooks mgr); cbn; repeat split; try lia; discriminate.
  - destruct (handle_run_command_status world mgr json_loads o) as [H1 H2].
    destruct (handle_run_command_status world' mgr json_loads o) as [H1' _].
    rewrite H1, H1'. repeat split; [exact H2 | discriminate |].
    intros _. destruct (negb _); [now right|].
    destruct (opt_vars o); [|now left].
    destruct (given_str (Some s)); [|now left].
    destruct (json_loads s); [now left | now right | now right].
  - unfold handle_vm_command, call_run_vm_management. rewrite vm_call_binds.
    rewrite !report_call_exit, report_call_trace.
    repeat split; try discriminate. apply (mapper_traces world mgr _ _ _ _ PyNone).
  - unfold handle_ct_command, call_run_container_management. rewrite ct_call_binds.
    rewrite !report_call_exit, report_call_trace.
    repeat split; try discriminate. apply (mapper_traces world mgr _ _ _ _ PyNone).
  - unfold handle_cluster_command, call_run_cluster_management.
    rewrite cluster_call_binds.
    rewrite !report_call_exit, report_call_trace.
    repeat split; try discriminate. apply (mapper_traces world mgr _ _ _ _ PyNone).
  - unfold handle_backup_command_cli, handle_backup_command,
      call_run_backup_management.
    rewrite (proj1 (backup_call_kwargs o)).
    rewrite !report_call_exit, report_call_trace.
    repeat split; try discriminate. apply (mapper_traces world mgr).
Qed.

(** ** Tags: [split] and [strip] *)

Lemma split_cons (sep : ascii) (s : string) :
  exists piece pieces, PyText.split sep s = piece :: pieces.
Proof.
  destruct s as [|c s]; cbn; [now eauto|].
  destruct (Ascii.eqb c sep); [now eauto|].
  destruct (PyText.split sep s); now eauto.
Qed.

Lemma join_cons_char (sep : string) (c : ascii) (piece : string)
    (pieces : list string) :
  PyStr.join sep (String c piece :: pieces) = String c (PyStr.join sep (piece :: pieces)).
Proof. destruct pieces; reflexivity. Qed.

Lemma join_split (s : string) : PyStr.join "," (PyText.split "," s) = s.
Proof.
  induction s as [|c s IH]; [reflexivity|]. cbn [PyText.split].
  destruct (Ascii.eqb c ",") eqn:E.
  - apply Ascii.eqb_eq in E. subst c.
    destruct (split_cons "," s) as (piece & pieces & Hs). rewrite Hs in *.
    rewrite join_more. cbn [append]. now rewrite IH.
  - destruct (split_cons "," s) as (piece & pieces & Hs). rewrite Hs in *.
    now rewrite join_cons_char, IH.
Qed.

Lemma lstrip_first (s : string) (c : ascii) :
  PyText.first_char (PyText.lstrip s) = Some c -> PyText.isspace c = false.
Proof.
  induction s as [|x s IH]; cbn [PyText.lstrip]; [discriminate|].
  destruct (PyText.isspace x) eqn:E; [exact IH|].
  cbn. now intros [= <-].
Qed.

Lemma rstrip_last (s : string) (c : ascii) :
  PyText.last_char (PyText.rstrip s) = Some c -> PyText.isspace c = false.
Proof.
  induction s as [|x s IH]; cbn [PyText.rstrip]; [discriminate|].
  destruct (PyText.rstrip s) as [|y r].
  - destruct (PyText.isspace x) eqn:E; cbn; [discriminate|]. now intros [= <-].
  - exact IH.
Qed.

Lemma rstrip_first (s : string) (c : ascii) :
  PyText.first_char (PyText.rstrip s) = Some c -> PyText.first_char s = Some c.
Proof.
  destruct s as [|x s]; cbn [PyText.rstrip]; [discriminate|].
  destruct (PyText.rstrip s) as [|y r]; [|exact (fun H => H)].
  destruct (PyText.isspace x); [discriminate | exact (fun H => H)].
Qed.

Lemma lstrip_split (s : string) :
  exists front, s = front ++ PyText.lstrip s
                /\ Json.all_chars PyText.isspace front = true.
Proof.
  induction s as [|x s (front & Hs & Hf)]; [now exists ""|].
  cbn [PyText.lstrip]. destruct (PyText.isspace x) eqn:E.
  - exists (String x front). cbn. rewrite E, Hf. split; [now f_equal | reflexivity].
  - now exists "".
Qed.

Lemma rstrip_split (s : string) :
  exists back, s = PyText.rstrip s ++ back
               /\ Json.all_chars PyText.isspace back = true.
Proof.
  induction s as [|x s (back & Hs & Hb)]; [now exists ""|].
  cbn [PyText.rstrip]. destruct (PyText.rstrip s) as [|y r] eqn:Er.
  - destruct (PyText.isspace x) eqn:E.
    + exists (String x back). cbn in *. rewrite E, Hb. split; [now f_equal | reflexivity].
    + exists back. cbn in *. split; [now f_equal | exact Hb].
  - exists back. cbn in *. split; [now f_equal | exact Hb].
Qed.

Lemma strip_stripped (s : string) : PyText.stripped (PyText.strip s).
Proof.
  unfold PyText.stripped, PyText.strip. split; intros c H.
  - apply rstrip_first in H. now apply lstrip_first in H.
  - now apply rstrip_last in H.
Qed.

Lemma rstrip_no_space (s : string) :
  Json.all_chars (fun c => negb (PyText.isspace c)) s = true -> PyText.rstrip s = s.
Proof.
  induction s as [|x s IH]; [reflexivity|]. cbn [Json.all_chars PyText.rstrip].
  intros H. apply andb_true_iff in H as [Hx Hs]. rewrite (IH Hs).
  destruct s; [|reflexivity]. apply negb_true_iff in Hx. now rewrite Hx.
Qed.

Lemma strip_no_space (s : string) :
  Json.all_chars (fun c => negb (PyText.isspace c)) s = true -> PyText.strip s = s.
Proof.
  intros H. unfold PyText.strip.
  assert (PyText.lstrip s = s) as ->; [|now apply rstrip_no_space].
  destruct s as [|x s]; [reflexivity|]. cbn in *.
  apply andb_true_iff in H as [Hx _]. apply negb_true_iff in Hx. now rewrite Hx.
Qed.

Lemma split_no_space (s : string) :
  Json.all_chars (fun c => negb (PyText.isspace c)) s = true ->
  forall piece, In piece (PyText.split "," s) ->
                Json.all_chars (fun c => negb (PyText.isspace c)) piece = true.
Proof.
  induction s as [|x s IH]; cbn [PyText.split Json.all_chars].
  - intros _ piece [<-|[]]. reflexivity.
  - intros H. apply andb_true_iff in H as [Hx Hs]. specialize (IH Hs).
    destruct (Ascii.eqb x ",").
    + intros piece [<-|Hin]; [reflexivity | now apply IH].
    + destruct (PyText.split "," s) as [|p ps].
      * intros piece [<-|[]]. cbn. now rewrite Hx.
      * intros piece [<-|Hin].
        -- cbn. rewrite Hx. apply IH. now left.
        -- apply IH. now right.
Qed.

(** X18: joining with commas the pieces that [split(",")] cuts a text into
    gives the text back. *)
Theorem split_then_join (s : string) :
  PyStr.join "," (PyText.split "," s) = s
  /\ PyText.split "," s <> [].
Proof.
  split; [apply join_split|].
  destruct (split_cons "," s) as (piece & pieces & ->). discriminate.
Qed.

(** X19: [strip] removes whitespace from the two ends and nothing else:
    the text is some whitespace, the stripped text, and some whitespace,
    and the stripped text neither starts nor ends with whitespace. *)
Theorem strip_removes_outer_whitespace (s : string) :
  (exists front back,
      s = front ++ PyText.strip s ++ back
      /\ Json.all_chars PyText.isspace front = true
      /\ Json.all_chars PyText.isspace back = true)
  /\ PyText.stripped (PyText.strip s).
Proof.
  split; [|apply strip_stripped].
  destruct (lstrip_split s) as (front & Hs & Hf).
  destruct (rstrip_split (PyText.lstrip s)) as (back & Hl & Hb).
  exists front, back. unfold PyText.strip. now rewrite <- Hl, <- Hs.
Qed.

(** X20: a [--tags] text that is not empty always gives [run_playbook] a
    list of tags that is not empty, so that [-t] is passed; every tag in
    it is stripped of outer whitespace; and when the text holds no
    whitespace at all, the argument of [-t] is the text itself. *)
Theorem run_tags_of_text (args : run_options) (text : string) :
  opt_tags args = Some text -> text <> "" ->
  exists first rest,
    run_tags args = Some (first :: rest)
    /\ given_tags (run_tags args) = true
    /\ (forall tag, In tag (first :: rest) -> PyText.stripped tag)
    /\ (Json.all_chars (fun c => negb (PyText.isspace c)) text = true ->
        PyStr.join "," (first :: rest) = text).
Proof.
  intros Ht Hne. unfold run_tags. rewrite Ht. cbn [given_str].
  apply String.eqb_neq in Hne. rewrite Hne. cbn [negb].
  destruct (split_cons "," text) as (piece & pieces & Hs).
  exists (PyText.strip piece), (map PyText.strip pieces).
  rewrite Hs. cbn [map].
  split; [reflexivity|]. split; [reflexivity|]. split.
  - intros tag Hin.
    change (In tag (map PyText.strip (piece :: pieces))) in Hin.
    apply in_map_iff in Hin as (x & <- & _). apply strip_stripped.
  - intros Hclean.
    change (PyStr.join "," (map PyText.strip (piece :: pieces)) = text).
    rewrite <- Hs.
    rewrite (map_ext_in PyText.strip (fun x => x)).
    + rewrite map_id. apply join_split.
    + intros x Hx. apply strip_no_space. now apply (split_no_space text).
Qed.

Lemma run_tags_of_text_witness :
  exists first rest,
    run_tags (mkRunOptions (Some "site") None None (Some " setup , net") false)
    = Some (first :: rest)
    /\ PyStr.join "," (first :: rest) = "setup,net".
Proof.
  destruct (run_tags_of_text
              (mkRunOptions (Some "site") None None (Some " setup , net") false)
              " setup , net" eq_refl ltac:(discriminate))
    as (first & rest & Htags & _).
  exists first, rest. split; [exact Htags|].
  cbv in Htags. injection Htags as <- <-. reflexivity.
Defined.

(** ** The handler of [list] *)

Lemma nth_error_enumerate {A} (line : nat * A -> string) (items : list A)
    (start i : nat) (x : A) :
  nth_error items i = Some x ->
  nth_error (map line (PyText.enumerate start items)) i = Some (line (start + i, x)).
Proof.
  revert start i. induction items as [|y items IH]; intros start i H.
  - now destruct i.
  - destruct i as [|i]; cbn in *.
    + injection H as ->. now rewrite Nat.add_0_r.
    + rewrite (IH (S start) i H). do 3 f_equal. lia.
Qed.

Lemma length_enumerate {A} (items : list A) (start : nat) :
  List.length (PyText.enumerate start items) = List.length items.
Proof.
  revert start. induction items as [|y items IH]; intros start; cbn;
    [reflexivity | now rewrite IH].
Qed.

(** X21: [list] always ends with status 0.  For an empty registry it
    prints the one line "No Ansible playbooks found."; otherwise it prints
    a title, a rule, one line per name and an empty line, where the line of
    the name at position [i] of [list_playbooks] (from 0) is the number
    [i + 1], a dot, a space and the name. *)
Theorem list_command_numbers_names (mgr : AnsibleManager) :
  exit_code (handle_list_command mgr) = 0%Z
  /\ (list_playbooks mgr = [] ->
      printed (handle_list_command mgr) = ["No Ansible playbooks found."])
  /\ (list_playbooks mgr <> [] ->
      List.length (printed (handle_list_command mgr))
      = List.length (list_playbooks mgr) + 3
      /\ forall i name,
           nth_error (list_playbooks mgr) i = Some name ->
           nth_error (printed (handle_list_command mgr)) (2 + i)
           = Some (PyText.str_of_nat (i + 1) ++ ". " ++ name)).
Proof.
  unfold handle_list_command.
  destruct (list_playbooks mgr) as [|first rest] eqn:E.
  - split; [reflexivity|]. split; [reflexivity|]. intros H. congruence.
  - split; [reflexivity|]. split; [discriminate|]. intros _. cbn [printed]. split.
    + cbn [List.length app]. rewrite length_app, length_map, length_enumerate.
      cbn [List.length]. lia.
    + intros i name Hnth. cbn [app nth_error Nat.add].
      rewrite nth_error_app1.
      * rewrite (nth_error_enumerate _ (first :: rest) 1 i name Hnth).
        cbn [fst snd]. now rewrite (Nat.add_comm 1 i).
      * rewrite length_map, length_enumerate.
        apply nth_error_Some. congruence.
Qed.

(** ** The fields of the [backup] command line *)

Lemma backup_call_schedule (args : backup_options) :
  let kw := kwargs_of backup_params (backup_call args) in
  Dict.get "schedule_hour" kw = option_map PyStr (opt_schedule_hour args)
  /\ Dict.get "schedule_minute" kw = option_map PyStr (opt_schedule_minute args)
  /\ Dict.get "schedule_day" kw = option_map PyStr (opt_schedule_day args)
  /\ Dict.get "schedule_month" kw = option_map PyStr (opt_schedule_month args)
  /\ Dict.get "schedule_weekday" kw = option_map PyStr (opt_schedule_weekday args).
Proof.
  destruct args as [op vm bk st nd mode comp h mi d mo w].
  destruct h, mi, d, mo, w, mode as [[|? ?]|], comp as [[|? ?]|];
    repeat split; reflexivity.
Qed.

Lemma backup_vars_schedule (operation : string) (a1 a2 a3 a4 : pyvalue)
    (kwargs : pydict) (k : string) :
  In k ["schedule_hour"; "schedule_minute"; "schedule_day"; "schedule_month";
        "schedule_weekday"] ->
  NoDup (Dict.keys kwargs) ->
  Dict.get k (backup_extra_vars operation a1 a2 a3 a4 kwargs) = Dict.get k kwargs.
Proof.
  intros Hk Hnd. unfold backup_extra_vars.
  destruct (Dict.get k kwargs) as [v|] eqn:E.
  - now apply get_update_in.
  - rewrite get_update_other by exact E.
    destruct Hk as [<-|[<-|[<-|[<-|[<-|[]]]]]];
      destruct (truthy a1), (truthy a2), (truthy a3), (truthy a4); reflexivity.
Qed.

(** X22: every accepted [backup] command line builds a mapping in which
    [operation] is the operation keyword; [vm_id], [backup_id], [storage]
    and [node] are present exactly when the option is given and not empty;
    and each of the five schedule fields is present exactly when its option
    is given, with the text as given, also when that text is empty. *)
Theorem backup_command_fields (o args : backup_options) :
  parse_backup_args o = Some args ->
  exists ev,
    backup_cli_vars o = Some ev
    /\ Dict.get "operation" ev = option_map PyStr (opt_operation o)
    /\ Dict.get "vm_id" ev = set_when_truthy (py_of_opt (opt_vm_id o))
    /\ Dict.get "backup_id" ev = set_when_truthy (py_of_opt (opt_backup_id o))
    /\ Dict.get "storage" ev = set_when_truthy (py_of_opt (opt_storage o))
    /\ Dict.get "node" ev = set_when_truthy (py_of_opt (opt_node o))
    /\ Dict.get "schedule_hour" ev = option_map PyStr (opt_schedule_hour o)
    /\ Dict.get "schedule_minute" ev = option_map PyStr (opt_schedule_minute o)
    /\ Dict.get "schedule_day" ev = option_map PyStr (opt_schedule_day o)
    /\ Dict.get "schedule_month" ev = option_map PyStr (opt_schedule_month o)
    /\ Dict.get "schedule_weekday" ev = option_map PyStr (opt_schedule_weekday o).
Proof.
  intros Hparse. pose proof Hparse as Hinv.
  apply parse_backup_args_inv in Hinv as (-> & (op & Hop & Hvalid) & _ & _).
  destruct (backup_call_kwargs o) as (Hbinds & _ & _).
  destruct (backup_call_schedule o) as (S1 & S2 & S3 & S4 & S5).
  pose proof (kwargs_nodup (backup_call o) Hbinds backup_params) as Hnd.
  exists (backup_extra_vars op (arg "vm_id" (backup_call o))
            (arg "backup_id" (backup_call o)) (arg "storage" (backup_call o))
            (arg "node" (backup_call o)) (kwargs_of backup_params (backup_call o))).
  split.
  { unfold backup_cli_vars. rewrite Hparse. unfold backup_call_vars.
    rewrite Hbinds. unfold backup_call at 1 2. cbn [call_operation].
    rewrite Hop, Hvalid. reflexivity. }
  assert (Dict.get "operation" (kwargs_of backup_params (backup_call o)) = None)
    as K0.
  { rewrite kwargs_get. change (in_list "operation" backup_params) with false.
    cbv iota. now apply call_no_operation_keyword. }
  destruct (backup_vars_base op (arg "vm_id" (backup_call o))
              (arg "backup_id" (backup_call o)) (arg "storage" (backup_call o))
              (arg "node" (backup_call o)) (kwargs_of backup_params (backup_call o)))
    as (B0 & B1 & B2 & B3 & B4);
    try exact K0; try (rewrite kwargs_get; reflexivity).
  rewrite Hop. cbn [option_map].
  split; [exact B0|]. split; [exact B1|]. split; [exact B2|].
  split; [exact B3|]. split; [exact B4|].
  rewrite <- S1, <- S2, <- S3, <- S4, <- S5.
  repeat split; apply backup_vars_schedule; try exact Hnd; cbn; tauto.
Qed.

Lemma backup_command_fields_witness :
  exists ev,
    backup_cli_vars
      (mkBackupOptions (Some "schedule") (Some "100") None (Some "") None
         None None (Some "2") (Some "") None None None)
    = Some ev
    /\ Dict.get "vm_id" ev = Some (PyStr "100")
    /\ Dict.get "storage" ev = None
    /\ Dict.get "schedule_hour" ev = Some (PyStr "2")
    /\ Dict.get "schedule_minute" ev = Some (PyStr "")
    /\ Dict.get "schedule_day" ev = None.
Proof.
  destruct (backup_command_fields
              (mkBackupOptions (Some "schedule") (Some "100") None (Some "") None
                 None None (Some "2") (Some "") None None None) _ eq_refl)
    as (ev & Hev & _ & Hvm & _ & Hst & _ & Hh & Hm & Hd & _).
  exists ev. repeat split; assumption.
Defined.

(** X23: when [--vars] is absent or empty, [run] does not consult
    [json.loads] and passes no [--extra-vars]: for a known playbook the
    one subprocess is [ansible-playbook] with the path and the optional
    [-vvv], [-l] and [-t] groups. *)
Theorem run_command_without_vars (json_loads : string -> loads_outcome)
    (world : invocation -> run_outcome) (mgr : AnsibleManager) (args : run_options)
    (playbook path : string) :
  opt_playbook args = Some playbook ->
  Dict.get playbook (available_playbooks mgr) = Some path ->
  given_str (opt_vars args) = false ->
  spawned (main json_loads mgr (RunCommand args)) world
  = [mkInvocation
       ("ansible-playbook" :: path
          :: segment (opt_verbose args) ["-vvv"]
          ++ segment (given_str (opt_limit args)) ["-l"; value_or "" (opt_limit args)]
          ++ segment (given_tags (run_tags args))
               ["-t"; PyStr.join "," (value_or [] (run_tags args))])%list
       (os_path_join (ansible_path mgr) "ansible.cfg") (ansible_path mgr)]
  /\ exit_code (result_of (main json_loads mgr (RunCommand args)) world) = 0%Z.
Proof.
  intros Hp Hget Hvars. unfold main, accepted, spawned, result_of.
  rewrite Hp. cbn [negb].
  rewrite (run_vars_absent json_loads mgr args path);
    [|rewrite Hp; exact Hget | exact Hvars].
  rewrite Hp. cbn [value_or]. unfold bind.
  rewrite (run_playbook_any_found world mgr playbook path _ _ _ _ Hget).
  unfold invocation_of. rewrite build_command_any_segments.
  cbn [truthy segment]. rewrite !List.app_nil_r.
  destruct (world _) as [rc out err|description]; [destruct (Z.eqb rc 0)|];
    split; reflexivity.
Qed.

Lemma run_command_without_vars_witness :
  spawned
    (main (fun _ => JSONDecodeError)
       (mkAnsibleManager "/a" "/a/inventory" "/a/playbooks"
          [("site", "/a/playbooks/site.yml")])
       (RunCommand (mkRunOptions (Some "site") (Some "") (Some "pve1") None true)))
    (fun _ => CompletedProcess 0 "done" "")
  = [mkInvocation
       ["ansible-playbook"; "/a/playbooks/site.yml"; "-vvv"; "-l"; "pve1"]
       "/a/ansible.cfg" "/a"].
Proof.
  exact (proj1
    (run_command_without_vars (fun _ => JSONDecodeError) (fun _ => CompletedProcess 0 "done" "")
       (mkAnsibleManager "/a" "/a/inventory" "/a/playbooks"
          [("site", "/a/playbooks/site.yml")])
       (mkRunOptions (Some "site") (Some "") (Some "pve1") None true)
       "site" "/a/playbooks/site.yml" eq_refl eq_refl eq_refl)).
Defined.

(* ================================================================== *)
(** * The argument of [--extra-vars], read back *)
(* ================================================================== *)

(** ** Escapes of code points *)

Lemma hex_value_digit (k : nat) :
  (k < 16)%nat -> Json.hex_value (Json.hex_digit k) = Some k.
Proof.
  intros H. do 16 (destruct k as [|k]; [reflexivity|]). lia.
Qed.

Lemma hex4_text_value (n : Z) :
  (0 <= n < 65536)%Z ->
  JsonFull.hex4 (JsonFull.hex_digit (n / 4096)) (JsonFull.hex_digit (n / 256 mod 16))
    (JsonFull.hex_digit (n / 16 mod 16)) (JsonFull.hex_digit (n mod 16))
  = Some n.
Proof.
  intros H. unfold JsonFull.hex4, Json.hex4, JsonFull.hex_digit.
  assert (0 <= n / 4096 < 16)%Z as H3 by (Z.to_euclidean_division_equations; lia).
  assert (0 <= n / 256 mod 16 < 16)%Z as H2 by (Z.to_euclidean_division_equations; lia).
  assert (0 <= n / 16 mod 16 < 16)%Z as H1 by (Z.to_euclidean_division_equations; lia).
  assert (0 <= n mod 16 < 16)%Z as H0 by (Z.to_euclidean_division_equations; lia).
  rewrite !hex_value_digit by lia. cbn [option_map]. f_equal.
  rewrite !Nat2Z.inj_add, !Nat2Z.inj_mul, !Z2Nat.id by lia.
  Z.to_euclidean_division_equations; lia.
Qed.

Lemma scan_string_u (h1 h2 h3 h4 : ascii) (rest : string) :
  JsonFull.scan_string
    (String Json.backslash (String "u" (String h1 (String h2 (String h3 (String h4 rest))))))
  = match JsonFull.hex4 h1 h2 h3 h4 with
    | None => None
    | Some uni =>
        if JsonFull.is_high_surrogate uni then
          match rest with
          | String b (String u r1) =>
              if Ascii.eqb b Json.backslash && Ascii.eqb u "u" then
                match r1 with
                | String k1 (String k2 (String k3 (String k4 rest2))) =>
                    match JsonFull.hex4 k1 k2 k3 k4 with
                    | None => None
                    | Some uni2 =>
                        if JsonFull.is_low_surrogate uni2
                        then JsonFull.cons_point
                               (65536 + ((uni - 55296) * 1024 + (uni2 - 56320)))%Z
                               (JsonFull.scan_string rest2)
                        else JsonFull.cons_point uni (JsonFull.scan_string rest)
                    end
                | _ => None
                end
              else JsonFull.cons_point uni (JsonFull.scan_string rest)
          | _ => JsonFull.cons_point uni (JsonFull.scan_string rest)
          end
        else JsonFull.cons_point uni (JsonFull.scan_string rest)
    end.
Proof. reflexivity. Qed.

(** The escape of a code point that needs no second escape. *)
Lemma scan_u_escape (n : Z) (rest : string) :
  (0 <= n < 65536)%Z ->
  (JsonFull.is_high_surrogate n = true -> JsonFull.no_low_escape rest = true) ->
  JsonFull.scan_string (JsonFull.u_escape n ++ rest)
  = JsonFull.cons_point n (JsonFull.scan_string rest).
Proof.
  intros Hn Hrest. unfold JsonFull.u_escape, JsonFull.hex4_text.
  cbn [append]. rewrite scan_string_u, hex4_text_value by exact Hn.
  destruct (JsonFull.is_high_surrogate n); [|reflexivity].
  specialize (Hrest eq_refl). unfold JsonFull.no_low_escape in Hrest.
  destruct rest as [|b [|u r1]]; try reflexivity.
  destruct (Ascii.eqb b Json.backslash && Ascii.eqb u "u"); [|reflexivity].
  destruct r1 as [|k1 [|k2 [|k3 [|k4 rest2]]]]; try discriminate.
  destruct (JsonFull.hex4 k1 k2 k3 k4) as [uni2|]; [|discriminate].
  now destruct (JsonFull.is_low_surrogate uni2).
Qed.

(** The two escapes of a code point above 0xFFFF. *)
Lemma scan_u_pair (n : Z) (rest : string) :
  (65536 <= n < 1114112)%Z ->
  JsonFull.scan_string
    (JsonFull.u_escape (55296 + (n - 65536) / 1024)
     ++ JsonFull.u_escape (56320 + (n - 65536) mod 1024) ++ rest)
  = JsonFull.cons_point n (JsonFull.scan_string rest).
Proof.
  intros Hn. unfold JsonFull.u_escape at 1. unfold JsonFull.hex4_text at 1.
  cbn [append]. rewrite scan_string_u.
  rewrite hex4_text_value by (Z.to_euclidean_division_equations; lia).
  assert (JsonFull.is_high_surrogate (55296 + (n - 65536) / 1024) = true) as ->.
  { unfold JsonFull.is_high_surrogate. apply andb_true_iff.
    split; [apply Z.leb_le | apply Z.leb_le];
      Z.to_euclidean_division_equations; lia. }
  unfold JsonFull.u_escape, JsonFull.hex4_text. cbn [append].
  rewrite Ascii.eqb_refl. cbn [andb Ascii.eqb Bool.eqb].
  rewrite hex4_text_value by (Z.to_euclidean_division_equations; lia).
  assert (JsonFull.is_low_surrogate (56320 + (n - 65536) mod 1024) = true) as ->.
  { unfold JsonFull.is_low_surrogate. apply andb_true_iff.
    split; [apply Z.leb_le | apply Z.leb_le];
      Z.to_euclidean_division_equations; lia. }
  f_equal. Z.to_euclidean_division_equations; lia.
Qed.

(** A code point below 256, whatever follows. *)
Lemma scan_escape_small (c : ascii) (rest : string) :
  JsonFull.scan_string (JsonFull.escape_point (JsonFull.code c) ++ rest)
  = JsonFull.cons_point (JsonFull.code c) (JsonFull.scan_string rest).
Proof.
  destruct c as [[|] [|] [|] [|] [|] [|] [|] [|]]; reflexivity.
Qed.

Lemma no_low_escape_small (c : ascii) (rest : string) :
  JsonFull.no_low_escape (JsonFull.escape_point (JsonFull.code c) ++ rest) = true.
Proof.
  destruct c as [[|] [|] [|] [|] [|] [|] [|] [|]];
    try reflexivity; destruct rest; reflexivity.
Qed.

Lemma code_of_small (n : Z) :
  (0 <= n < 256)%Z -> JsonFull.code (ascii_of_nat (Z.to_nat n)) = n.
Proof.
  intros H. unfold JsonFull.code. rewrite nat_ascii_embedding by lia. lia.
Qed.

Lemma escape_point_bmp (n : Z) :
  (127 <= n < 65536)%Z -> JsonFull.escape_point n = JsonFull.u_escape n.
Proof.
  intros H. unfold JsonFull.escape_point.
  repeat match goal with
         | |- context [(n =? ?k)%Z] =>
             destruct (Z.eqb_spec n k); [lia|]
         end.
  destruct (Z.leb_spec n 126); [lia|]. rewrite andb_false_r.
  destruct (Z.ltb_spec n 65536); [reflexivity | lia].
Qed.

Lemma escape_point_astral (n : Z) :
  (65536 <= n)%Z ->
  JsonFull.escape_point n
  = JsonFull.u_escape (55296 + (n - 65536) / 1024)
    ++ JsonFull.u_escape (56320 + (n - 65536) mod 1024).
Proof.
  intros H. unfold JsonFull.escape_point.
  repeat match goal with
         | |- context [(n =? ?k)%Z] =>
             destruct (Z.eqb_spec n k); [lia|]
         end.
  destruct (Z.leb_spec n 126); [lia|]. rewrite andb_false_r.
  destruct (Z.ltb_spec n 65536); [lia | reflexivity].
Qed.

Lemma valid_point_range (n : Z) :
  JsonFull.valid_point n = true -> (0 <= n < 1114112)%Z.
Proof.
  unfold JsonFull.valid_point. intros H. apply andb_true_iff in H as [H1 H2].
  apply Z.leb_le in H1. apply Z.ltb_lt in H2. lia.
Qed.

Lemma high_surrogate_range (n : Z) :
  JsonFull.is_high_surrogate n = true -> (55296 <= n <= 56319)%Z.
Proof.
  unfold JsonFull.is_high_surrogate. intros H. apply andb_true_iff in H as [H1 H2].
  apply Z.leb_le in H1. apply Z.leb_le in H2. lia.
Qed.

(** One code point, read back. *)
Lemma scan_escape_point (n : Z) (rest : string) :
  JsonFull.valid_point n = true ->
  (JsonFull.is_high_surrogate n = true -> JsonFull.no_low_escape rest = true) ->
  JsonFull.scan_string (JsonFull.escape_point n ++ rest)
  = JsonFull.cons_point n (JsonFull.scan_string rest).
Proof.
  intros Hv Hrest. apply valid_point_range in Hv.
  destruct (Z.ltb_spec n 256) as [Hs|Hs].
  - rewrite <- (code_of_small n) by lia. apply scan_escape_small.
  - destruct (Z.ltb_spec n 65536) as [Hb|Hb].
    + rewrite escape_point_bmp by lia. apply scan_u_escape; [lia | exact Hrest].
    + rewrite escape_point_astral by lia. rewrite append_assoc.
      apply scan_u_pair. lia.
Qed.

(** The text of a string does not go on with the escape of a low
    surrogate, unless the string starts with one. *)
Lemma no_low_escape_escape (s : JsonFull.ustr) (rest : string) :
  forallb JsonFull.valid_point s = true ->
  match s with
  | b :: _ => JsonFull.is_low_surrogate b = false
  | [] => True
  end ->
  JsonFull.no_low_escape (JsonFull.escape s ++ String Json.dquote rest) = true.
Proof.
  destruct s as [|n s]; intros Hv Hlow.
  - cbn. now destruct rest.
  - cbn [forallb] in Hv. apply andb_true_iff in Hv as [Hn _].
    apply valid_point_range in Hn. cbn [JsonFull.escape]. rewrite append_assoc.
    destruct (Z.ltb_spec n 256) as [Hs|Hs].
    + rewrite <- (code_of_small n) by lia. apply no_low_escape_small.
    + destruct (Z.ltb_spec n 65536) as [Hb|Hb].
      * rewrite escape_point_bmp by lia.
        unfold JsonFull.u_escape, JsonFull.hex4_text. cbn [append].
        unfold JsonFull.no_low_escape. rewrite Ascii.eqb_refl.
        cbn [andb Ascii.eqb Bool.eqb]. rewrite hex4_text_value by lia.
        now rewrite Hlow.
      * rewrite escape_point_astral by lia. rewrite append_assoc.
        unfold JsonFull.u_escape at 1. unfold JsonFull.hex4_text at 1.
        cbn [append]. unfold JsonFull.no_low_escape. rewrite Ascii.eqb_refl.
        cbn [andb Ascii.eqb Bool.eqb].
        rewrite hex4_text_value by (Z.to_euclidean_division_equations; lia).
        unfold JsonFull.is_low_surrogate.
        destruct (Z.leb_spec 56320 (55296 + (n - 65536) / 1024)); [|reflexivity].
        exfalso. Z.to_euclidean_division_equations; lia.
Qed.

(** A string is read back from its text when no high surrogate in it is
    directly followed by a low one. *)
Lemma scan_escape_full (s : JsonFull.ustr) (rest : string) :
  forallb JsonFull.valid_point s = true -> JsonFull.no_pair s = true ->
  JsonFull.scan_string (JsonFull.escape s ++ String Json.dquote rest)
  = Some (s, rest).
Proof.
  induction s as [|n s IH]; intros Hv Hp.
  - cbn [JsonFull.escape append JsonFull.scan_string].
    now rewrite Ascii.eqb_refl.
  - cbn [forallb] in Hv. apply andb_true_iff in Hv as [Hn Hv].
    cbn [JsonFull.no_pair] in Hp. apply andb_true_iff in Hp as [Hh Hp].
    cbn [JsonFull.escape]. rewrite append_assoc.
    rewrite scan_escape_point; [now rewrite IH | exact Hn |].
    intros Hhigh. apply no_low_escape_escape; [exact Hv|].
    destruct s as [|b s]; [exact I|].
    rewrite Hhigh in Hh. cbn [andb] in Hh. now apply negb_true_iff in Hh.
Qed.

(** ** Numbers *)

(** What may follow a value starts no digit, no point, no exponent and
    no sign. *)
Lemma value_end_char (c : ascii) (r : string) :
  Json.value_end (String c r) = true ->
  JsonFull.is_digit c = false /\ Json.digit_of c = None
  /\ Ascii.eqb c "." = false /\ Ascii.eqb c "e" = false
  /\ Ascii.eqb c "E" = false /\ Ascii.eqb c "-" = false
  /\ Ascii.eqb c "+" = false /\ Ascii.eqb c "0" = false.
Proof.
  destruct c as [[|] [|] [|] [|] [|] [|] [|] [|]]; cbn; intros H;
    try discriminate; repeat split.
Qed.

Lemma scan_digits_append (a rest : string) :
  Json.value_end rest = true ->
  Json.scan_digits (a ++ rest)
  = (fst (Json.scan_digits a), snd (Json.scan_digits a) ++ rest).
Proof.
  intros Hend. induction a as [|c a IH].
  - cbn [append Json.scan_digits fst snd].
    destruct rest as [|c r]; [reflexivity|].
    destruct (value_end_char c r Hend) as (_ & Hd & _).
    cbn [Json.scan_digits]. now rewrite Hd.
  - cbn [append Json.scan_digits]. destruct (Json.digit_of c); [|reflexivity].
    rewrite IH. now destruct (Json.scan_digits a).
Qed.

Lemma scan_fraction_append (a rest : string) :
  Json.value_end rest = true ->
  JsonFull.scan_fraction (a ++ rest) = JsonFull.scan_fraction a ++ rest.
Proof.
  intros Hend. destruct a as [|c [|d a]]; cbn [append JsonFull.scan_fraction].
  - destruct rest as [|c [|d r]]; try reflexivity.
    destruct (value_end_char c _ Hend) as (_ & _ & Hp & _).
    cbn [JsonFull.scan_fraction]. now rewrite Hp.
  - destruct rest as [|d r]; [reflexivity|].
    destruct (value_end_char d r Hend) as (Hd & _). rewrite Hd.
    now rewrite andb_false_r.
  - destruct (Ascii.eqb c "." && JsonFull.is_digit d); [|reflexivity].
    now rewrite scan_digits_append.
Qed.

Lemma scan_exponent_append (a rest : string) :
  Json.value_end rest = true ->
  JsonFull.scan_exponent (a ++ rest) = JsonFull.scan_exponent a ++ rest.
Proof.
  intros Hend. destruct a as [|c a]; cbn [append JsonFull.scan_exponent].
  - destruct rest as [|c r]; [reflexivity|].
    destruct (value_end_char c r Hend) as (_ & _ & _ & He & HE & _).
    cbn [JsonFull.scan_exponent]. now rewrite He, HE.
  - destruct (Ascii.eqb c "e" || Ascii.eqb c "E"); [|reflexivity].
    assert (forall t, match t ++ rest with
                      | String d r2 =>
                          if JsonFull.is_digit d
                          then snd (Json.scan_digits r2)
                          else String c (a ++ rest)
                      | EmptyString => String c (a ++ rest)
                      end
                      = match t with
                        | String d r2 =>
                            if JsonFull.is_digit d
                            then snd (Json.scan_digits r2) ++ rest
                            else String c (a ++ rest)
                        | EmptyString => String c (a ++ rest)
                        end) as Htail.
    { intros [|d t]; cbn [append].
      - destruct rest as [|d r]; [reflexivity|].
        destruct (value_end_char d r Hend) as (Hd & _). now rewrite Hd.
      - destruct (JsonFull.is_digit d); [|reflexivity].
        now rewrite scan_digits_append. }
    destruct a as [|g a]; cbn [append].
    + destruct rest as [|g r]; [reflexivity|].
      destruct (value_end_char g r Hend) as (Hd & _ & _ & _ & _ & Hm & Hp & _).
      cbv beta iota. rewrite Hm, Hp. cbn [orb]. now rewrite Hd.
    + cbn [append] in Htail. destruct (Ascii.eqb g "-" || Ascii.eqb g "+").
      * rewrite Htail. destruct a as [|d a]; [reflexivity|].
        now destruct (JsonFull.is_digit d).
      * pose proof (Htail (String g a)) as H. cbn [append] in H.
        cbv beta iota. rewrite H. now destruct (JsonFull.is_digit g).
Qed.

Lemma scan_integer_append (a rest : string) :
  Json.value_end rest = true ->
  Json.scan_integer (a ++ rest)
  = match Json.scan_integer a with
    | Some (z, r) => Some (z, r ++ rest)
    | None => None
    end.
Proof.
  intros Hend.
  assert (forall negative t,
             match t ++ rest with
             | EmptyString => None
             | String c s2 =>
                 if Ascii.eqb c "0" then Some (0%Z, s2)
                 else match Json.digit_of c with
                      | None => None
                      | Some _ =>
                          let (u, r) := Json.scan_digits (t ++ rest) in
                          Some (if negative : bool
                                then Z.opp (Z.of_uint u) else Z.of_uint u, r)
                      end
             end
             = match match t with
                     | EmptyString => None
                     | String c s2 =>
                         if Ascii.eqb c "0" then Some (0%Z, s2)
                         else match Json.digit_of c with
                              | None => None
                              | Some _ =>
                                  let (u, r) := Json.scan_digits t in
                                  Some (if negative
                                        then Z.opp (Z.of_uint u) else Z.of_uint u, r)
                              end
                     end with
               | Some (z, r) => Some (z, r ++ rest)
               | None => None
               end) as Hbody.
  { intros negative [|c t]; cbn [append].
    - destruct rest as [|c r]; [reflexivity|].
      destruct (value_end_char c r Hend) as (_ & Hd & _ & _ & _ & _ & _ & Hz).
      cbv beta iota. now rewrite Hz, Hd.
    - destruct (Ascii.eqb c "0"); [reflexivity|].
      destruct (Json.digit_of c) eqn:Ed; [|reflexivity].
      change (String c (t ++ rest)) with (String c t ++ rest).
      rewrite scan_digits_append by exact Hend.
      now destruct (Json.scan_digits (String c t)). }
  unfold Json.scan_integer.
  destruct a as [|c a]; cbn [append].
  - destruct rest as [|c r]; [reflexivity|].
    destruct (value_end_char c r Hend) as (_ & Hd & _ & _ & _ & Hm & _ & Hz).
    cbv beta iota. rewrite Hm. cbv beta iota. now rewrite Hz, Hd.
  - destruct (Ascii.eqb c "-"); cbv beta iota.
    + exact (Hbody true a).
    + exact (Hbody false (String c a)).
Qed.

Lemma substring_prefix (a rest : string) :
  String.substring 0 (String.length (a ++ rest) - String.length rest) (a ++ rest)
  = a.
Proof.
  rewrite length_append.
  replace (String.length a + String.length rest - String.length rest)
    with (String.length a) by lia.
  induction a as [|c a IH]; cbn [String.length append String.substring].
  - now destruct rest.
  - now rewrite IH.
Qed.

(** A float literal is read as one, whatever admissible text follows. *)
Lemma scan_number_literal (repr rest : string) :
  JsonFull.is_float_literal repr = true -> Json.value_end rest = true ->
  JsonFull.scan_number (repr ++ rest) = Some (JsonFull.NumFloat repr, rest).
Proof.
  unfold JsonFull.is_float_literal, JsonFull.scan_number. intros H Hend.
  rewrite scan_integer_append by exact Hend.
  destruct (Json.scan_integer repr) as [[z r1]|]; [|discriminate].
  rewrite scan_fraction_append, scan_exponent_append by exact Hend.
  destruct (String.length (JsonFull.scan_exponent (JsonFull.scan_fraction r1))
            <? String.length r1)%nat eqn:E.
  - destruct (JsonFull.scan_exponent (JsonFull.scan_fraction r1)) as [|c r];
      [|discriminate].
    cbn [append]. rewrite length_append.
    apply Nat.ltb_lt in E. cbn [String.length] in E.
    assert ((String.length rest <? String.length r1 + String.length rest)%nat = true)
      as -> by (apply Nat.ltb_lt; lia).
    now rewrite substring_prefix.
  - destruct (Json.int_printable z); discriminate.
Qed.

(** An integer within the digit limit is read as one. *)
Lemma scan_number_encode (z : Z) (rest : string) :
  Json.int_printable z = true -> Json.value_end rest = true ->
  JsonFull.scan_number (Json.encode_int z ++ rest) = Some (JsonFull.NumInt z, rest).
Proof.
  intros Hz Hend. unfold JsonFull.scan_number.
  rewrite scan_integer_encode by now apply value_end_no_digit.
  pose proof (scan_fraction_append "" rest Hend) as Hf.
  pose proof (scan_exponent_append "" rest Hend) as He.
  cbn [JsonFull.scan_fraction JsonFull.scan_exponent append] in Hf, He.
  cbv zeta. rewrite Hf, He.
  now rewrite Nat.ltb_irrefl, Hz.
Qed.

(** The first character of a float literal starts a number. *)
Lemma float_literal_head (repr : string) :
  JsonFull.is_float_literal repr = true ->
  exists c s, repr = String c s /\ Json.number_start c = true
              /\ Json.value_start c = true.
Proof.
  unfold JsonFull.is_float_literal, JsonFull.scan_number, Json.scan_integer.
  destruct repr as [|c s]; [discriminate|]. intros H. exists c, s.
  split; [reflexivity|].
  destruct c as [[|] [|] [|] [|] [|] [|] [|] [|]];
    try (split; reflexivity); exfalso; revert H; cbn;
    try discriminate; destruct s; discriminate.
Qed.

(** ** Dictionaries with [str] keys *)

Lemma ustr_eqb_eq (a b : JsonFull.ustr) : JsonFull.ustr_eqb a b = true <-> a = b.
Proof.
  revert b. induction a as [|x a IH]; intros [|y b]; cbn; try easy.
  rewrite andb_true_iff, Z.eqb_eq, IH. split.
  - now intros [-> ->].
  - now intros [= -> ->].
Qed.

Lemma ustr_eqb_refl (a : JsonFull.ustr) : JsonFull.ustr_eqb a a = true.
Proof. now apply ustr_eqb_eq. Qed.

Lemma full_get_none (k : JsonFull.ustr) (d : list (JsonFull.ustr * JsonFull.value)) :
  ~ In k (map fst d) -> JsonFull.get k d = None.
Proof.
  induction d as [|[k' v] d IH]; cbn; intros H; [reflexivity|].
  destruct (JsonFull.ustr_eqb k k') eqn:E.
  - apply ustr_eqb_eq in E. subst. exfalso. apply H. now left.
  - apply IH. intros Hin. apply H. now right.
Qed.

Lemma full_set_absent (k : JsonFull.ustr) (v : JsonFull.value)
    (d : list (JsonFull.ustr * JsonFull.value)) :
  ~ In k (map fst d) -> JsonFull.set k v d = (d ++ [(k, v)])%list.
Proof.
  induction d as [|[k' v'] d IH]; cbn; intros H; [reflexivity|].
  destruct (JsonFull.ustr_eqb k k') eqn:E.
  - apply ustr_eqb_eq in E. subst. exfalso. apply H. now left.
  - rewrite IH; [reflexivity|]. intros Hin. apply H. now right.
Qed.

Lemma full_of_pairs_nodup (pairs : list (JsonFull.ustr * JsonFull.value)) :
  NoDup (map fst pairs) -> JsonFull.of_pairs pairs = pairs.
Proof.
  unfold JsonFull.of_pairs.
  assert (forall o d, NoDup (map fst d ++ map fst o) ->
            fold_left (fun acc kv => JsonFull.set (fst kv) (snd kv) acc) o d
            = (d ++ o)%list) as H.
  { induction o as [|[k v] o IH]; intros d Hnd; cbn.
    - now rewrite List.app_nil_r.
    - cbn in Hnd. pose proof (NoDup_remove_2 _ _ _ Hnd) as Hk.
      rewrite full_set_absent
        by (intros Hin; apply Hk, in_or_app; now left).
      rewrite IH.
      + now rewrite <- List.app_assoc.
      + rewrite List.map_app. cbn. now rewrite <- List.app_assoc. }
  intros Hnd. now rewrite H.
Qed.

Lemma full_get_in_nodup (k : JsonFull.ustr) (x : JsonFull.value)
    (d : list (JsonFull.ustr * JsonFull.value)) :
  NoDup (map fst d) -> In (k, x) d -> JsonFull.get k d = Some x.
Proof.
  induction d as [|[k' x'] d IH]; cbn; intros Hnd Hin; [contradiction|].
  inversion Hnd as [|? ? Hnotin Hnd']; subst.
  destruct Hin as [[= -> ->]|Hin].
  - now rewrite ustr_eqb_refl.
  - destruct (JsonFull.ustr_eqb k k') eqn:E; [|now apply IH].
    apply ustr_eqb_eq in E. subst k'. exfalso. apply Hnotin.
    apply in_map_iff. now exists (k, x).
Qed.

(** ** Values *)

Lemma value_nested_ind (P : JsonFull.value -> Prop) :
  P JsonFull.VNone ->
  (forall b, P (JsonFull.VBool b)) ->
  (forall z, P (JsonFull.VInt z)) ->
  (forall r, P (JsonFull.VFloat r)) ->
  (forall s, P (JsonFull.VStr s)) ->
  (forall items, Forall P items -> P (JsonFull.VList items)) ->
  (forall items, Forall P items -> P (JsonFull.VTuple items)) ->
  (forall d, Forall (fun kv => P (snd kv)) d -> P (JsonFull.VDict d)) ->
  forall v, P v.
Proof.
  intros HN HB HI HF HS HL HT HD.
  fix IH 1. intros [| b | z | r | s | items | items | d].
  - exact HN.
  - apply HB.
  - apply HI.
  - apply HF.
  - apply HS.
  - apply HL. induction items as [|x items IHl]; constructor; [apply IH | exact IHl].
  - apply HT. induction items as [|x items IHl]; constructor; [apply IH | exact IHl].
  - apply HD. induction d as [|[k x] d IHl]; constructor; [apply IH | exact IHl].
Qed.

Section FullFacts.
Variable constants : bool.
Variable float_of_text : string -> string.

Lemma full_literal_here (word : string) (v : JsonFull.value) (rest : string) :
  JsonFull.literal word v (word ++ rest) = Some (v, rest).
Proof.
  unfold JsonFull.literal.
  assert (PyStr.startswith word (word ++ rest) = true) as ->.
  { induction word as [|c w IH]; cbn; [reflexivity|].
    now rewrite Ascii.eqb_refl, IH. }
  now rewrite substring_append_tail.
Qed.

Lemma full_parse_value_number (fuel : nat) (c : ascii) (s : string) :
  Json.number_start c = true ->
  JsonFull.parse_value constants float_of_text (S fuel) (String c s)
  = match JsonFull.parse_number float_of_text (String c s) with
    | Some r => Some r
    | None => JsonFull.parse_constant constants c (String c s)
    end.
Proof.
  destruct c as [[|] [|] [|] [|] [|] [|] [|] [|]]; cbn; intros H;
    try discriminate; reflexivity.
Qed.

Lemma full_parse_value_string (f : nat) (t : string) :
  JsonFull.parse_value constants float_of_text (S f) (String Json.dquote t)
  = match JsonFull.scan_string t with
    | Some (str, rest) => Some (JsonFull.VStr str, rest)
    | None => None
    end.
Proof. reflexivity. Qed.

Lemma full_parse_value_array (f : nat) (t : string) :
  JsonFull.parse_value constants float_of_text (S f) (String "[" t)
  = match Json.skip_ws t with
    | String c1 r1 =>
        if Ascii.eqb c1 "]" then Some (JsonFull.VList [], r1)
        else match JsonFull.parse_items constants float_of_text f (String c1 r1) with
             | Some (items, rest) => Some (JsonFull.VList items, rest)
             | None => None
             end
    | EmptyString => None
    end.
Proof. reflexivity. Qed.

Lemma full_parse_items_unfold (f : nat) (t : string) :
  JsonFull.parse_items constants float_of_text (S f) t
  = match JsonFull.parse_value constants float_of_text f t with
    | None => None
    | Some (v, r) =>
        match Json.skip_ws r with
        | String c r1 =>
            if Ascii.eqb c "]" then Some ([v], r1)
            else if Ascii.eqb c "," then
              match JsonFull.parse_items constants float_of_text f (Json.skip_ws r1) with
              | Some (vs, rest) => Some (v :: vs, rest)
              | None => None
              end
            else None
        | EmptyString => None
        end
    end.
Proof. reflexivity. Qed.

Lemma full_parse_members_unfold (f : nat) (t : string) :
  JsonFull.parse_members constants float_of_text (S f) (String Json.dquote t)
  = match JsonFull.scan_string t with
    | None => None
    | Some (key, r) =>
        match Json.skip_ws r with
        | String c r1 =>
            if negb (Ascii.eqb c ":") then None
            else
              match JsonFull.parse_value constants float_of_text f (Json.skip_ws r1) with
              | None => None
              | Some (v, r2) =>
                  match Json.skip_ws r2 with
                  | String c2 r3 =>
                      if Ascii.eqb c2 "}" then Some ([(key, v)], r3)
                      else if Ascii.eqb c2 "," then
                        match JsonFull.parse_members constants float_of_text f
                                (Json.skip_ws r3) with
                        | Some (kvs, rest) => Some ((key, v) :: kvs, rest)
                        | None => None
                        end
                      else None
                  | EmptyString => None
                  end
              end
        | EmptyString => None
        end
    end.
Proof. reflexivity. Qed.

(** *** Floats *)

Lemma float_repr_cases (repr : string) :
  JsonFull.float_repr float_of_text repr ->
  (repr = "nan" \/ repr = "inf" \/ repr = "-inf")
  \/ (JsonFull.is_float_literal repr = true /\ float_of_text repr = repr
      /\ JsonFull.encode_float repr = repr
      /\ JsonFull.is_nonfinite repr = false).
Proof.
  intros [H|[Hl Hf]].
  - left. unfold JsonFull.is_nonfinite in H.
    apply orb_true_iff in H as [H|H]; [apply orb_true_iff in H as [H|H]|];
      apply String.eqb_eq in H; auto.
  - right. split; [exact Hl|]. split; [exact Hf|].
    unfold JsonFull.encode_float, JsonFull.is_nonfinite.
    destruct (String.eqb_spec repr "nan") as [->|_]; [discriminate|].
    destruct (String.eqb_spec repr "inf") as [->|_]; [discriminate|].
    destruct (String.eqb_spec repr "-inf") as [->|_]; [discriminate|].
    now split.
Qed.

Lemma parse_value_float (repr rest : string) (fuel : nat) :
  JsonFull.float_repr float_of_text repr ->
  (constants = false -> JsonFull.is_nonfinite repr = false) ->
  Json.value_end rest = true ->
  JsonFull.parse_value constants float_of_text (S fuel)
    (JsonFull.encode_float repr ++ rest)
  = Some (JsonFull.VFloat repr, rest).
Proof.
  intros Hr Hfin Hend.
  destruct (float_repr_cases repr Hr) as [ [-> | [-> | ->] ] | (Hl & Hf & He & _)].
  - destruct constants; [|now specialize (Hfin eq_refl)].
    change (JsonFull.encode_float "nan" ++ rest) with (String "N" ("aN" ++ rest)).
    change (JsonFull.parse_value true float_of_text (S fuel) (String "N" ("aN" ++ rest)))
      with (JsonFull.literal "NaN" (JsonFull.VFloat "nan") ("NaN" ++ rest)).
    apply full_literal_here.
  - destruct constants; [|now specialize (Hfin eq_refl)].
    change (JsonFull.encode_float "inf" ++ rest)
      with (String "I" ("nfinity" ++ rest)).
    change (JsonFull.parse_value true float_of_text (S fuel)
              (String "I" ("nfinity" ++ rest)))
      with (JsonFull.literal "Infinity" (JsonFull.VFloat "inf") ("Infinity" ++ rest)).
    apply full_literal_here.
  - destruct constants; [|now specialize (Hfin eq_refl)].
    change (JsonFull.encode_float "-inf" ++ rest)
      with (String "-" (String "I" ("nfinity" ++ rest))).
    change (JsonFull.parse_value true float_of_text (S fuel)
              (String "-" (String "I" ("nfinity" ++ rest))))
      with (JsonFull.literal "-Infinity" (JsonFull.VFloat "-inf")
              ("-Infinity" ++ rest)).
    apply full_literal_here.
  - rewrite He. destruct (float_literal_head repr Hl) as (c & s & E & Hn & _).
    rewrite E. cbn [append]. rewrite full_parse_value_number by exact Hn.
    change (String c (s ++ rest)) with (String c s ++ rest). rewrite <- E.
    unfold JsonFull.parse_number. rewrite scan_number_literal by assumption.
    now rewrite Hf.
Qed.

Lemma full_dumps_head (v : JsonFull.value) :
  JsonFull.python_value float_of_text v ->
  exists c s, JsonFull.dumps v = String c s /\ Json.value_start c = true.
Proof.
  destruct v as [| [|] | z | r | s | items | items | d]; intros Hv;
    try (do 2 eexists; split; [reflexivity | reflexivity]).
  - destruct (encode_int_head z) as (c & s & E & _ & H & _).
    exists c, s. now split.
  - cbn [JsonFull.dumps].
    destruct (float_repr_cases r Hv) as [ [-> | [-> | ->] ] | (Hl & _ & He & _)];
      try (do 2 eexists; split; [reflexivity | reflexivity]).
    rewrite He. destruct (float_literal_head r Hl) as (c & s & E & _ & H).
    exists c, s. now split.
Qed.

(** *** Arrays and objects *)

Lemma python_value_items (items : list JsonFull.value) :
  JsonFull.python_value float_of_text (JsonFull.VList items) ->
  Forall (JsonFull.python_value float_of_text) items.
Proof.
  cbn. induction items as [|x items IH]; intros H; constructor; [tauto|].
  apply IH. tauto.
Qed.

Lemma python_value_members (d : list (JsonFull.ustr * JsonFull.value)) :
  JsonFull.python_value float_of_text (JsonFull.VDict d) ->
  NoDup (map fst d)
  /\ Forall (fun kv => forallb JsonFull.valid_point (fst kv) = true
                       /\ JsonFull.python_value float_of_text (snd kv)) d.
Proof.
  cbn. intros [Hnd H]. split; [exact Hnd|]. clear Hnd.
  induction d as [|[k x] d IH]; constructor; [cbn; tauto|].
  apply IH. tauto.
Qed.

Lemma full_join_dumps_head (v : JsonFull.value) (items : list JsonFull.value) :
  JsonFull.python_value float_of_text v ->
  exists c s, PyStr.join ", " (map JsonFull.dumps (v :: items)) = String c s
              /\ Json.value_start c = true.
Proof.
  intros Hv. destruct (full_dumps_head v Hv) as (c & s & E & H).
  destruct items as [|v' items]; cbn [map].
  - rewrite join_one. now exists c, s.
  - rewrite join_more, E. cbn [append]. now do 2 eexists.
Qed.

Lemma full_parse_items_dumps (items : list JsonFull.value) :
  Forall (JsonFull.roundtrips constants float_of_text) items ->
  Forall (JsonFull.python_value float_of_text) items -> items <> [] ->
  forall fuel rest,
    String.length (PyStr.join ", " (map JsonFull.dumps items)) < fuel ->
    JsonFull.parse_items constants float_of_text fuel
      (PyStr.join ", " (map JsonFull.dumps items) ++ String "]" rest)
    = Some (items, rest).
Proof.
  induction items as [|v items IH]; intros Hall Hpy Hne fuel rest Hlen; [congruence|].
  inversion Hall as [|? ? Hv Hall']; subst.
  inversion Hpy as [|? ? Hpv Hpy']; subst.
  destruct fuel as [|f]; [lia|].
  destruct items as [|v' items].
  - cbn [map] in *. rewrite join_one in *. rewrite full_parse_items_unfold.
    rewrite (Hv f (String "]" rest)) by (lia || reflexivity).
    reflexivity.
  - cbn [map] in *. rewrite join_more in *.
    rewrite !length_append in Hlen. cbn [String.length] in Hlen.
    rewrite !append_assoc. rewrite full_parse_items_unfold.
    rewrite (Hv f) by (lia || reflexivity).
    cbn [append Json.skip_ws Json.is_ws Ascii.eqb Bool.eqb orb].
    inversion Hpy' as [|? ? Hpv' _]; subst.
    destruct (full_join_dumps_head v' items Hpv') as (c & s & E & Hc).
    cbn [map] in E. rewrite E. cbn [append]. rewrite skip_ws_start by exact Hc.
    change (String c (s ++ String "]" rest)) with (String c s ++ String "]" rest).
    rewrite <- E. rewrite IH; [reflexivity | exact Hall' | exact Hpy' | discriminate | lia].
Qed.

Lemma full_member_append (k : JsonFull.ustr) (x : JsonFull.value) (tail : string) :
  (JsonFull.encode_string k ++ ": " ++ JsonFull.dumps x) ++ tail
  = String Json.dquote
      (JsonFull.escape k
       ++ String Json.dquote (String ":" (String " " (JsonFull.dumps x ++ tail)))).
Proof.
  unfold JsonFull.encode_string. cbn [append]. rewrite !append_assoc. reflexivity.
Qed.

Lemma full_parse_member_step (f : nat) (k : JsonFull.ustr) (x : JsonFull.value)
    (tail : string) :
  forallb JsonFull.valid_point k = true -> JsonFull.no_pair k = true ->
  JsonFull.python_value float_of_text x ->
  JsonFull.roundtrips constants float_of_text x ->
  String.length (JsonFull.dumps x) <= f -> Json.value_end tail = true ->
  JsonFull.parse_members constants float_of_text (S f)
    (String Json.dquote
       (JsonFull.escape k
        ++ String Json.dquote (String ":" (String " " (JsonFull.dumps x ++ tail)))))
  = match Json.skip_ws tail with
    | String c2 r3 =>
        if Ascii.eqb c2 "}" then Some ([(k, x)], r3)
        else if Ascii.eqb c2 "," then
          match JsonFull.parse_members constants float_of_text f (Json.skip_ws r3) with
          | Some (kvs, rest) => Some ((k, x) :: kvs, rest)
          | None => None
          end
        else None
    | EmptyString => None
    end.
Proof.
  intros Hk Hp Hpy Hx Hlen Hend. rewrite full_parse_members_unfold.
  rewrite scan_escape_full by assumption.
  cbn [Json.skip_ws Json.is_ws Ascii.eqb Bool.eqb orb negb].
  destruct (full_dumps_head x Hpy) as (c & s & E & Hc).
  rewrite E. cbn [append]. rewrite skip_ws_start by exact Hc.
  change (String c (s ++ tail)) with (String c s ++ tail). rewrite <- E.
  now rewrite (Hx f tail Hlen Hend).
Qed.

Lemma full_length_member (k : JsonFull.ustr) (x : JsonFull.value) :
  String.length (JsonFull.encode_string k ++ ": " ++ JsonFull.dumps x)
  = String.length (JsonFull.escape k) + String.length (JsonFull.dumps x) + 4.
Proof.
  unfold JsonFull.encode_string. cbn [append String.length].
  rewrite !length_append. cbn [String.length]. lia.
Qed.

Local Abbreviation full_member_text :=
  (fun kv : JsonFull.ustr * JsonFull.value =>
     match kv with
     | (k, x) => JsonFull.encode_string k ++ ": " ++ JsonFull.dumps x
     end).

Lemma full_members_head (k : JsonFull.ustr) (x : JsonFull.value)
    (d : list (JsonFull.ustr * JsonFull.value)) (tail : string) :
  exists s, PyStr.join ", " (map full_member_text ((k, x) :: d)) ++ tail
            = String Json.dquote s.
Proof.
  destruct d as [|[k' x'] d]; cbn [map].
  - rewrite join_one. unfold JsonFull.encode_string. cbn [append]. now eexists.
  - rewrite join_more. unfold JsonFull.encode_string at 1. cbn [append]. now eexists.
Qed.

Lemma full_parse_members_dumps (d : list (JsonFull.ustr * JsonFull.value)) :
  Forall (fun kv => forallb JsonFull.valid_point (fst kv) = true
                    /\ JsonFull.no_pair (fst kv) = true
                    /\ JsonFull.python_value float_of_text (snd kv)
                    /\ JsonFull.roundtrips constants float_of_text (snd kv)) d ->
  d <> [] ->
  forall fuel rest,
    String.length (PyStr.join ", " (map full_member_text d)) < fuel ->
    JsonFull.parse_members constants float_of_text fuel
      (PyStr.join ", " (map full_member_text d) ++ String "}" rest)
    = Some (d, rest).
Proof.
  induction d as [|[k x] d IH]; intros Hall Hne fuel rest Hlen; [congruence|].
  inversion Hall as [|? ? Hx Hall']; subst. cbn [fst snd] in Hx.
  destruct Hx as (Hk & Hp & Hpy & Hx).
  destruct fuel as [|f]; [lia|].
  destruct d as [|[k' x'] d].
  - cbn [map] in *. rewrite join_one in *. rewrite full_length_member in Hlen.
    rewrite full_member_append.
    rewrite full_parse_member_step by (assumption || lia || reflexivity).
    reflexivity.
  - cbn [map] in Hlen |- *. rewrite join_more in Hlen |- *.
    change ((JsonFull.encode_string k' ++ ": " ++ JsonFull.dumps x')
              :: map full_member_text d)
      with (map full_member_text ((k', x') :: d)) in Hlen |- *.
    rewrite length_append, full_length_member, length_append in Hlen.
    cbn [String.length] in Hlen.
    rewrite append_assoc, full_member_append.
    rewrite full_parse_member_step by (assumption || lia || reflexivity).
    rewrite append_assoc.
    destruct (full_members_head k' x' d (String "}" rest)) as [s Es].
    rewrite Es.
    change (Json.skip_ws (", " ++ String Json.dquote s))
      with (String "," (String " " (String Json.dquote s))).
    cbn [Ascii.eqb Bool.eqb].
    change (Json.skip_ws (String " " (String Json.dquote s)))
      with (String Json.dquote s).
    rewrite <- Es.
    rewrite (IH Hall'); [reflexivity | discriminate | lia].
Qed.

Lemma full_dumps_dict (d : list (JsonFull.ustr * JsonFull.value)) :
  JsonFull.dumps (JsonFull.VDict d)
  = String "{" (PyStr.join ", " (map full_member_text d) ++ "}").
Proof. reflexivity. Qed.

Lemma full_parse_value_object (f : nat) (t : string) :
  JsonFull.parse_value constants float_of_text (S f) (String "{" t)
  = match Json.skip_ws t with
    | String c1 r1 =>
        if Ascii.eqb c1 "}" then Some (JsonFull.VDict [], r1)
        else match JsonFull.parse_members constants float_of_text f (String c1 r1) with
             | Some (pairs, rest) =>
                 Some (JsonFull.VDict (JsonFull.of_pairs pairs), rest)
             | None => None
             end
    | EmptyString => None
    end.
Proof. reflexivity. Qed.

(** [parse_value] reads back what [dumps] writes for a value without
    tuples and without a surrogate pair written as two code points; with
    the constants it also reads the floats that are no numbers. *)
Lemma full_dumps_roundtrips (v : JsonFull.value) :
  JsonFull.python_value float_of_text v ->
  JsonFull.serializable v = true ->
  JsonFull.no_tuple v = true ->
  JsonFull.no_surrogate_pair v = true ->
  (constants = false -> JsonFull.finite_floats v = true) ->
  JsonFull.roundtrips constants float_of_text v.
Proof.
  induction v as [| b | z | r | s | items IH | items IH | d IH]
    using value_nested_ind; intros Hpy Hser Hnat Hsur Hfin fuel rest Hlen Hend.
  - destruct fuel as [|f]; [cbn in Hlen; lia|].
    cbn [JsonFull.dumps]. apply (full_literal_here "null" JsonFull.VNone rest).
  - destruct fuel as [|f]; [destruct b; cbn in Hlen; lia|].
    destruct b; cbn [JsonFull.dumps].
    + apply (full_literal_here "true" (JsonFull.VBool true) rest).
    + apply (full_literal_here "false" (JsonFull.VBool false) rest).
  - cbn [JsonFull.dumps JsonFull.serializable] in *.
    destruct (encode_int_head z) as (c & s & E & Hn & _).
    destruct fuel as [|f]; [rewrite E in Hlen; cbn in Hlen; lia|].
    rewrite E. cbn [append]. rewrite full_parse_value_number by exact Hn.
    change (String c (s ++ rest)) with (String c s ++ rest). rewrite <- E.
    unfold JsonFull.parse_number. now rewrite scan_number_encode.
  - cbn [JsonFull.dumps] in *.
    destruct fuel as [|f].
    { destruct (full_dumps_head (JsonFull.VFloat r) Hpy) as (c & s & E & _).
      cbn [JsonFull.dumps] in E. rewrite E in Hlen. cbn in Hlen. lia. }
    apply parse_value_float; [exact Hpy | | exact Hend].
    intros Hk. specialize (Hfin Hk). cbn [JsonFull.finite_floats] in Hfin.
    now apply negb_true_iff in Hfin.
  - destruct fuel as [|f]; [cbn in Hlen; lia|].
    cbn [JsonFull.dumps]. unfold JsonFull.encode_string. cbn [append].
    rewrite append_assoc. cbn [append]. rewrite full_parse_value_string.
    now rewrite scan_escape_full.
  - destruct fuel as [|f]; [cbn in Hlen; lia|].
    cbn [JsonFull.dumps] in *. cbn [append] in *. rewrite append_assoc. cbn [append].
    cbn [String.length] in Hlen. rewrite length_append in Hlen.
    cbn [String.length] in Hlen.
    apply python_value_items in Hpy.
    destruct items as [|v items].
    + reflexivity.
    + inversion Hpy as [|? ? Hpv _]; subst.
      destruct (full_join_dumps_head v items Hpv) as (c & s & E & Hc).
      rewrite full_parse_value_array. rewrite E. cbn [append].
      rewrite skip_ws_start by exact Hc.
      pose proof Hc as Hc'. unfold Json.value_start in Hc'.
      apply andb_true_iff in Hc' as [Hc' _]. apply andb_true_iff in Hc' as [_ Hb].
      apply negb_true_iff in Hb. rewrite Hb.
      change (String c (s ++ String "]" rest)) with (String c s ++ String "]" rest).
      rewrite <- E.
      rewrite full_parse_items_dumps;
        [reflexivity | | exact Hpy | discriminate | lia].
      cbn [JsonFull.serializable JsonFull.no_tuple JsonFull.no_surrogate_pair] in *.
      rewrite forallb_forall in Hser, Hnat, Hsur. rewrite Forall_forall in *.
      intros y Hy. apply IH; auto.
      intros Hk. specialize (Hfin Hk). cbn [JsonFull.finite_floats] in Hfin.
      rewrite forallb_forall in Hfin. auto.
  - discriminate.
  - rewrite full_dumps_dict in *. rewrite append_cons in *.
    cbn [String.length] in Hlen. rewrite length_append in Hlen.
    cbn [String.length] in Hlen.
    destruct fuel as [|f]; [lia|].
    rewrite append_assoc. change ("}" ++ rest) with (String "}" rest).
    rewrite full_parse_value_object.
    apply python_value_members in Hpy as [Hnd Hpy].
    destruct d as [|[k x] d].
    + reflexivity.
    + destruct (full_members_head k x d (String "}" rest)) as [s Es].
      rewrite Es.
      change (Json.skip_ws (String Json.dquote s)) with (String Json.dquote s).
      change (Ascii.eqb Json.dquote "}") with false. cbv iota. rewrite <- Es.
      rewrite full_parse_members_dumps; [| | discriminate | lia].
      * now rewrite full_of_pairs_nodup.
      * cbn [JsonFull.serializable JsonFull.no_tuple JsonFull.no_surrogate_pair] in *.
        rewrite forallb_forall in Hser, Hnat, Hsur. rewrite Forall_forall in *.
        intros [k1 x1] Hy. cbn [fst snd].
        destruct (Hpy (k1, x1) Hy) as [Hk1 Hx1]. cbn [fst snd] in Hk1, Hx1.
        pose proof (Hsur (k1, x1) Hy) as Hs1. cbn beta iota in Hs1.
        apply andb_true_iff in Hs1 as [Hs1 Hs2].
        repeat split; try assumption.
        apply (IH (k1, x1) Hy); try assumption.
        -- apply (Hser (k1, x1) Hy).
        -- apply (Hnat (k1, x1) Hy).
        -- intros Hk. specialize (Hfin Hk). cbn [JsonFull.finite_floats] in Hfin.
           rewrite forallb_forall in Hfin. apply (Hfin (k1, x1) Hy).
Qed.

Lemma full_dumps_skip_ws (v : JsonFull.value) :
  JsonFull.python_value float_of_text v ->
  Json.skip_ws (JsonFull.dumps v) = JsonFull.dumps v.
Proof.
  intros Hv. destruct (full_dumps_head v Hv) as (c & s & E & Hc). rewrite E.
  now apply skip_ws_start.
Qed.

(** [json.loads(json.dumps(v))] is [v]. *)
Lemma full_loads_dumps (v : JsonFull.value) :
  JsonFull.python_value float_of_text v ->
  JsonFull.serializable v = true ->
  JsonFull.no_tuple v = true ->
  JsonFull.no_surrogate_pair v = true ->
  (constants = false -> JsonFull.finite_floats v = true) ->
  JsonFull.loads constants float_of_text (JsonFull.dumps v) = Some v.
Proof.
  intros Hpy Hser Hnat Hsur Hfin. unfold JsonFull.loads.
  rewrite full_dumps_skip_ws by exact Hpy.
  rewrite <- (append_empty_r (JsonFull.dumps v)) at 2.
  rewrite (full_dumps_roundtrips v Hpy Hser Hnat Hsur Hfin) by (lia || reflexivity).
  reflexivity.
Qed.

End FullFacts.

(** ** Python equality *)

Lemma full_py_eqb_refl (float_of_text : string -> string) (v : JsonFull.value) :
  JsonFull.python_value float_of_text v -> JsonFull.no_nan v = true ->
  JsonFull.py_eqb v v = true.
Proof.
  induction v as [| b | z | r | s | items IH | items IH | d IH]
    using value_nested_ind; intros Hpy Hfin; cbn [JsonFull.py_eqb].
  - reflexivity.
  - now destruct b.
  - apply Z.eqb_refl.
  - cbn [JsonFull.no_nan] in Hfin. apply negb_true_iff in Hfin.
    unfold JsonFull.float_eqb. now rewrite Hfin, String.eqb_refl.
  - apply ustr_eqb_refl.
  - apply python_value_items in Hpy. cbn [JsonFull.no_nan] in Hfin.
    induction items as [|x items IHl]; [reflexivity|].
    inversion IH; inversion Hpy; subst. cbn [forallb] in Hfin.
    apply andb_true_iff in Hfin as [Hx Hfin]. cbn [items_eqb].
    apply andb_true_iff. split; auto.
  - apply (python_value_items float_of_text) in Hpy.
    cbn [JsonFull.no_nan] in Hfin.
    induction items as [|x items IHl]; [reflexivity|].
    inversion IH; inversion Hpy; subst. cbn [forallb] in Hfin.
    apply andb_true_iff in Hfin as [Hx Hfin]. cbn [items_eqb].
    apply andb_true_iff. split; auto.
  - apply python_value_members in Hpy as [Hnd Hpy].
    cbn [JsonFull.no_nan] in Hfin. rewrite forallb_forall in Hfin.
    rewrite Nat.eqb_refl. cbn [andb].
    assert (forall xs, incl xs d -> JsonFull.lookup_all JsonFull.py_eqb xs d = true)
      as Hall.
    { induction xs as [|[k x] xs IHx]; intros Hincl; [reflexivity|].
      cbn [JsonFull.lookup_all].
      assert (In (k, x) d) as Hin by (apply Hincl; now left).
      rewrite (full_get_in_nodup k x d Hnd Hin).
      rewrite Forall_forall in IH, Hpy.
      pose proof (IH (k, x) Hin (proj2 (Hpy (k, x) Hin)) (Hfin (k, x) Hin)) as Hx.
      cbn [snd] in Hx. rewrite Hx. cbn [andb].
      apply IHx. intros y Hy. apply Hincl. now right. }
    apply Hall. apply incl_refl.
Qed.

(** ** The values of [pyvalue]: the same text *)

Lemma escape_point_code (c : ascii) :
  JsonFull.escape_point (JsonFull.code c) = Json.escape_char c.
Proof.
  destruct c as [[|] [|] [|] [|] [|] [|] [|] [|]]; reflexivity.
Qed.

Lemma encode_string_points (s : string) :
  JsonFull.encode_string (JsonFull.points s) = Json.encode_string s.
Proof.
  unfold JsonFull.encode_string, Json.encode_string. do 2 f_equal.
  induction s as [|c s IH]; [reflexivity|].
  change (JsonFull.points (String c s)) with (JsonFull.code c :: JsonFull.points s).
  cbn [JsonFull.escape Json.escape]. now rewrite escape_point_code, IH.
Qed.

(** [json.dumps] of the full model writes what [Json.dumps] writes. *)
Lemma dumps_of_pyvalue (v : pyvalue) :
  JsonFull.dumps (JsonFull.of_pyvalue v) = Json.dumps v.
Proof.
  induction v as [| b | z | s | items IH | items IH | d IH]
    using pyvalue_nested_ind; cbn [JsonFull.of_pyvalue JsonFull.dumps Json.dumps];
    try reflexivity.
  - apply encode_string_points.
  - do 3 f_equal. rewrite map_map. apply map_ext_in.
    rewrite Forall_forall in IH. exact IH.
  - do 3 f_equal. rewrite map_map. apply map_ext_in.
    rewrite Forall_forall in IH. exact IH.
  - do 3 f_equal. rewrite map_map. apply map_ext_in.
    rewrite Forall_forall in IH. intros [k x] Hin.
    pose proof (IH (k, x) Hin) as Hx. cbn [snd] in Hx.
    now rewrite encode_string_points, Hx.
Qed.

(** C7 (amended): for every non-empty variable mapping of [None],
    booleans, integers, floats, strings of any code points, lists and
    dictionaries with string keys that [json.dumps] can write, and that
    holds no tuple, no [nan], and no string in which a high surrogate is
    directly followed by a low surrogate, [json.loads] reads the argument
    that follows [--extra-vars], and what it returns is the mapping itself,
    hence equal to it.  When no float of the mapping is infinite the
    argument is valid JSON: it is read also with [NaN] and [Infinity]
    refused.  For a mapping of [pyvalue] the argument is the one in the
    command of [run_playbook].  [float_of_text] is [float] followed by
    [repr]; that it gives back the [repr] of each float of the mapping is
    the guarantee of [repr], and part of [python_value]. *)
Theorem extra_vars_argument_roundtrip (float_of_text : string -> string)
    (extra_vars : list (JsonFull.ustr * JsonFull.value)) :
  extra_vars <> [] ->
  JsonFull.python_value float_of_text (JsonFull.VDict extra_vars) ->
  JsonFull.serializable (JsonFull.VDict extra_vars) = true ->
  JsonFull.no_tuple (JsonFull.VDict extra_vars) = true ->
  JsonFull.no_nan (JsonFull.VDict extra_vars) = true ->
  JsonFull.no_surrogate_pair (JsonFull.VDict extra_vars) = true ->
  exists json_text decoded,
    JsonFull.extra_vars_argument (Some extra_vars) = Some json_text
    /\ JsonFull.loads true float_of_text json_text = Some decoded
    /\ decoded = JsonFull.VDict extra_vars
    /\ JsonFull.py_eqb decoded (JsonFull.VDict extra_vars) = true
    /\ (JsonFull.finite_floats (JsonFull.VDict extra_vars) = true ->
        JsonFull.loads false float_of_text json_text = Some decoded)
    /\ forall (ev : pydict) (path : string) (limit_hosts : option string)
              (tags : option (list string)) (verbose : bool),
         JsonFull.of_pydict ev = extra_vars ->
         exists front,
           build_command path (Some ev) limit_hosts tags verbose
           = (front ++ ["--extra-vars"; json_text])%list.
Proof.
  intros Hne Hpy Hser Hnat Hnan Hsur.
  exists (JsonFull.dumps (JsonFull.VDict extra_vars)), (JsonFull.VDict extra_vars).
  split; [now destruct extra_vars|].
  split; [apply full_loads_dumps; (assumption || discriminate)|].
  split; [reflexivity|].
  split; [now apply (full_py_eqb_refl float_of_text)|].
  split; [intros Hfin; now apply full_loads_dumps|].
  intros ev path limit_hosts tags verbose Hev.
  exists ("ansible-playbook" :: path
            :: segment verbose ["-vvv"]
            ++ segment (given_str limit_hosts) ["-l"; value_or "" limit_hosts]
            ++ segment (given_tags tags) ["-t"; PyStr.join "," (value_or [] tags)])%list.
  rewrite build_command_segments.
  assert (JsonFull.dumps (JsonFull.VDict extra_vars) = Json.dumps (PyDict ev)) as ->.
  { rewrite <- Hev. apply (dumps_of_pyvalue (PyDict ev)). }
  destruct ev as [|kv d]; [now subst extra_vars|].
  cbn [given_vars segment value_or]. cbn [app]. now rewrite <- !List.app_assoc.
Qed.

Lemma extra_vars_argument_roundtrip_witness :
  let q := Json.quote in
  (let extra_vars := JsonFull.of_pydict [("a", PyInt 1); ("b", PyStr "x")] in
   let json_text :=
     "{" ++ q ++ "a" ++ q ++ ": 1, " ++ q ++ "b" ++ q ++ ": " ++ q ++ "x" ++ q ++ "}" in
   JsonFull.extra_vars_argument (Some extra_vars) = Some json_text
   /\ JsonFull.loads false (fun text => text) json_text
      = Some (JsonFull.VDict extra_vars)
   /\ build_command "/a/playbooks/site.yml" (Some [("a", PyInt 1); ("b", PyStr "x")])
        None None false
      = ["ansible-playbook"; "/a/playbooks/site.yml"; "--extra-vars"; json_text])
  /\
  (let extra_vars :=
     [([114%Z], JsonFull.VFloat "1.5");
      ([8364%Z], JsonFull.VStr [128512%Z; 233%Z; 55357%Z])] in
   let json_text :=
     "{" ++ q ++ "r" ++ q ++ ": 1.5, " ++ q ++ "\u20ac" ++ q ++ ": "
         ++ q ++ "\ud83d\ude00\u00e9\ud83d" ++ q ++ "}" in
   JsonFull.extra_vars_argument (Some extra_vars) = Some json_text
   /\ JsonFull.loads false (fun text => text) json_text
      = Some (JsonFull.VDict extra_vars)).
Proof.
  split.
  - assert (JsonFull.python_value (fun text => text)
              (JsonFull.VDict
                 (JsonFull.of_pydict [("a", PyInt 1); ("b", PyStr "x")]))) as Hpy.
    { cbn. repeat split; repeat constructor; cbn; intuition discriminate. }
    destruct (extra_vars_argument_roundtrip (fun text => text)
                (JsonFull.of_pydict [("a", PyInt 1); ("b", PyStr "x")])
                ltac:(discriminate) Hpy eq_refl eq_refl eq_refl eq_refl)
      as (json_text & decoded & Harg & _ & Hdec & _ & Hstrict & _).
    injection Harg as <-. subst decoded.
    split; [reflexivity|]. split; [exact (Hstrict eq_refl) | reflexivity].
  - assert (JsonFull.python_value (fun text => text)
              (JsonFull.VDict
                 [([114%Z], JsonFull.VFloat "1.5");
                  ([8364%Z], JsonFull.VStr [128512%Z; 233%Z; 55357%Z])])) as Hpy.
    { split; [repeat constructor; cbn; intuition discriminate|].
      split; [reflexivity|]. split; [right; split; reflexivity|].
      split; [reflexivity|]. split; [reflexivity | exact I]. }
    destruct (extra_vars_argument_roundtrip (fun text => text)
                [([114%Z], JsonFull.VFloat "1.5");
                 ([8364%Z], JsonFull.VStr [128512%Z; 233%Z; 55357%Z])]
                ltac:(discriminate) Hpy eq_refl eq_refl eq_refl eq_refl)
      as (json_text & decoded & Harg & _ & Hdec & _ & Hstrict & _).
    injection Harg as <-. subst decoded.
    split; [reflexivity | exact (Hstrict eq_refl)].
Defined.

(** The other values C7 as stated fails on, beside the tuple: [nan] is
    written as [NaN], which is no JSON and which no float equals; an
    infinite float is written as [Infinity], which is no JSON; a high and
    a low surrogate side by side come back as the one code point of their
    pair. *)
Lemma other_values_do_not_roundtrip :
  let q := Json.quote in
  let loads := JsonFull.loads true (fun text => text) in
  let strict := JsonFull.loads false (fun text => text) in
  (let extra_vars := [([120%Z], JsonFull.VFloat "nan")] in
   JsonFull.extra_vars_argument (Some extra_vars)
   = Some ("{" ++ q ++ "x" ++ q ++ ": NaN}")
   /\ strict ("{" ++ q ++ "x" ++ q ++ ": NaN}") = None
   /\ loads ("{" ++ q ++ "x" ++ q ++ ": NaN}") = Some (JsonFull.VDict extra_vars)
   /\ JsonFull.py_eqb (JsonFull.VDict extra_vars) (JsonFull.VDict extra_vars) = false)
  /\ (let extra_vars := [([120%Z], JsonFull.VFloat "inf")] in
      JsonFull.extra_vars_argument (Some extra_vars)
      = Some ("{" ++ q ++ "x" ++ q ++ ": Infinity}")
      /\ strict ("{" ++ q ++ "x" ++ q ++ ": Infinity}") = None
      /\ loads ("{" ++ q ++ "x" ++ q ++ ": Infinity}")
         = Some (JsonFull.VDict extra_vars))
  /\ (let extra_vars := [([120%Z], JsonFull.VStr [55357%Z; 56832%Z])] in
      JsonFull.extra_vars_argument (Some extra_vars)
      = Some ("{" ++ q ++ "x" ++ q ++ ": " ++ q ++ "\ud83d\ude00" ++ q ++ "}")
      /\ loads ("{" ++ q ++ "x" ++ q ++ ": " ++ q ++ "\ud83d\ude00" ++ q ++ "}")
         = Some (JsonFull.VDict [([120%Z], JsonFull.VStr [128512%Z])])
      /\ JsonFull.py_eqb (JsonFull.VDict [([120%Z], JsonFull.VStr [128512%Z])])
           (JsonFull.VDict extra_vars) = false)
  /\ (let extra_vars := [([120%Z], JsonFull.VTuple [JsonFull.VInt 80])] in
      JsonFull.extra_vars_argument (Some extra_vars)
      = Some ("{" ++ q ++ "x" ++ q ++ ": [80]}")
      /\ loads ("{" ++ q ++ "x" ++ q ++ ": [80]}")
         = Some (JsonFull.VDict [([120%Z], JsonFull.VList [JsonFull.VInt 80])])
      /\ JsonFull.py_eqb (JsonFull.VDict [([120%Z], JsonFull.VList [JsonFull.VInt 80])])
           (JsonFull.VDict extra_vars) = false).
Proof.
  cbv zeta. repeat split; vm_compute; reflexivity.
Qed.
